(** * Financial data extraction: the tool-calling driver, the field
      extractor and the content-fetch tool

    A shallow embedding of [api_client.py], [data_processor.py] and
    [url_scraper.py].

    Conventions of the embedding.
    - Python values that travel as JSON (payloads, messages, responses) are
      values of [Json]; a [dict] is an association list in insertion order.
    - A Python [str] is a [string]; its characters are read as the code
      points U+0000..U+00FF.
    - A computation that may raise is a value of [Py]: [Ret v] when it
      returns [v], [Raise e] when an exception that derives from
      [Exception] leaves it.  [exc_str e] is what [str(e)] prints (wording
      of CPython 3.11).
    - Calls into libraries ([requests], [json.loads], [BeautifulSoup]) are
      taken as parameters: their outcome is data of the model. *)

From Stdlib Require Import String Ascii List ZArith QArith Bool Lia Arith.
From Stdlib Require Import DecimalString.
Import ListNotations.
Set Warnings "-register-all".
Close Scope Q_scope.
Open Scope list_scope.
Open Scope string_scope.

(** ** JSON values *)

Inductive Json : Type :=
| JNull
| JBool (b : bool)
| JInt (z : Z)
| JFloat (q : Q)
| JStr (s : string)
| JArr (l : list Json)
| JObj (m : list (string * Json)).

(** ** Exceptions *)

Inductive ExcClass : Type :=
| KeyError
| IndexError
| TypeError
| AttributeError
| JSONDecodeError
| RequestException   (* requests.exceptions.RequestException and subclasses *)
| OtherException.    (* any other subclass of Exception *)

Record PyExc : Type := mkExc { exc_class : ExcClass; exc_str : string }.

Inductive Py (A : Type) : Type :=
| Ret (a : A)
| Raise (e : PyExc).
Arguments Ret {A} a.
Arguments Raise {A} e.

Definition bind {A B : Type} (m : Py A) (k : A -> Py B) : Py B :=
  match m with
  | Ret a => k a
  | Raise e => Raise e
  end.

Declare Scope py_scope.
Delimit Scope py_scope with py.
Notation "x <- m ;; k" := (bind m (fun x => k))
  (at level 61, m at next level, right associativity) : py_scope.
Notation "m ;;; k" := (bind m (fun _ => k))
  (at level 61, right associativity) : py_scope.

(** ** The Python operations the three modules use on JSON values *)

Definition type_name (v : Json) : string :=
  match v with
  | JNull => "NoneType"
  | JBool _ => "bool"
  | JInt _ => "int"
  | JFloat _ => "float"
  | JStr _ => "str"
  | JArr _ => "list"
  | JObj _ => "dict"
  end.

Definition quoted (s : string) : string := "'" ++ s ++ "'".

(** Lookup in a dict: the first binding of the key. *)
Fixpoint assoc {A : Type} (k : string) (m : list (string * A)) : option A :=
  match m with
  | [] => None
  | (k', v) :: m' => if String.eqb k k' then Some v else assoc k m'
  end.

(** [d[k] = v] on a dict: replace in place, or add at the end. *)
Fixpoint dict_set {A : Type} (k : string) (v : A) (m : list (string * A))
  : list (string * A) :=
  match m with
  | [] => [(k, v)]
  | (k', v') :: m' =>
      if String.eqb k k' then (k', v) :: m' else (k', v') :: dict_set k v m'
  end.

(** [v[k]] for a string key [k]. *)
Definition getitem (v : Json) (k : string) : Py Json :=
  match v with
  | JObj m =>
      match assoc k m with
      | Some x => Ret x
      | None => Raise (mkExc KeyError (quoted k))
      end
  | JArr _ =>
      Raise (mkExc TypeError "list indices must be integers or slices, not str")
  | JStr _ =>
      Raise (mkExc TypeError "string indices must be integers, not 'str'")
  | _ => Raise (mkExc TypeError (quoted (type_name v) ++ " object is not subscriptable"))
  end.

(** [v[0]]. *)
Definition getitem0 (v : Json) : Py Json :=
  match v with
  | JArr [] => Raise (mkExc IndexError "list index out of range")
  | JArr (x :: _) => Ret x
  | JStr EmptyString => Raise (mkExc IndexError "string index out of range")
  | JStr (String c _) => Ret (JStr (String c EmptyString))
  | JObj _ => Raise (mkExc KeyError "0")
  | _ => Raise (mkExc TypeError (quoted (type_name v) ++ " object is not subscriptable"))
  end.

(** [v.get(k, default)]: only a dict has the method. *)
Definition get (v : Json) (k : string) (default : Json) : Py Json :=
  match v with
  | JObj m =>
      match assoc k m with
      | Some x => Ret x
      | None => Ret default
      end
  | _ => Raise (mkExc AttributeError
                  (quoted (type_name v) ++ " object has no attribute 'get'"))
  end.

Definition has_key {A : Type} (k : string) (m : list (string * A)) : bool :=
  match assoc k m with
  | Some _ => true
  | None => false
  end.

(** [sub] occurs in [s] ([sub in s] on two strings). *)
Fixpoint is_infix (sub s : string) : bool :=
  if String.prefix sub s then true
  else match s with
       | EmptyString => false
       | String _ s' => is_infix sub s'
       end.

Definition is_str (k : string) (v : Json) : bool :=
  match v with
  | JStr s => String.eqb k s
  | _ => false
  end.

(** [k in v] for a string [k]. *)
Definition contains (k : string) (v : Json) : Py bool :=
  match v with
  | JObj m => Ret (has_key k m)
  | JArr l => Ret (existsb (is_str k) l)
  | JStr s => Ret (is_infix k s)
  | _ => Raise (mkExc TypeError
                  ("argument of type " ++ quoted (type_name v) ++ " is not iterable"))
  end.

Fixpoint chars (s : string) : list Json :=
  match s with
  | EmptyString => []
  | String c s' => JStr (String c EmptyString) :: chars s'
  end.

(** The items a [for] loop over [v] visits. *)
Definition iterate (v : Json) : Py (list Json) :=
  match v with
  | JArr l => Ret l
  | JStr s => Ret (chars s)
  | JObj m => Ret (map (fun kv => JStr (fst kv)) m)
  | _ => Raise (mkExc TypeError (quoted (type_name v) ++ " object is not iterable"))
  end.

(** [len(v)]. *)
Definition len (v : Json) : Py nat :=
  match v with
  | JStr s => Ret (String.length s)
  | JArr l => Ret (List.length l)
  | JObj m => Ret (List.length m)
  | _ => Raise (mkExc TypeError
                  ("object of type " ++ quoted (type_name v) ++ " has no len()"))
  end.

(** ** Text: whitespace, case, [str.strip] *)

(** [str.isspace] on one character, which is also the class [\s] of [re]:
    U+0009..U+000D, U+001C..U+0020, U+0085 and U+00A0. *)
Definition isspace (c : ascii) : bool :=
  let n := nat_of_ascii c in
  (((9 <=? n) && (n <=? 13)) || ((28 <=? n) && (n <=? 32))
   || (n =? 133) || (n =? 160))%nat.

Definition newline : ascii := ascii_of_nat 10.

(** Simple lower-casing: A..Z, and U+00C0..U+00DE but for the sign U+00D7. *)
Definition lower (c : ascii) : ascii :=
  let n := nat_of_ascii c in
  if (((65 <=? n) && (n <=? 90))
      || ((192 <=? n) && (n <=? 222) && negb (n =? 215)))%nat
  then ascii_of_nat (n + 32) else c.

Definition eq_nocase (c d : ascii) : bool := Ascii.eqb (lower c) (lower d).

Fixpoint lstrip (s : string) : string :=
  match s with
  | String c s' => if isspace c then lstrip s' else s
  | EmptyString => EmptyString
  end.

(** Drops the whitespace at the end: a character stays when it is not
    whitespace or something is left after it. *)
Fixpoint rstrip (s : string) : string :=
  match s with
  | EmptyString => EmptyString
  | String c s' =>
      match rstrip s' with
      | EmptyString => if isspace c then EmptyString else String c EmptyString
      | t => String c t
      end
  end.

(** [s.strip()]. *)
Definition strip (s : string) : string := rstrip (lstrip s).

(** ** Regular expressions

    The fragment of the [re] syntax the pattern table is written in, with the
    backtracking order of [re]: a greedy operator tries the longer match
    first, a lazy one the shorter, an alternation its left branch.
    Matching is under [re.IGNORECASE], without [re.MULTILINE] or
    [re.DOTALL]. *)

Inductive regex : Type :=
| Eps                       (* the empty pattern *)
| Lit (c : ascii)           (* a literal character *)
| Space                     (* \s *)
| Dot                       (* .   anything but a newline *)
| Eos                       (* $   at the end, or before a newline that ends the text *)
| Seq (r1 r2 : regex)       (* r1r2 *)
| Alt (r1 r2 : regex)       (* r1|r2 *)
| Opt (r : regex)           (* r? *)
| Star (r : regex)          (* r* *)
| PlusLazy (r : regex)      (* r+? *)
| Group (r : regex).        (* (r), the capturing group 1 *)

Definition at_eos (s : string) : bool :=
  match s with
  | EmptyString => true
  | String c EmptyString => Ascii.eqb c newline
  | _ => false
  end.

(** The text read between [s] and its suffix [s']. *)
Definition consumed (s s' : string) : string :=
  String.substring 0 (String.length s - String.length s') s.

Definition or_else {A : Type} (x y : option A) : option A :=
  match x with
  | Some a => Some a
  | None => y
  end.

(** [rmatch r s g k]: match [r] at the head of [s], group 1 being [g] so
    far, and hand what is left to [k]; [None] when every way fails.  The
    answer is the value of group 1 ([None] inside when the group took no
    part). *)
Fixpoint rmatch (r : regex) (s : string) (g : option string)
  (k : string -> option string -> option (option string)) {struct r}
  : option (option string) :=
  match r with
  | Eps => k s g
  | Lit c =>
      match s with
      | String d s' => if eq_nocase c d then k s' g else None
      | EmptyString => None
      end
  | Space =>
      match s with
      | String d s' => if isspace d then k s' g else None
      | EmptyString => None
      end
  | Dot =>
      match s with
      | String d s' => if Ascii.eqb d newline then None else k s' g
      | EmptyString => None
      end
  | Eos => if at_eos s then k s g else None
  | Seq r1 r2 => rmatch r1 s g (fun s' g' => rmatch r2 s' g' k)
  | Alt r1 r2 => or_else (rmatch r1 s g k) (rmatch r2 s g k)
  | Opt r1 => or_else (rmatch r1 s g k) (k s g)
  | Star r1 =>
      (fix loop (n : nat) (s : string) (g : option string) {struct n} :=
         match n with
         | O => k s g
         | S n' =>
             or_else
               (rmatch r1 s g (fun s' g' =>
                  if (String.length s' <? String.length s)%nat
                  then loop n' s' g' else None))
               (k s g)
         end) (String.length s) s g
  | PlusLazy r1 =>
      (fix loop (n : nat) (s : string) (g : option string) {struct n} :=
         rmatch r1 s g (fun s' g' =>
           or_else (k s' g')
             match n with
             | O => None
             | S n' =>
                 if (String.length s' <? String.length s)%nat
                 then loop n' s' g' else None
             end)) (String.length s) s g
  | Group r1 => rmatch r1 s g (fun s' _ => k s' (Some (consumed s s')))
  end.

(** [re.search(r, s, re.IGNORECASE)]: the match at the leftmost position
    that has one. *)
Fixpoint re_search (r : regex) (s : string) : option (option string) :=
  match rmatch r s None (fun _ g => Some g) with
  | Some g => Some g
  | None =>
      match s with
      | EmptyString => None
      | String _ s' => re_search r s'
      end
  end.

Fixpoint has_group (r : regex) : bool :=
  match r with
  | Group _ => true
  | Seq r1 r2 | Alt r1 r2 => has_group r1 || has_group r2
  | Opt r1 | Star r1 | PlusLazy r1 => has_group r1
  | _ => false
  end.

(** Every way through the pattern goes through group 1. *)
Fixpoint sets_group (r : regex) : bool :=
  match r with
  | Group _ => true
  | Seq r1 r2 => sets_group r1 || sets_group r2
  | Alt r1 r2 => sets_group r1 && sets_group r2
  | PlusLazy r1 => sets_group r1
  | _ => false
  end.

(** [match.group(1)] *)
Definition group1 (r : regex) (m : option string) : Py (option string) :=
  if has_group r then Ret m else Raise (mkExc IndexError "no such group").

(** [x.strip()] on the value of a group *)
Definition strip_group (x : option string) : Py string :=
  match x with
  | Some s => Ret (strip s)
  | None => Raise (mkExc AttributeError "'NoneType' object has no attribute 'strip'")
  end.

Fixpoint lits (s : string) : regex :=
  match s with
  | EmptyString => Eps
  | String c s' => Seq (Lit c) (lits s')
  end.

(** The pattern  label:?\s*(.+?)(?:\n|$)  *)
Definition label_line (label : string) : regex :=
  Seq (lits label)
    (Seq (Opt (Lit ":"))
       (Seq (Star Space)
          (Seq (Group (PlusLazy Dot)) (Alt (Lit newline) Eos)))).

(** ** data_processor.py *)

(** [v[:n]]: a [str] and a [list] can be sliced, a [dict] cannot. *)
Definition slice_to (n : nat) (v : Json) : Py Json :=
  match v with
  | JStr s => Ret (JStr (String.substring 0 n s))
  | JArr l => Ret (JArr (firstn n l))
  | JObj _ => Raise (mkExc TypeError "unhashable type: 'slice'")
  | _ => Raise (mkExc TypeError (quoted (type_name v) ++ " object is not subscriptable"))
  end.

(** [re.search(pattern, content, re.IGNORECASE)] on a value that may not be
    a [str]. *)
Definition search (pattern : regex) (content : Json) : Py (option (option string)) :=
  match content with
  | JStr s => Ret (re_search pattern s)
  | _ => Raise (mkExc TypeError
                  ("expected string or bytes-like object, got "
                   ++ quoted (type_name content)))
  end.

Definition try_except {A : Type} (body : Py A) (handler : PyExc -> Py A) : Py A :=
  match body with
  | Ret a => Ret a
  | Raise e => handler e
  end.

Record FinancialDataProcessor : Type := {
  extraction_patterns : list (string * regex);
  min_data_points : nat
}.

Definition default_patterns : list (string * regex) :=
  [ ("company name", label_line "Company name");
    ("stock symbol", label_line "Stock symbol");
    ("revenue", label_line "Revenue");
    ("net income", label_line "Net income");
    ("EPS", label_line "EPS") ].

(** [FinancialDataProcessor(extraction_patterns)]: [None] and the empty
    dict are both falsy, so both select the default table. *)
Definition __init__ (patterns : option (list (string * regex)))
  : FinancialDataProcessor :=
  {| extraction_patterns :=
       match patterns with
       | Some (p :: ps) => p :: ps
       | _ => default_patterns
       end;
     min_data_points := 3 |}.

Definition blocklist : list string := ["Not found"; "N/A"; "Unknown"].

(** [x in l] on a list of strings: equality of strings, case included. *)
Definition str_in (x : string) (l : list string) : bool :=
  existsb (String.eqb x) l.

(** The loop of [_extract_data_from_content], [data] being the dict so far. *)
Fixpoint extract_loop (patterns : list (string * regex)) (content : Json)
  (data : list (string * string)) : Py (list (string * string)) :=
  match patterns with
  | [] => Ret data
  | (key, pattern) :: rest =>
      (m <- search pattern content ;;
       match m with
       | None => extract_loop rest content data
       | Some g =>
           x <- group1 pattern g ;;
           v <- strip_group x ;;
           if negb (str_in v blocklist)
           then extract_loop rest content (dict_set key v data)
           else extract_loop rest content data
       end)%py
  end.

Definition _extract_data_from_content (self : FinancialDataProcessor)
  (content : Json) : Py (list (string * string)) :=
  extract_loop (extraction_patterns self) content [].

(** [response.get("choices", [{}])[0].get("message", {}).get("content", "")] *)
Definition content_of (response : Json) : Py Json :=
  (choices <- get response "choices" (JArr [JObj []]) ;;
   first <- getitem0 choices ;;
   message <- get first "message" (JObj []) ;;
   get message "content" (JStr ""))%py.

Definition two_newlines : string :=
  String newline (String newline EmptyString).

Section Processor.

(** [str(v)], what an f-string prints for a value. *)
Variable str_of : Json -> string.
(** [json.dumps(v, indent=2)] *)
Variable json_dumps : Json -> string.

Definition _format_error_message (response : Json) : Py string :=
  (e <- getitem response "error" ;;
   let error_msg := "API Error: " ++ str_of e in
   b <- contains "response_body" response ;;
   if b
   then body <- getitem response "response_body" ;;
        Ret (error_msg ++ two_newlines ++ "Response Body: " ++ json_dumps body)
   else Ret error_msg)%py.

(** The body of the [try] of [parse_financial_data]. *)
Definition parse_body (self : FinancialDataProcessor) (response : Json)
  : Py (option (list (string * string)) * option Json) :=
  (content <- content_of response ;;
   _ <- len content ;;
   _ <- slice_to 100 content ;;
   data <- _extract_data_from_content self content ;;
   if (min_data_points self <=? List.length data)%nat
   then Ret (Some data, None)
   else Ret (None, Some content))%py.

(** The pair the method returns: (parsed_data, error_or_summary). *)
Definition parse_financial_data (self : FinancialDataProcessor)
  (response : Json) : Py (option (list (string * string)) * option Json) :=
  (b <- contains "error" response ;;
   if b
   then error_msg <- _format_error_message response ;;
        Ret (None, Some (JStr error_msg))
   else try_except (parse_body self response)
          (fun e => Ret (None, Some (JStr ("Parsing Error: " ++ exc_str e)))))%py.

End Processor.

(** ** url_scraper.py *)

(** [s.split()]: the maximal runs of characters that are not whitespace;
    [w] is the run being read. *)
Fixpoint words (s : string) (w : string) : list string :=
  match s with
  | EmptyString =>
      match w with
      | EmptyString => []
      | _ => [w]
      end
  | String c s' =>
      if isspace c
      then match w with
           | EmptyString => words s' EmptyString
           | _ => w :: words s' EmptyString
           end
      else words s' (w ++ String c EmptyString)
  end.

Definition split (s : string) : list string := words s EmptyString.

Section Scraper.

(** [str(v)], what an f-string prints for a value. *)
Variable str_of : Json -> string.
(** [requests.get(url, headers=headers, timeout=30)] followed by
    [response.raise_for_status()]: the bytes of the page, or the exception
    either of them raises. *)
Variable requests_get : Json -> Py string.
(** [BeautifulSoup(content, 'html.parser')], the removal of the script,
    style, nav, footer and header elements, and
    [get_text(separator=' ', strip=True)]. *)
Variable soup_text : string -> Py string.

(** The body of the [try] of [fetch_url_content]. *)
Definition fetch_body (url : Json) : Py string :=
  (content <- requests_get url ;;
   text <- soup_text content ;;
   let clean_text := String.concat " " (split text) in
   Ret clean_text)%py.

Definition fetch_url_content (url : Json) : Py (option string * option string) :=
  match fetch_body url with
  | Ret clean_text => Ret (Some clean_text, None)
  | Raise e =>
      match exc_class e with
      | RequestException =>
          let error_msg :=
            "Error fetching URL " ++ str_of url ++ ": " ++ exc_str e in
          Ret (None, Some error_msg)
      | _ =>
          let error_msg :=
            "Unexpected error processing URL " ++ str_of url ++ ": " ++ exc_str e in
          Ret (None, Some error_msg)
      end
  end.

Definition first_other_key (kwargs : list (string * Json)) : option string :=
  match filter (fun kv => negb (String.eqb (fst kv) "url")) kwargs with
  | [] => None
  | (k, _) :: _ => Some k
  end.

(** The call [fetch_url_content( **args )] the driver makes through the
    handler table: [args] has to be a mapping whose only key is [url]. *)
Definition fetch_url_content_handler (args : Json)
  : Py (option string * option string) :=
  match args with
  | JObj kwargs =>
      match first_other_key kwargs with
      | Some k =>
          Raise (mkExc TypeError
                   ("fetch_url_content() got an unexpected keyword argument "
                    ++ quoted k))
      | None =>
          match assoc "url" kwargs with
          | Some url => fetch_url_content url
          | None =>
              Raise (mkExc TypeError
                       "fetch_url_content() missing 1 required positional argument: 'url'")
          end
      end
  | _ =>
      Raise (mkExc TypeError
               ("url_scraper.fetch_url_content() argument after ** must be a mapping, not "
                ++ type_name args))
  end.

End Scraper.

(** ** api_client.py *)

(** A [requests.Response], by what the driver asks of it. *)
Record Response : Type := {
  status_code : Z;
  text : string;
  json : Py Json;               (* response.json() *)
  raise_for_status : Py unit    (* response.raise_for_status() *)
}.

(** The local variable [response] of [process_with_tools] ([None] while it
    is not bound), and the payloads posted so far, oldest first. *)
Record Frame : Type := {
  response : option Response;
  sent : list Json
}.

Definition empty_frame : Frame := {| response := None; sent := [] |}.

(** What a part of the body of the [try] comes to: a value, an exception,
    or no end within the turns allowed. *)
Inductive Outcome (A : Type) : Type :=
| Done (a : A)
| Raised (e : PyExc)
| OutOfFuel.
Arguments Done {A} a.
Arguments Raised {A} e.
Arguments OutOfFuel {A}.

Definition Drv (A : Type) : Type := Frame -> Outcome A * Frame.

Definition dret {A : Type} (a : A) : Drv A := fun fr => (Done a, fr).

Definition dbind {A B : Type} (m : Drv A) (k : A -> Drv B) : Drv B :=
  fun fr =>
    match m fr with
    | (Done a, fr') => k a fr'
    | (Raised e, fr') => (Raised e, fr')
    | (OutOfFuel, fr') => (OutOfFuel, fr')
    end.

Definition lift {A : Type} (m : Py A) : Drv A :=
  fun fr =>
    match m with
    | Ret a => (Done a, fr)
    | Raise e => (Raised e, fr)
    end.

Declare Scope drv_scope.
Delimit Scope drv_scope with drv.
Notation "x <- m ;; k" := (dbind m (fun x => k))
  (at level 61, m at next level, right associativity) : drv_scope.

Definition dquote : string := String (ascii_of_nat 34) EmptyString.

(** [v + l] for a list [l]. *)
Definition concat_list (v : Json) (l : list Json) : Py (list Json) :=
  match v with
  | JArr a => Ret (a ++ l)%list
  | JStr _ =>
      Raise (mkExc TypeError
               ("can only concatenate str (not " ++ dquote ++ "list" ++ dquote
                ++ ") to str"))
  | _ =>
      Raise (mkExc TypeError
               ("unsupported operand type(s) for +: " ++ quoted (type_name v)
                ++ " and 'list'"))
  end.

(** [response_data["choices"][0]["message"]] *)
Definition first_message (response_data : Json) : Py Json :=
  (choices <- getitem response_data "choices" ;;
   first <- getitem0 choices ;;
   getitem first "message")%py.

(** [if content:] on an optional text. *)
Definition truthy (content : option string) : bool :=
  match content with
  | None => false
  | Some EmptyString => false
  | Some _ => true
  end.

(** What an f-string prints for an optional text. *)
Definition str_opt (x : option string) : string :=
  match x with
  | Some s => s
  | None => "None"
  end.

Definition tool_response (tool_call_id : Json) (content : string) : Json :=
  JObj [("tool_call_id", tool_call_id);
        ("role", JStr "assistant");
        ("content", JStr content)].

(** A handler, as the driver calls it: [handler( **args )] on the decoded
    arguments, which returns the pair (content, error) or raises. *)
Definition Handler : Type := Json -> Py (option string * option string).

(** [function_name in tool_handlers] and, when it holds,
    [tool_handlers[function_name]]: a key of the table is a [str]; a list
    or a dict cannot be hashed. *)
Definition find_handler (function_name : Json)
  (tool_handlers : list (string * Handler)) : Py (option Handler) :=
  match function_name with
  | JStr name => Ret (assoc name tool_handlers)
  | JArr _ | JObj _ =>
      Raise (mkExc TypeError ("unhashable type: " ++ quoted (type_name function_name)))
  | _ => Ret None
  end.

Section Driver.

(** [json.loads] on a [str]. *)
Variable json_loads : string -> Py Json.
(** [requests.post(self.credentials.chat_completions_endpoint,
    headers=self.default_headers, json=payload)], for the request number
    [n] (from 0) of the run. *)
Variable post : nat -> Json -> Py Response.

Definition loads (v : Json) : Py Json :=
  match v with
  | JStr s => json_loads s
  | _ =>
      Raise (mkExc TypeError
               ("the JSON object must be str, bytes or bytearray, not "
                ++ type_name v))
  end.

(** [response = requests.post(...)], [response.raise_for_status()],
    [response_data = response.json()]. *)
Definition send (payload : Json) : Drv Json :=
  fun fr =>
    let posted := (sent fr ++ [payload])%list in
    match post (List.length (sent fr)) payload with
    | Raise e => (Raised e, {| response := response fr; sent := posted |})
    | Ret r =>
        let fr' := {| response := Some r; sent := posted |} in
        match raise_for_status r with
        | Raise e => (Raised e, fr')
        | Ret _ =>
            match json r with
            | Raise e => (Raised e, fr')
            | Ret response_data => (Done response_data, fr')
            end
        end
    end.

Variable payload : Json.
Variable tool_handlers : list (string * Handler).
Variable log_requests : bool.

(** One pass of the [for] loop over the tool calls. *)
Definition handle_tool_call (tool_call : Json) (messages_so_far : list Json)
  : Py (list Json) :=
  (function_call <- get tool_call "function" (JObj []) ;;
   function_name <- get function_call "name" JNull ;;
   handler <- find_handler function_name tool_handlers ;;
   match handler with
   | Some h =>
       arguments <- get function_call "arguments" (JStr "{}") ;;
       args <- loads arguments ;;
       result <- h args ;;
       let '(content, error) := result in
       tool_call_id <- get tool_call "id" JNull ;;
       if truthy content
       then Ret (messages_so_far ++ [tool_response tool_call_id (str_opt content)])%list
       else Ret (messages_so_far
                 ++ [tool_response tool_call_id ("Error: " ++ str_opt error)])%list
   | None => Ret messages_so_far
   end)%py.

Fixpoint handle_tool_calls (tool_calls : list Json) (messages_so_far : list Json)
  : Py (list Json) :=
  match tool_calls with
  | [] => Ret messages_so_far
  | tool_call :: rest =>
      (messages_so_far' <- handle_tool_call tool_call messages_so_far ;;
       handle_tool_calls rest messages_so_far')%py
  end.

Definition continuation (messages_so_far : list Json) : Py Json :=
  (model <- getitem payload "model" ;;
   max_tokens <- get payload "max_tokens" (JInt 1000) ;;
   temperature <- get payload "temperature" (JFloat (3 # 10)) ;;
   top_p <- get payload "top_p" (JFloat (95 # 100)) ;;
   Ret (JObj [("model", model);
              ("messages", JArr messages_so_far);
              ("max_tokens", max_tokens);
              ("temperature", temperature);
              ("top_p", top_p)]))%py.

(** The log line [continuation_payload['messages'][-1]['role']], which is
    evaluated only when [log_requests] is set. *)
Definition log_last_role (messages_so_far : list Json) : Py unit :=
  if log_requests
  then (_ <- getitem (last messages_so_far JNull) "role" ;; Ret tt)%py
  else Ret tt.

(** The variables the [while] loop carries from one turn to the next. *)
Record LoopState : Type := {
  message : Json;
  messages_so_far : list Json;
  response_data : Json
}.

(** Lines 67 to 84: the initial request and the state the loop starts in. *)
Definition initial : Drv LoopState :=
  (response_data <- send payload ;;
   message <- lift (first_message response_data) ;;
   messages <- lift (getitem payload "messages") ;;
   messages_so_far <- lift (concat_list messages [message]) ;;
   dret {| message := message;
           messages_so_far := messages_so_far;
           response_data := response_data |})%drv.

(** The test of the [while]: ["tool_calls" in message]. *)
Definition guard (st : LoopState) : Py bool := contains "tool_calls" (message st).

(** The tool calls of a turn: what the [for] loop visits. *)
Definition tool_calls_of (message : Json) : Py (list Json) :=
  (tool_calls <- get message "tool_calls" (JArr []) ;;
   iterate tool_calls)%py.

(** The messages of the continuation request of a turn. *)
Definition after_tools (st : LoopState) : Py (list Json) :=
  (tool_calls <- tool_calls_of (message st) ;;
   handle_tool_calls tool_calls (messages_so_far st))%py.

(** The body of the [while]: one conversation turn. *)
Definition turn (st : LoopState) : Drv LoopState :=
  (messages_so_far <- lift (after_tools st) ;;
   continuation_payload <- lift (continuation messages_so_far) ;;
   _ <- lift (log_last_role messages_so_far) ;;
   response_data <- send continuation_payload ;;
   message <- lift (first_message response_data) ;;
   dret {| message := message;
           messages_so_far := (messages_so_far ++ [message])%list;
           response_data := response_data |})%drv.

(** The [while] loop; [fuel] bounds the number of turns. *)
Fixpoint conversation_loop (fuel : nat) (st : LoopState) : Drv Json :=
  (continue <- lift (guard st) ;;
   if continue
   then match fuel with
        | O => fun fr => (OutOfFuel, fr)
        | S fuel' => st' <- turn st ;; conversation_loop fuel' st'
        end
   else dret (response_data st))%drv.

(** The [except] clause: the error value, with the body of the response
    the variable [response] is bound to, if it is bound. *)
Definition on_exception (e : PyExc) (fr : Frame) : Json :=
  let error_msg := exc_str e in
  match response fr with
  | Some r =>
      match json r with
      | Ret response_body =>
          JObj [("error", JStr error_msg); ("response_body", response_body)]
      | Raise _ =>
          JObj [("error", JStr error_msg); ("response_body", JStr (text r))]
      end
  | None => JObj [("error", JStr error_msg)]
  end.

(** The [try] statement around a part of the body: what the method
    returns, [None] when the turns allowed ran out. *)
Definition finish (run : Outcome Json * Frame) : option Json :=
  match run with
  | (Done response_data, _) => Some response_data
  | (Raised e, fr) => Some (on_exception e fr)
  | (OutOfFuel, _) => None
  end.

Definition run (fuel : nat) : Outcome Json * Frame :=
  (st <- initial ;; conversation_loop fuel st)%drv empty_frame.

Definition process_with_tools (fuel : nat) : option Json := finish (run fuel).

(** The payloads the run posts, oldest first. *)
Definition requests_sent (fuel : nat) : list Json := sent (snd (run fuel)).

(** [reaches n st fr]: the run comes to the head of the loop for the turn
    number [n] (from 0) in the state [st], the frame being [fr]; each
    turn before it was entered with the test of the [while] true and
    ended without an exception. *)
Inductive reaches : nat -> LoopState -> Frame -> Prop :=
| reaches_initial : forall st fr,
    initial empty_frame = (Done st, fr) ->
    reaches 0 st fr
| reaches_turn : forall n st fr st' fr',
    reaches n st fr ->
    guard st = Ret true ->
    turn st fr = (Done st', fr') ->
    reaches (S n) st' fr'.

End Driver.

(** ** The handler table of main.py *)

Definition main_tool_handlers (str_of : Json -> string)
  (requests_get : Json -> Py string) (soup_text : string -> Py string)
  : list (string * Handler) :=
  [("fetch_url_content", fetch_url_content_handler str_of requests_get soup_text)].

(** ** Concrete library behaviour for the sample runs

    The sample runs need the libraries at a few concrete inputs.  The JSON
    texts are produced by [render], the compact form [json.dumps] writes,
    and [decode] reads a text back from a table of the texts a run uses. *)

Definition backslash : string := String (ascii_of_nat 92) EmptyString.

Fixpoint escape (s : string) : string :=
  match s with
  | EmptyString => EmptyString
  | String c s' =>
      (if Ascii.eqb c (ascii_of_nat 34) then backslash ++ dquote
       else if Ascii.eqb c (ascii_of_nat 92) then backslash ++ backslash
       else if Ascii.eqb c newline then backslash ++ "n"
       else String c EmptyString) ++ escape s'
  end.

Definition render_int (z : Z) : string := NilZero.string_of_int (Z.to_int z).

(** The digits after the point of [r / d], for [0 <= r < d]. *)
Fixpoint render_fraction (digits : nat) (r d : Z) : string :=
  match digits with
  | O => EmptyString
  | S digits' =>
      if (r =? 0)%Z then EmptyString
      else render_int ((r * 10) / d) ++ render_fraction digits' ((r * 10) mod d) d
  end.

Definition render_float (q : Q) : string :=
  let n := Qnum q in
  let d := Zpos (Qden q) in
  (if (n <? 0)%Z then "-" else "")
  ++ render_int (Z.abs n / d) ++ "."
  ++ match render_fraction 17 (Z.abs n mod d) d with
     | EmptyString => "0"
     | digits => digits
     end.

Fixpoint render (v : Json) : string :=
  match v with
  | JNull => "null"
  | JBool true => "true"
  | JBool false => "false"
  | JInt z => render_int z
  | JFloat q => render_float q
  | JStr s => dquote ++ escape s ++ dquote
  | JArr l => "[" ++ String.concat ", " (map render l) ++ "]"
  | JObj m =>
      "{" ++ String.concat ", "
               (map (fun '(k, x) => dquote ++ escape k ++ dquote ++ ": " ++ render x) m)
      ++ "}"
  end.

(** [json.loads] on the texts of a table; any other text is taken not to
    be JSON at all. *)
Definition decode (table : list (string * Py Json)) (s : string) : Py Json :=
  match assoc s table with
  | Some r => r
  | None => Raise (mkExc JSONDecodeError "Expecting value: line 1 column 1 (char 0)")
  end.

(** [str(v)] on a str, [None], a bool and an int; the samples print no
    other value. *)
Definition str_scalar (v : Json) : string :=
  match v with
  | JStr s => s
  | JNull => "None"
  | JBool true => "True"
  | JBool false => "False"
  | JInt z => render_int z
  | _ => render v
  end.

Definition endpoint : string := "https://sourcegraph.example/.api/completions".

(** A [requests.Response] with the given status line and body:
    [raise_for_status] raises for the statuses 400 to 599, and [json]
    decodes the text of the body. *)
Definition http_response (loads : string -> Py Json) (status : Z)
  (reason body : string) : Response :=
  {| status_code := status;
     text := body;
     json := loads body;
     raise_for_status :=
       if ((400 <=? status) && (status <? 500))%Z
       then Raise (mkExc RequestException
                     (render_int status ++ " Client Error: " ++ reason
                      ++ " for url: " ++ endpoint))
       else if ((500 <=? status) && (status <? 600))%Z
       then Raise (mkExc RequestException
                     (render_int status ++ " Server Error: " ++ reason
                      ++ " for url: " ++ endpoint))
       else Ret tt |}.

(** A transport that answers the request number [n] with the entry [n] of
    a script, and fails to connect once the script is over. *)
Definition scripted (script : list (Py Response)) : nat -> Json -> Py Response :=
  fun n _ =>
    nth n script
      (Raise (mkExc RequestException
                ("HTTPSConnectionPool(host='sourcegraph.example', port=443): "
                 ++ "Max retries exceeded with url: /.api/completions")))%string.

(** ** Sample data: a payload as main.py builds it, completions, pages *)

Definition article_url : string := "https://example.com/q3".
Definition blank_url : string := "https://example.com/blank".
Definition missing_url : string := "https://example.com/missing".

Definition sample_messages : list Json :=
  [ JObj [("role", JStr "assistant");
          ("content", JStr "You are a financial data extraction assistant.")];
    JObj [("role", JStr "user");
          ("content", JStr ("I need to extract financial data from this URL: "
                            ++ article_url))] ].

Definition sample_tools : Json :=
  JArr [JObj [("type", JStr "function");
              ("function",
               JObj [("name", JStr "fetch_url_content");
                     ("description",
                      JStr "Fetches content from a URL with proper headers to avoid blocking");
                     ("parameters",
                      JObj [("type", JStr "object");
                            ("properties",
                             JObj [("url",
                                    JObj [("type", JStr "string");
                                          ("description",
                                           JStr "The URL to extract content from")])]);
                            ("required", JArr [JStr "url"])])])]].

Definition sample_payload : Json :=
  JObj [("model", JStr "model-1");
        ("messages", JArr sample_messages);
        ("tools", sample_tools);
        ("tool_choice", JStr "auto");
        ("max_tokens", JInt 800);
        ("temperature", JFloat (2 # 10));
        ("top_p", JFloat (9 # 10))].

Definition line (s : string) : string := s ++ String newline EmptyString.

Definition answer_text : string :=
  line "Company name: Apple Inc." ++ line "Stock symbol: AAPL"
  ++ line "Revenue: $120B".

Definition completion (message : Json) : Json :=
  JObj [("choices", JArr [JObj [("message", message)]])].

Definition answer_message : Json :=
  JObj [("role", JStr "assistant"); ("content", JStr answer_text)].

Definition tool_call (id name arguments : string) : Json :=
  JObj [("id", JStr id);
        ("type", JStr "function");
        ("function", JObj [("name", JStr name); ("arguments", JStr arguments)])].

Definition calling (tool_calls : list Json) : Json :=
  JObj [("role", JStr "assistant");
        ("content", JNull);
        ("tool_calls", JArr tool_calls)].

Definition url_arguments (url : string) : string :=
  render (JObj [("url", JStr url)]).

Definition fetch_call : Json :=
  tool_call "call_1" "fetch_url_content" (url_arguments article_url).
Definition blank_call : Json :=
  tool_call "call_1" "fetch_url_content" (url_arguments blank_url).
Definition malformed_call : Json :=
  tool_call "call_1" "fetch_url_content" "{bad".
Definition no_argument_call : Json :=
  tool_call "call_1" "fetch_url_content" "{}".
Definition unregistered_call : Json :=
  tool_call "call_1" "lookup_ticker" (url_arguments article_url).

Definition sample_bodies : list Json :=
  [ completion answer_message;
    completion (calling [fetch_call]);
    completion (calling [blank_call]);
    completion (calling [malformed_call]);
    completion (calling [no_argument_call]);
    completion (calling [unregistered_call]);
    completion (calling []);
    JObj [("url", JStr article_url)];
    JObj [("url", JStr blank_url)];
    JObj [] ].

Definition sample_table : list (string * Py Json) :=
  (map (fun b => (render b, Ret b)) sample_bodies
   ++ [("{bad",
        Raise (mkExc JSONDecodeError
                 "Expecting property name enclosed in double quotes: line 1 column 2 (char 1)"))])%list.

Definition sample_loads : string -> Py Json := decode sample_table.

(** A 200 response whose body is the JSON text of [body]. *)
Definition ok (body : Json) : Py Response :=
  Ret (http_response sample_loads 200 "OK" (render body)).

Definition server_error : Py Response :=
  Ret (http_response sample_loads 500 "Internal Server Error" "Internal Server Error").

Definition connection_error : Py Response :=
  Raise (mkExc RequestException
           "('Connection aborted.', RemoteDisconnected('Remote end closed connection without response'))").

Definition article_html : string :=
  "<html><body><p>Apple Inc. (AAPL)   reported revenue of $120B.</p></body></html>".
Definition blank_html : string := "<html><body>  </body></html>".

Definition sample_get (url : Json) : Py string :=
  match url with
  | JStr u =>
      if String.eqb u article_url then Ret article_html
      else if String.eqb u blank_url then Ret blank_html
      else Raise (mkExc RequestException
                    ("404 Client Error: Not Found for url: " ++ u))
  | _ => Raise (mkExc OtherException "Invalid URL")
  end.

Definition sample_soup (html : string) : Py string :=
  if String.eqb html article_html
  then Ret "Apple Inc. (AAPL)   reported revenue of $120B."
  else if String.eqb html blank_html then Ret ""
  else Raise (mkExc OtherException "unexpected markup").

Definition sample_handlers : list (string * Handler) :=
  main_tool_handlers str_scalar sample_get sample_soup.

(** The driver on a script of responses, with the sample payload and the
    handler table of main.py. *)
Definition sample_run (script : list (Py Response)) (fuel : nat) : option Json :=
  process_with_tools sample_loads (scripted script) sample_payload
    sample_handlers true fuel.

Definition sample_requests (script : list (Py Response)) (fuel : nat) : list Json :=
  requests_sent sample_loads (scripted script) sample_payload
    sample_handlers true fuel.

(** The messages of a payload. *)
Definition messages_of (payload : Json) : list Json :=
  match payload with
  | JObj m =>
      match assoc "messages" m with
      | Some (JArr l) => l
      | _ => []
      end
  | _ => []
  end.

(** A pattern each of whose matches fills group 1. *)
Definition capturing (pattern : regex) : Prop :=
  has_group pattern = true /\ forall s, re_search pattern s <> Some None.

(** What one pattern contributes: the trimmed text of group 1 of its
    leftmost match, unless the blocklist has it. *)
Definition field_of (pattern : regex) (content value : string) : Prop :=
  exists captured,
    re_search pattern content = Some (Some captured) /\
    (strip captured <> "Not found" /\ strip captured <> "N/A"
     /\ strip captured <> "Unknown") /\
    value = strip captured.

(** The completion of the sample answer, and two poorer ones. *)
Definition answer_response : Json := completion answer_message.

Definition two_field_text : string :=
  line "Company name: Apple Inc." ++ line "Stock symbol: N/A"
  ++ line "Revenue: $120B" ++ line "Net income: Not found".

Definition two_field_response : Json :=
  completion (JObj [("role", JStr "assistant"); ("content", JStr two_field_text)]).

Definition no_choice_response : Json := JObj [("choices", JArr [])].

(** ** Counting the tool calls that have a handler *)

Definition registered (tool_handlers : list (string * Handler)) (tool_call : Json)
  : bool :=
  match (function_call <- get tool_call "function" (JObj []) ;;
         function_name <- get function_call "name" JNull ;;
         find_handler function_name tool_handlers)%py with
  | Ret (Some _) => true
  | _ => false
  end.

Definition count_registered (tool_handlers : list (string * Handler))
  (tool_calls : list Json) : nat :=
  List.length (filter (registered tool_handlers) tool_calls).

(** ** The chain of requests of a run *)

(** The request [q] follows the request number [i], [p]: the completion of
    [p] decodes to a response whose first message has the tool calls
    [tool_calls], and [q] has the messages of [p], one message more, and one
    more for each tool call that has a handler. *)
Definition continues (post : nat -> Json -> Py Response)
  (tool_handlers : list (string * Handler)) (i : nat) (p q : Json) : Prop :=
  exists r response_data message tool_calls,
    post i p = Ret r /\
    json r = Ret response_data /\
    first_message response_data = Ret message /\
    tool_calls_of message = Ret tool_calls /\
    List.length (messages_of q)
    = List.length (messages_of p) + 1 + count_registered tool_handlers tool_calls.

Definition well_chained (post : nat -> Json -> Py Response)
  (tool_handlers : list (string * Handler)) (trace : list Json) : Prop :=
  forall i p q,
    nth_error trace i = Some p ->
    nth_error trace (S i) = Some q ->
    continues post tool_handlers i p q.

(** The state of the loop belongs to the last request posted: the variable
    [response] is bound to its completion, [response_data] is the decoded
    completion, [message] its first message, and [messages_so_far] the
    messages of the request followed by [message]. *)
Definition linked (post : nat -> Json -> Py Response) (st : LoopState)
  (fr : Frame) : Prop :=
  exists earlier p r,
    sent fr = (earlier ++ [p])%list /\
    post (List.length earlier) p = Ret r /\
    response fr = Some r /\
    json r = Ret (response_data st) /\
    first_message (response_data st) = Ret (message st) /\
    messages_so_far st = (messages_of p ++ [message st])%list.

(** The call [tool_call] names a function that has a handler, and either
    its arguments do not decode or the handler raises on them (as the call
    of [fetch_url_content] does when the argument [url] is missing); [e] is
    the exception. *)
Definition argument_error (json_loads : string -> Py Json)
  (tool_handlers : list (string * Handler)) (tool_call : Json) (e : PyExc)
  : Prop :=
  exists function_call name handler arguments,
    get tool_call "function" (JObj []) = Ret function_call /\
    get function_call "name" JNull = Ret (JStr name) /\
    assoc name tool_handlers = Some handler /\
    get function_call "arguments" (JStr "{}") = Ret arguments /\
    (loads json_loads arguments = Raise e \/
     exists args, loads json_loads arguments = Ret args /\ handler args = Raise e).

(** ** Sample runs *)

Definition answered_script : list (Py Response) := [ok answer_response].
Definition fetch_script : list (Py Response) :=
  [ok (completion (calling [fetch_call])); ok answer_response].
Definition blank_script : list (Py Response) :=
  [ok (completion (calling [blank_call])); ok answer_response].
Definition malformed_script : list (Py Response) :=
  [ok (completion (calling [malformed_call])); ok answer_response].
Definition no_argument_script : list (Py Response) :=
  [ok (completion (calling [no_argument_call])); ok answer_response].
Definition unregistered_script : list (Py Response) :=
  [ok (completion (calling [unregistered_call])); ok answer_response].
Definition empty_calls_script : list (Py Response) :=
  [ok (completion (calling [])); ok answer_response].
Definition dropped_script : list (Py Response) :=
  [ok (completion (calling [fetch_call])); connection_error].
Definition failing_script : list (Py Response) :=
  [ok (completion (calling [fetch_call])); server_error].

(** The continuation request main.py's payload leads to, for the messages
    [messages]. *)
Definition sample_continuation (messages : list Json) : Json :=
  JObj [("model", JStr "model-1");
        ("messages", JArr messages);
        ("max_tokens", JInt 800);
        ("temperature", JFloat (2 # 10));
        ("top_p", JFloat (9 # 10))].

Definition article_text : string :=
  "Apple Inc. (AAPL) reported revenue of $120B.".

Definition malformed_state : LoopState :=
  {| message := calling [malformed_call];
     messages_so_far := (sample_messages ++ [calling [malformed_call]])%list;
     response_data := completion (calling [malformed_call]) |}.

Definition malformed_frame : Frame :=
  {| response :=
       Some (http_response sample_loads 200 "OK"
               (render (completion (calling [malformed_call]))));
     sent := [sample_payload] |}.

Definition decode_error : PyExc :=
  mkExc JSONDecodeError
    "Expecting property name enclosed in double quotes: line 1 column 2 (char 1)".

(** ** The turns behind a run *)

(** [m.get(k, default)] on a dict. *)
Definition dict_get (m : list (string * Json)) (k : string) (default : Json) : Json :=
  match assoc k m with
  | Some x => x
  | None => default
  end.

(** [tool_call.get("id")] on a tool call that is a dict. *)
Definition call_id (tool_call : Json) : Json :=
  match tool_call with
  | JObj m => dict_get m "id" JNull
  | _ => JNull
  end.

Definition chained (R : nat -> Json -> Json -> Prop) (trace : list Json) : Prop :=
  forall i p q,
    nth_error trace i = Some p ->
    nth_error trace (S i) = Some q ->
    R i p q.

(** [q] is the continuation request of the turn that the completion of the
    request number [i], [p], opens: the completion has a status that is no
    error, decodes, its first message [m] passes the test of the [while];
    the tool calls of [m] are handled from the messages of [p] followed by
    [m], and [q] is built from the messages that gives. *)
Definition turn_of (json_loads : string -> Py Json)
  (post : nat -> Json -> Py Response) (payload : Json)
  (tool_handlers : list (string * Handler)) (i : nat) (p q : Json) : Prop :=
  exists r d m msgs,
    post i p = Ret r /\
    raise_for_status r = Ret tt /\
    json r = Ret d /\
    first_message d = Ret m /\
    contains "tool_calls" m = Ret true /\
    after_tools json_loads tool_handlers
      {| message := m;
         messages_so_far := (messages_of p ++ [m])%list;
         response_data := d |} = Ret msgs /\
    continuation payload msgs = Ret q.

(** The state of the loop belongs to the last request posted, whose
    completion had a status that is no error. *)
Definition tied (post : nat -> Json -> Py Response) (st : LoopState)
  (fr : Frame) : Prop :=
  exists earlier p r,
    sent fr = (earlier ++ [p])%list /\
    post (List.length earlier) p = Ret r /\
    raise_for_status r = Ret tt /\
    response fr = Some r /\
    json r = Ret (response_data st) /\
    first_message (response_data st) = Ret (message st) /\
    messages_so_far st = (messages_of p ++ [message st])%list.

(** The message [x] answers the tool call [tool_call]: it is a tool
    response under the id of the call. *)
Definition answers (tool_call x : Json) : Prop :=
  exists content, x = tool_response (call_id tool_call) content.

(** A transport that answers every request with the same completion. *)
Definition constant_transport (answer : Py Response) : nat -> Json -> Py Response :=
  fun _ _ => answer.

(** The frame after the run of [malformed_script]: see [malformed_frame]. *)
Definition raised_frame : Frame := malformed_frame.

(** ** The field map as a filter of the pattern table *)

(** The entry a row of the table gives for a content, if it gives one. *)
Definition field (content : string) (row : string * regex)
  : option (string * string) :=
  match re_search (snd row) content with
  | Some (Some captured) =>
      if str_in (strip captured) blocklist then None
      else Some (fst row, strip captured)
  | _ => None
  end.

Fixpoint fields (content : string) (patterns : list (string * regex))
  : list (string * string) :=
  match patterns with
  | [] => []
  | row :: rest =>
      match field content row with
      | Some entry => entry :: fields content rest
      | None => fields content rest
      end
  end.

(** ** url_scraper.py: the text after cleaning, and [extract_article_content] *)

Fixpoint no_space (s : string) : bool :=
  match s with
  | EmptyString => true
  | String c s' => negb (isspace c) && no_space s'
  end.

(** A word of a split: not empty, and without whitespace. *)
Definition is_word (w : string) : Prop := w <> EmptyString /\ no_space w = true.

(** [' '.join(text.split())] *)
Definition clean (text : string) : string := String.concat " " (split text).

(** A page as [extract_article_content] reads it, parsed:
    - [soup.title], and its [string] when there is a title;
    - the meta element named description, and its attribute [content];
    - for a selector, [soup.select_one(selector)] once the script, style,
      nav, footer, header and aside elements are removed, and the text of
      the element, [get_text(separator=' ', strip=True)];
    - [soup.body] and its text, after the same removal. *)
Record Soup : Type := {
  soup_title : option (option string);
  soup_meta : option (option string);
  soup_select_one : string -> option string;
  soup_body : option string
}.

Definition article_selectors : list string :=
  ["article"; "main"; ".article"; ".post"; ".content"; "#content";
   "[role=" ++ dquote ++ "main" ++ dquote ++ "]"].

(** The loop over the selectors: the text of the first element found. *)
Fixpoint first_container (soup : Soup) (selectors : list string) : option string :=
  match selectors with
  | [] => None
  | selector :: rest =>
      match soup_select_one soup selector with
      | Some container_text => Some container_text
      | None => first_container soup rest
      end
  end.

Definition main_content (soup : Soup) : string :=
  match first_container soup article_selectors with
  | Some (String c s) => String c s
  | _ =>
      match soup_body soup with
      | Some body_text => body_text
      | None => "No content found"
      end
  end.

Section Article.

Variable str_of : Json -> string.
(** [requests.get(url, headers=..., timeout=30)] followed by
    [response.raise_for_status()]. *)
Variable requests_get : Json -> Py string.
(** [BeautifulSoup(response.content, 'html.parser')] and the queries on
    it. *)
Variable parse_page : string -> Py Soup.

(** The body of the [try] of [extract_article_content]. *)
Definition article_body (url : Json) : Py Json :=
  (content <- requests_get url ;;
   soup <- parse_page content ;;
   let title :=
     match soup_title soup with
     | Some (Some s) => JStr s
     | Some None => JNull
     | None => JStr "No title found"
     end in
   let meta_description :=
     match soup_meta soup with
     | Some (Some c) => c
     | Some None => ""
     | None => "No description found"
     end in
   Ret (JObj [("success", JBool true);
              ("content", JStr (clean (main_content soup)));
              ("title", title);
              ("meta_description", JStr meta_description)]))%py.

Definition extract_article_content (url : Json) : Py Json :=
  match article_body url with
  | Ret result => Ret result
  | Raise e =>
      let error_msg :=
        "Error extracting article content from " ++ str_of url ++ ": "
        ++ exc_str e in
      Ret (JObj [("success", JBool false); ("error", JStr error_msg)])
  end.

End Article.

Definition sample_page (html : string) : Py Soup :=
  if String.eqb html article_html
  then Ret {| soup_title := Some (Some "Apple Q1 results");
              soup_meta := None;
              soup_select_one := fun _ => None;
              soup_body := Some "Apple Inc. (AAPL)   reported revenue of $120B." |}
  else Raise (mkExc OtherException "unexpected markup").

(** ** Sample data for the edge cases of the driver *)

(** A first message that calls a tool without a handler and has no "role". *)
Definition anonymous_calling : Json :=
  JObj [("content", JNull); ("tool_calls", JArr [unregistered_call])].

Definition no_choices_body : Json := JObj [("detail", JStr "no choices")].

Definition edge_table : list (string * Py Json) :=
  ((render (completion anonymous_calling), Ret (completion anonymous_calling))
   :: (render no_choices_body, Ret no_choices_body)
   :: sample_table)%list.

Definition edge_loads : string -> Py Json := decode edge_table.

Definition edge_ok (body : Json) : Py Response :=
  Ret (http_response edge_loads 200 "OK" (render body)).

Definition anonymous_script : list (Py Response) :=
  [edge_ok (completion anonymous_calling); edge_ok answer_response].

Definition anonymous_state : LoopState :=
  {| message := anonymous_calling;
     messages_so_far := (sample_messages ++ [anonymous_calling])%list;
     response_data := completion anonymous_calling |}.

Definition anonymous_frame : Frame :=
  {| response :=
       Some (http_response edge_loads 200 "OK"
               (render (completion anonymous_calling)));
     sent := [sample_payload] |}.

(** A payload without the key "messages". *)
Definition payload_without_messages : Json :=
  JObj [("model", JStr "model-1"); ("max_tokens", JInt 800)].

(** ** ui_components.py and the display step of main.py

    What the functions put on the page, as the list of the Streamlit calls
    they make, in order. *)

Inductive Widget : Type :=
| Markdown (body : string)                      (* st.markdown *)
| Subheader (body : string)                     (* st.subheader *)
| Metric (label value : string)                 (* st.metric *)
| Table (rows : list (string * string))         (* st.table, index and value *)
| ErrorBox (body : string)                      (* st.error *)
| JsonView (body : string)                      (* st.json on a text *)
| CodeBlock (body : string)                     (* st.code *)
| Columns (columns : list (list Widget))        (* the blocks of st.columns *)
| Expander (label : string) (inside : list Widget).

Definition div_open (class : string) : string :=
  "<div class=" ++ dquote ++ class ++ dquote ++ ">".

(** [data.get(key, "N/A")] *)
Definition value_or_na (data : list (string * string)) (key : string) : string :=
  match assoc key data with
  | Some v => v
  | None => "N/A"
  end.

Definition display_financial_data (data : list (string * string)) : list Widget :=
  [ Markdown (div_open "success-box");
    Markdown "### Financial Data Extracted";
    Columns
      [ [ Metric "Company Name" (value_or_na data "company name");
          Metric "Stock Symbol" (value_or_na data "stock symbol");
          Metric "EPS" (value_or_na data "EPS") ];
        [ Metric "Revenue" (value_or_na data "revenue");
          Metric "Net Income" (value_or_na data "net income") ] ];
    Markdown "</div>";
    Subheader "Data Table";
    Table data ].

(** [content.split(sep, 1)] when [sep] occurs in [content]: what is before
    the first occurrence, and what is after it. *)
Fixpoint split_once (sep s : string) : option (string * string) :=
  if String.prefix sep s
  then Some (EmptyString,
             String.substring (String.length sep)
               (String.length s - String.length sep) s)
  else match s with
       | EmptyString => None
       | String c s' =>
           match split_once sep s' with
           | Some (before, rest) => Some (String c before, rest)
           | None => None
           end
       end.

Definition body_separator : string := two_newlines ++ "Response Body:".

Section Display.

(** [st.json] on a text: [Ret tt] when it returns. *)
Variable st_json : string -> Py unit.

Definition display_summary (content : string) : list Widget :=
  [Markdown (div_open "warning-box")]
  ++ (if String.prefix "API Error:" content
      then
        Markdown "### Error Processing Request"
        :: match split_once body_separator content with
           | Some (error_part, response_body_part) =>
               [ ErrorBox error_part;
                 Expander "View API Response Details"
                   match st_json (strip response_body_part) with
                   | Ret _ => [JsonView (strip response_body_part)]
                   | Raise _ => [CodeBlock (strip response_body_part)]
                   end ]
           | None => [ErrorBox content]
           end
      else
        [ Markdown "### Content Summary";
          Markdown "Unable to extract structured financial data. Here's a summary instead:";
          Markdown content ])
  ++ [Markdown "</div>"].

(** Lines 157 to 161 of main.py: [if data: ... else: ...].  An empty map
    is falsy, and [display_summary] calls [startswith] on its argument. *)
Definition show_result
  (result : option (list (string * string)) * option Json)
  : Py (list Widget) :=
  match result with
  | (Some (entry :: entries), _) => Ret (display_financial_data (entry :: entries))
  | (_, Some (JStr content)) => Ret (display_summary content)
  | (_, Some other) =>
      Raise (mkExc AttributeError
               (quoted (type_name other) ++ " object has no attribute 'startswith'"))
  | (_, None) =>
      Raise (mkExc AttributeError
               "'NoneType' object has no attribute 'startswith'")
  end.

End Display.

(** ** main.py: from the request to the page *)

Section Pipeline.

Variable json_loads : string -> Py Json.
Variable post : nat -> Json -> Py Response.
Variable str_of : Json -> string.
Variable json_dumps : Json -> string.
Variable requests_get : Json -> Py string.
Variable soup_text : string -> Py string.
Variable st_json : string -> Py unit.

(** Lines 136 to 161 of main.py, for the processor main.py builds
    ([FinancialDataProcessor()]) and its handler table:
    [process_with_tools], then [parse_financial_data], then the display
    step.  [None] when the driver has not returned within [fuel] turns. *)
Definition respond (payload : Json) (fuel : nat) : option (Py (list Widget)) :=
  match process_with_tools json_loads post payload
          (main_tool_handlers str_of requests_get soup_text) true fuel with
  | None => None
  | Some response =>
      Some (result <- parse_financial_data str_of json_dumps (__init__ None)
                        response ;;
            show_result st_json result)%py
  end.

End Pipeline.

(** ** ui_components.py: the model selector *)

(** The truth value of a value, as [if v:] takes it. *)
Definition truthy_json (v : Json) : bool :=
  match v with
  | JNull => false
  | JBool b => b
  | JInt z => negb (z =? 0)%Z
  | JFloat q => negb (Qnum q =? 0)%Z
  | JStr s => negb (String.eqb s "")
  | JArr l => match l with [] => false | _ => true end
  | JObj m => match m with [] => false | _ => true end
  end.

Definition colon : ascii := ascii_of_nat 58.

(** [s.split("::")], [part] being the part that is read: the separators
    are found from the left and do not overlap. *)
Fixpoint split_colons (s : string) (part : string) : list string :=
  match s with
  | EmptyString => [part]
  | String c s' =>
      if Ascii.eqb c colon
      then match s' with
           | String c' s'' =>
               if Ascii.eqb c' colon
               then part :: split_colons s'' EmptyString
               else split_colons s' (part ++ String c EmptyString)
           | EmptyString => split_colons s' (part ++ String c EmptyString)
           end
      else split_colons s' (part ++ String c EmptyString)
  end.

(** What [format_model_name] returns: a text, or its argument handed back
    when that is not a text. *)
Inductive Display : Type :=
| Name (text : string)
| Same (model_id : Json).

Definition format_model_name (model_id : Json) : Py Display :=
  (has <- contains "::" model_id ;;
   if has
   then match model_id with
        | JStr s =>
            let parts := split_colons s EmptyString in
            if (3 <=? List.length parts)%nat
            then Ret (Name (hd EmptyString parts ++ " - " ++ last parts EmptyString))
            else Ret (Name s)
        | _ =>
            Raise (mkExc AttributeError
                     (quoted (type_name model_id)
                      ++ " object has no attribute 'split'"))
        end
   else match model_id with
        | JStr s => Ret (Name s)
        | _ => Ret (Same model_id)
        end)%py.

(** How a page function ends: it returns, an exception leaves it, or
    [st.stop()] ends the script. *)
Inductive Page (A : Type) : Type :=
| Shown (a : A)
| Crashed (e : PyExc)
| Stopped.
Arguments Shown {A} a.
Arguments Crashed {A} e.
Arguments Stopped {A}.

Definition and_then {A B : Type} (m : Py A) (k : A -> Page B) : Page B :=
  match m with
  | Ret a => k a
  | Raise e => Crashed e
  end.

(** [[model.get("id") for model in available_models if model.get("id")]] *)
Fixpoint collect_ids (models : list Json) : Py (list Json) :=
  match models with
  | [] => Ret []
  | model :: rest =>
      (id <- get model "id" JNull ;;
       ids <- collect_ids rest ;;
       Ret (if truthy_json id then id :: ids else ids))%py
  end.

(** [[format_model_name(model_id) for model_id in model_ids]] *)
Fixpoint format_all (model_ids : list Json) : Py (list Display) :=
  match model_ids with
  | [] => Ret []
  | model_id :: rest =>
      (name <- format_model_name model_id ;;
       names <- format_all rest ;;
       Ret (name :: names))%py
  end.

(** [dict(zip(model_display_names, model_ids))], [d] being the dict so
    far: a name that is a list or a dict cannot be a key. *)
Fixpoint build_dict (names : list Display) (ids : list Json)
  (d : list (string * Json)) : Py (list (string * Json)) :=
  match names, ids with
  | Name text :: names', id :: ids' => build_dict names' ids' (dict_set text id d)
  | Same v :: _, _ :: _ =>
      Raise (mkExc TypeError ("unhashable type: " ++ quoted (type_name v)))
  | _, _ => Ret d
  end.

Fixpoint texts (names : list Display) : list string :=
  match names with
  | [] => []
  | Name text :: names' => text :: texts names'
  | Same _ :: names' => texts names'
  end.

(** The loop that looks for the default model among the items of the
    dict. *)
Fixpoint find_default (items : list (string * Json)) (default_model : string)
  : option string :=
  match items with
  | [] => None
  | (display_name, model_id) :: rest =>
      if is_str default_model model_id then Some display_name
      else find_default rest default_model
  end.

(** [l.index(x)] *)
Fixpoint index_of (x : string) (l : list string) : option nat :=
  match l with
  | [] => None
  | y :: l' =>
      if String.eqb x y then Some 0
      else match index_of x l' with
           | Some n => Some (S n)
           | None => None
           end
  end.

(** The loop of the expander "Available Models", by the exceptions its
    calls can raise. *)
Fixpoint list_models (models : list Json) : Py unit :=
  match models with
  | [] => Ret tt
  | model :: rest =>
      (model_id <- get model "id" (JStr "") ;;
       provider <- get model "owned_by" (JStr "Unknown Provider") ;;
       _ <- format_model_name model_id ;;
       list_models rest)%py
  end.

Section Selector.

(** [st.sidebar.selectbox("Select Model", options, index=index)]: the
    option the user has picked, [None] when there is no option. *)
Variable selectbox : list string -> nat -> option string.

(** The model id [create_model_selector] returns.  [models_data] is what
    [fetch_models] returned ([JNull] for [None]), [default_model] the
    selection of the run before. *)
Definition create_model_selector (models_data : Json)
  (default_model : option string) : Page Json :=
  match models_data with
  | JNull => Stopped
  | _ =>
      and_then (get models_data "data" (JArr [])) (fun available_models =>
      if negb (truthy_json available_models) then Stopped
      else
        and_then (iterate available_models) (fun models =>
        and_then (collect_ids models) (fun model_ids =>
        and_then (format_all model_ids) (fun model_display_names =>
        and_then (build_dict model_display_names model_ids [])
          (fun model_name_to_id =>
        let default_display :=
          match default_model with
          | Some (String c s) => find_default model_name_to_id (String c s)
          | _ => None
          end in
        and_then
          match default_display with
          | Some (String c s) =>
              match index_of (String c s) (texts model_display_names) with
              | Some n => Ret n
              | None =>
                  Raise (mkExc OtherException
                           (quoted (String c s) ++ " is not in list"))
              end
          | _ => Ret 0
          end (fun index =>
        match selectbox (texts model_display_names) index with
        | None => Crashed (mkExc KeyError "None")
        | Some selected_model_display =>
            match assoc selected_model_display model_name_to_id with
            | None => Crashed (mkExc KeyError (quoted selected_model_display))
            | Some selected_model =>
                and_then (list_models models) (fun _ => Shown selected_model)
            end
        end))))))
  end.

End Selector.

(** Two models of one provider under one name, after a third. *)
Definition sample_models : Json :=
  JObj [("data",
         JArr [ JObj [("id", JStr "openai::2024-02-01::gpt-4o");
                      ("owned_by", JStr "openai")];
                JObj [("id", JStr "anthropic::2023-06-01::claude-sonnet");
                      ("owned_by", JStr "anthropic")];
                JObj [("id", JStr "anthropic::2024-10-22::claude-sonnet");
                      ("owned_by", JStr "anthropic")] ])].

(** A user who leaves the selection where it is. *)
Definition keep_default (options : list string) (index : nat) : option string :=
  nth_error options index.

(** ** Values on one line *)

Fixpoint no_newline (s : string) : bool :=
  match s with
  | EmptyString => true
  | String c s' => negb (Ascii.eqb c newline) && no_newline s'
  end.

(** A pattern of the shape of the default table. *)
Definition is_label_line (pattern : regex) : Prop :=
  exists label, pattern = label_line label.

(** ** A labelled line of the answer *)

(** [s] without the [label] it starts with, letter case ignored. *)
Fixpoint strip_prefix (label s : string) : option string :=
  match label with
  | EmptyString => Some s
  | String c label' =>
      match s with
      | String d s' => if eq_nocase c d then strip_prefix label' s' else None
      | EmptyString => None
      end
  end.

(** What follows the leftmost place of [s] where [label] is written,
    letter case ignored. *)
Fixpoint after_label (label s : string) : option string :=
  match strip_prefix label s with
  | Some t => Some t
  | None =>
      match s with
      | EmptyString => None
      | String _ s' => after_label label s'
      end
  end.

Fixpoint all_space (s : string) : bool :=
  match s with
  | EmptyString => true
  | String c s' => isspace c && all_space s'
  end.

(** A text that does not begin with whitespace, and is not empty. *)
Definition begins_with_text (s : string) : bool :=
  match s with
  | EmptyString => false
  | String c _ => negb (isspace c)
  end.

(** The end of the text, or the end of a line. *)
Definition line_end (s : string) : bool :=
  match s with
  | EmptyString => true
  | String c _ => Ascii.eqb c newline
  end.

(** A value that holds a label of the table. *)
Definition label_in_value : string :=
  line "Company name: PepsiCo" ++ line "EPS: $1.50".

(** * Properties *)

(** ** Dicts *)

Lemma assoc_dict_set_same {A : Type} (k : string) (v : A) (m : list (string * A)) :
  assoc k (dict_set k v m) = Some v.
Proof.
  induction m as [|[k' v'] m IH]; simpl.
  - now rewrite String.eqb_refl.
  - destruct (String.eqb k k') eqn:E; simpl; rewrite E; auto.
Qed.

Lemma assoc_dict_set_other {A : Type} (k k0 : string) (v : A) (m : list (string * A)) :
  k0 <> k -> assoc k0 (dict_set k v m) = assoc k0 m.
Proof.
  intros Hne. induction m as [|[k' v'] m IH]; simpl.
  - destruct (String.eqb k0 k) eqn:E; auto.
    apply String.eqb_eq in E. contradiction.
  - destruct (String.eqb k k') eqn:E; simpl.
    + apply String.eqb_eq in E. subst k'.
      apply String.eqb_neq in Hne. now rewrite Hne.
    + now rewrite IH.
Qed.

Lemma assoc_none_not_in {A : Type} (k : string) (m : list (string * A)) :
  assoc k m = None <-> ~ In k (map fst m).
Proof.
  induction m as [|[k' v'] m IH]; simpl.
  - tauto.
  - destruct (String.eqb k k') eqn:E.
    + apply String.eqb_eq in E. subst. split; [discriminate | tauto].
    + apply String.eqb_neq in E. rewrite IH. split.
      * intros H [H1 | H1]; [congruence | tauto].
      * tauto.
Qed.

Lemma assoc_in_nodup {A : Type} (k : string) (v : A) (m : list (string * A)) :
  NoDup (map fst m) -> In (k, v) m -> assoc k m = Some v.
Proof.
  induction m as [|[k' v'] m IH]; simpl; intros Hnd Hin.
  - contradiction.
  - inversion Hnd as [|? ? Hnot Hnd']; subst.
    destruct Hin as [Heq | Hin].
    + inversion Heq; subst. now rewrite String.eqb_refl.
    + destruct (String.eqb k k') eqn:E.
      * apply String.eqb_eq in E. subst k'.
        exfalso. apply Hnot. change k with (fst (k, v)). now apply in_map.
      * auto.
Qed.

Lemma dict_set_keys {A : Type} (k : string) (v : A) (m : list (string * A)) :
  map fst (dict_set k v m)
  = if has_key k m then map fst m else (map fst m ++ [k])%list.
Proof.
  unfold has_key. induction m as [|[k' v'] m IH]; simpl.
  - reflexivity.
  - destruct (String.eqb k k') eqn:E; simpl.
    + reflexivity.
    + rewrite IH. now destruct (assoc k m).
Qed.

Lemma dict_set_nodup {A : Type} (k : string) (v : A) (m : list (string * A)) :
  NoDup (map fst m) -> NoDup (map fst (dict_set k v m)).
Proof.
  intros Hnd. rewrite dict_set_keys. unfold has_key.
  destruct (assoc k m) eqn:E; auto.
  apply assoc_none_not_in in E.
  apply NoDup_app; auto.
  - constructor; [simpl; tauto | constructor].
  - intros x Hx [Hk | []]. subst. contradiction.
Qed.

(** ** The matcher: group 1 of the patterns of the default table *)

Lemma or_else_some {A : Type} (x y : option A) (a : A) :
  or_else x y = Some a -> x = Some a \/ y = Some a.
Proof. destruct x; simpl; auto. Qed.

Lemma rmatch_group (r : regex) :
  forall s g k x,
    rmatch r s g k = Some x ->
    exists s' g',
      k s' g' = Some x /\ (sets_group r = true \/ g <> None -> g' <> None).
Proof.
  induction r as [ | c | | | | r1 IH1 r2 IH2 | r1 IH1 r2 IH2 | r1 IH1
                 | r1 IH1 | r1 IH1 | r1 IH1 ]; intros s g k x H; simpl in H.
  - exists s, g. split; [exact H|]. simpl. intros [? | ?]; [discriminate | auto].
  - destruct s as [|d s']; [discriminate|].
    destruct (eq_nocase c d); [|discriminate].
    exists s', g. split; [exact H|]. simpl. intros [? | ?]; [discriminate | auto].
  - destruct s as [|d s']; [discriminate|].
    destruct (isspace d); [|discriminate].
    exists s', g. split; [exact H|]. simpl. intros [? | ?]; [discriminate | auto].
  - destruct s as [|d s']; [discriminate|].
    destruct (Ascii.eqb d newline); [discriminate|].
    exists s', g. split; [exact H|]. simpl. intros [? | ?]; [discriminate | auto].
  - destruct (at_eos s); [|discriminate].
    exists s, g. split; [exact H|]. simpl. intros [? | ?]; [discriminate | auto].
  - apply IH1 in H. destruct H as (s1 & g1 & H & Hg1).
    apply IH2 in H. destruct H as (s2 & g2 & H & Hg2).
    exists s2, g2. split; [exact H|]. simpl. intros [Hs | Hg].
    + apply orb_true_iff in Hs. destruct Hs; auto.
    + auto.
  - apply or_else_some in H. destruct H as [H | H].
    + apply IH1 in H. destruct H as (s1 & g1 & H & Hg1).
      exists s1, g1. split; [exact H|]. simpl. intros [Hs | Hg]; auto.
      apply andb_true_iff in Hs. tauto.
    + apply IH2 in H. destruct H as (s1 & g1 & H & Hg1).
      exists s1, g1. split; [exact H|]. simpl. intros [Hs | Hg]; auto.
      apply andb_true_iff in Hs. tauto.
  - apply or_else_some in H. destruct H as [H | H].
    + apply IH1 in H. destruct H as (s1 & g1 & H & Hg1).
      exists s1, g1. split; [exact H|]. simpl. intros [? | ?]; [discriminate | auto].
    + exists s, g. split; [exact H|]. simpl. intros [? | ?]; [discriminate | auto].
  - remember (String.length s) as n eqn:En. clear En.
    revert s g H. induction n as [|n IHn]; intros s g H.
    + exists s, g. split; [exact H|]. simpl. intros [? | ?]; [discriminate | auto].
    + apply or_else_some in H. destruct H as [H | H].
      * apply IH1 in H. destruct H as (s1 & g1 & H & Hg1).
        destruct (String.length s1 <? String.length s)%nat; [|discriminate].
        apply IHn in H. destruct H as (s2 & g2 & H & Hg2).
        exists s2, g2. split; [exact H|]. simpl. intros [? | ?]; [discriminate | auto].
      * exists s, g. split; [exact H|]. simpl. intros [? | ?]; [discriminate | auto].
  - remember (String.length s) as n eqn:En. clear En.
    revert s g H. induction n as [|n IHn]; intros s g H.
    + apply IH1 in H. destruct H as (s1 & g1 & H & Hg1).
      apply or_else_some in H. destruct H as [H | H]; [|discriminate].
      exists s1, g1. split; [exact H|exact Hg1].
    + apply IH1 in H. destruct H as (s1 & g1 & H & Hg1).
      apply or_else_some in H. destruct H as [H | H].
      * exists s1, g1. split; [exact H|exact Hg1].
      * destruct (String.length s1 <? String.length s)%nat; [|discriminate].
        apply IHn in H. destruct H as (s2 & g2 & H & Hg2).
        exists s2, g2. split; [exact H|]. intros Hc. apply Hg2. right. auto.
  - apply IH1 in H. destruct H as (s1 & g1 & H & Hg1).
    exists s1, (Some (consumed s s1)). split; [exact H|]. discriminate.
Qed.

Lemma re_search_group (r : regex) (s : string) :
  sets_group r = true -> re_search r s <> Some None.
Proof.
  intros Hs. induction s as [|c s IH]; simpl.
  - destruct (rmatch r "" None (fun _ g => Some g)) as [g|] eqn:E; [|discriminate].
    apply rmatch_group in E. destruct E as (s' & g' & E & Hg).
    inversion E; subst. intros Hc. inversion Hc; subst. apply Hg; auto.
  - destruct (rmatch r (String c s) None (fun _ g => Some g)) as [g|] eqn:E; auto.
    apply rmatch_group in E. destruct E as (s' & g' & E & Hg).
    inversion E; subst. intros Hc. inversion Hc; subst. apply Hg; auto.
Qed.

Lemma label_line_capturing (label : string) : capturing (label_line label).
Proof.
  split.
  - unfold label_line. simpl. apply orb_true_r.
  - intros s. apply re_search_group.
    unfold label_line. simpl. apply orb_true_r.
Qed.

Lemma default_patterns_capturing :
  Forall (fun kp => capturing (snd kp)) default_patterns.
Proof.
  unfold default_patterns.
  repeat constructor; simpl; try apply label_line_capturing.
Qed.

(** ** The field extractor *)

Lemma str_in_blocklist (v : string) :
  str_in v blocklist = false <->
  v <> "Not found" /\ v <> "N/A" /\ v <> "Unknown".
Proof.
  unfold str_in, blocklist. simpl.
  destruct (String.eqb_spec v "Not found"), (String.eqb_spec v "N/A"),
    (String.eqb_spec v "Unknown"); simpl; split; intros H;
    try discriminate; try tauto.
Qed.

Lemma extract_loop_spec (content : string) (patterns : list (string * regex)) :
  forall data,
    NoDup (map fst patterns) ->
    Forall (fun kp => capturing (snd kp)) patterns ->
    (forall k, In k (map fst patterns) -> assoc k data = None) ->
    exists data',
      extract_loop patterns (JStr content) data = Ret data' /\
      forall key value,
        assoc key data' = Some value <->
        (assoc key data = Some value \/
         exists pattern, In (key, pattern) patterns /\ field_of pattern content value).
Proof.
  induction patterns as [|[key0 p0] rest IH]; intros data Hnd Hcap Hfresh.
  - exists data. split; [reflexivity|]. intros key value. split; auto.
    intros [H | (p & [] & _)]. exact H.
  - inversion Hnd as [|? ? Hnot Hnd']; subst.
    inversion Hcap as [|? ? [Hhas Hsome] Hcap']; subst. simpl in Hhas, Hsome.
    assert (Hfresh' : forall k, In k (map fst rest) -> assoc k data = None).
    { intros k Hk. apply Hfresh. right. exact Hk. }
    assert (Hkey0 : assoc key0 data = None).
    { apply Hfresh. left. reflexivity. }
    cbn -[str_in blocklist re_search]. destruct (re_search p0 content) as [g|] eqn:Es.
    + destruct g as [captured|]; [|exfalso; apply (Hsome content); exact Es].
      unfold group1. rewrite Hhas. cbn -[str_in blocklist].
      destruct (str_in (strip captured) blocklist) eqn:Eb; cbn -[str_in blocklist].
      * destruct (IH data Hnd' Hcap' Hfresh') as (data' & Hrun & Hspec).
        exists data'. split; [exact Hrun|]. intros key value.
        rewrite Hspec. split.
        -- intros [H | (p & Hin & Hf)]; [left; exact H|].
           right. exists p. split; [right; exact Hin | exact Hf].
        -- intros [H | (p & [Heq | Hin] & Hf)]; [left; exact H | | ].
           ++ inversion Heq; subst. destruct Hf as (c & Hc & Hnb & _).
              rewrite Es in Hc. inversion Hc; subst c.
              apply str_in_blocklist in Hnb. congruence.
           ++ right. exists p. split; assumption.
      * assert (Hfresh2 : forall k, In k (map fst rest) ->
                  assoc k (dict_set key0 (strip captured) data) = None).
        { intros k Hk. rewrite assoc_dict_set_other; [auto|].
          intros ->. contradiction. }
        destruct (IH _ Hnd' Hcap' Hfresh2) as (data' & Hrun & Hspec).
        exists data'. split; [exact Hrun|]. intros key value.
        rewrite Hspec. split.
        -- intros [H | (p & Hin & Hf)].
           ++ destruct (String.eqb_spec key key0) as [-> | Hne].
              ** rewrite assoc_dict_set_same in H. inversion H; subst value.
                 right. exists p0. split; [left; reflexivity|].
                 exists captured. apply str_in_blocklist in Eb. auto.
              ** rewrite assoc_dict_set_other in H by exact Hne. left. exact H.
           ++ right. exists p. split; [right; exact Hin | exact Hf].
        -- intros [H | (p & [Heq | Hin] & Hf)].
           ++ left. rewrite assoc_dict_set_other; [exact H|].
              intros ->. congruence.
           ++ inversion Heq; subst. destruct Hf as (c & Hc & _ & ->).
              rewrite Es in Hc. inversion Hc; subst c.
              left. apply assoc_dict_set_same.
           ++ right. exists p. split; assumption.
    + destruct (IH data Hnd' Hcap' Hfresh') as (data' & Hrun & Hspec).
      exists data'. split; [exact Hrun|]. intros key value.
      rewrite Hspec. split.
      * intros [H | (p & Hin & Hf)]; [left; exact H|].
        right. exists p. split; [right; exact Hin | exact Hf].
      * intros [H | (p & [Heq | Hin] & Hf)]; [left; exact H | | ].
        -- inversion Heq; subst. destruct Hf as (c & Hc & _).
           rewrite Es in Hc. discriminate.
        -- right. exists p. split; assumption.
Qed.

(** C7. For every content text, the map the extractor returns has a label
    exactly when the pattern of the label matches the content (leftmost
    match, letter case ignored) and the trimmed text of its group is none of
    "Not found", "N/A", "Unknown" (compared with letter case); the value
    under the label is that trimmed text. *)
Theorem extracted_field_iff (self : FinancialDataProcessor) (content : string) :
  NoDup (map fst (extraction_patterns self)) ->
  Forall (fun kp => capturing (snd kp)) (extraction_patterns self) ->
  exists data,
    _extract_data_from_content self (JStr content) = Ret data /\
    forall label value,
      assoc label data = Some value <->
      exists pattern captured,
        In (label, pattern) (extraction_patterns self) /\
        re_search pattern content = Some (Some captured) /\
        (strip captured <> "Not found" /\ strip captured <> "N/A"
         /\ strip captured <> "Unknown") /\
        value = strip captured.
Proof.
  intros Hnd Hcap. unfold _extract_data_from_content.
  destruct (extract_loop_spec content (extraction_patterns self) [] Hnd Hcap)
    as (data & Hrun & Hspec); [reflexivity|].
  exists data. split; [exact Hrun|]. intros label value.
  rewrite Hspec. simpl. unfold field_of. split.
  - intros [H | (p & Hin & c & H)]; [discriminate|]. exists p, c. tauto.
  - intros (p & c & Hin & H). right. exists p. split; [exact Hin|].
    exists c. exact H.
Qed.

Lemma default_keys_nodup : NoDup (map fst default_patterns).
Proof.
  simpl. repeat constructor; simpl; intuition discriminate.
Qed.

Lemma extracted_field_iff_witness :
  exists data,
    _extract_data_from_content (__init__ None) (JStr answer_text) = Ret data /\
    forall label value,
      assoc label data = Some value <->
      exists pattern captured,
        In (label, pattern) (extraction_patterns (__init__ None)) /\
        re_search pattern answer_text = Some (Some captured) /\
        (strip captured <> "Not found" /\ strip captured <> "N/A"
         /\ strip captured <> "Unknown") /\
        value = strip captured.
Proof.
  apply (extracted_field_iff (__init__ None) answer_text).
  - exact default_keys_nodup.
  - exact default_patterns_capturing.
Defined.

Lemma extract_loop_total (content : string) (patterns : list (string * regex)) :
  forall data,
    Forall (fun kp => capturing (snd kp)) patterns ->
    NoDup (map fst data) ->
    exists data',
      extract_loop patterns (JStr content) data = Ret data' /\
      NoDup (map fst data').
Proof.
  induction patterns as [|[key0 p0] rest IH]; intros data Hcap Hnd.
  - exists data. split; [reflexivity | exact Hnd].
  - inversion Hcap as [|? ? [Hhas Hsome] Hcap']; subst. simpl in Hhas, Hsome.
    cbn -[str_in blocklist re_search].
    destruct (re_search p0 content) as [[captured|]|] eqn:Es.
    + unfold group1. rewrite Hhas. cbn -[str_in blocklist].
      destruct (str_in (strip captured) blocklist); cbn -[str_in blocklist].
      * apply IH; assumption.
      * apply IH; [assumption | apply dict_set_nodup; assumption].
    + exfalso. apply (Hsome content). exact Es.
    + apply IH; assumption.
Qed.

(** C8. For a response without an error whose content is a text,
    [parse_financial_data] returns the field map and no error when the map
    has at least [min_data_points] labels (the labels of a map are distinct),
    and no map and the content itself when it has fewer: [min_data_points]
    labels give the map, one fewer gives the content. *)
Theorem parse_threshold (str_of json_dumps : Json -> string)
  (self : FinancialDataProcessor) (response : Json) (content : string) :
  contains "error" response = Ret false ->
  content_of response = Ret (JStr content) ->
  Forall (fun kp => capturing (snd kp)) (extraction_patterns self) ->
  exists data,
    _extract_data_from_content self (JStr content) = Ret data /\
    NoDup (map fst data) /\
    (min_data_points self <= List.length data ->
     parse_financial_data str_of json_dumps self response
     = Ret (Some data, None)) /\
    (List.length data < min_data_points self ->
     parse_financial_data str_of json_dumps self response
     = Ret (None, Some (JStr content))).
Proof.
  intros Herr Hcontent Hcap.
  destruct (extract_loop_total content (extraction_patterns self) [] Hcap)
    as (data & Hrun & Hnd); [constructor|].
  exists data. split; [exact Hrun|]. split; [exact Hnd|].
  unfold parse_financial_data, parse_body, _extract_data_from_content in *.
  rewrite Herr, Hcontent. cbn [bind len slice_to try_except].
  rewrite Hrun. cbn [bind try_except]. split; intros Hlen.
  - apply Nat.leb_le in Hlen. rewrite Hlen. reflexivity.
  - apply Nat.leb_gt in Hlen. rewrite Hlen. reflexivity.
Qed.

Lemma parse_threshold_witness :
  exists data,
    _extract_data_from_content (__init__ None) (JStr answer_text) = Ret data /\
    NoDup (map fst data) /\
    (min_data_points (__init__ None) <= List.length data ->
     parse_financial_data str_scalar render (__init__ None) answer_response
     = Ret (Some data, None)) /\
    (List.length data < min_data_points (__init__ None) ->
     parse_financial_data str_scalar render (__init__ None) answer_response
     = Ret (None, Some (JStr answer_text))).
Proof.
  apply (parse_threshold str_scalar render (__init__ None) answer_response answer_text).
  - reflexivity.
  - reflexivity.
  - exact default_patterns_capturing.
Defined.

(** The scenario of the specification: three labels give the map. *)
Example parse_three_fields :
  parse_financial_data str_scalar render (__init__ None) answer_response
  = Ret (Some [("company name", "Apple Inc."); ("stock symbol", "AAPL");
               ("revenue", "$120B")], None).
Proof. vm_compute. reflexivity. Qed.

(** Two labels ("N/A" and "Not found" are dropped) give the content. *)
Example parse_two_fields :
  _extract_data_from_content (__init__ None) (JStr two_field_text)
  = Ret [("company name", "Apple Inc."); ("revenue", "$120B")] /\
  parse_financial_data str_scalar render (__init__ None) two_field_response
  = Ret (None, Some (JStr two_field_text)).
Proof. split; vm_compute; reflexivity. Qed.

(** C10. On a response map without the key "error", [parse_financial_data]
    returns: it gives what the body of its [try] returns, and when the body
    raises (an empty list of choices, a content that is not a text, a
    pattern without its group) it gives no map and the text
    "Parsing Error: " followed by the message of the exception. *)
Theorem parse_never_raises (str_of json_dumps : Json -> string)
  (self : FinancialDataProcessor) (response : list (string * Json)) :
  has_key "error" response = false ->
  exists result,
    parse_financial_data str_of json_dumps self (JObj response) = Ret result /\
    (parse_body self (JObj response) = Ret result \/
     exists e,
       parse_body self (JObj response) = Raise e /\
       result = (None, Some (JStr ("Parsing Error: " ++ exc_str e)))).
Proof.
  intros Herr. unfold parse_financial_data. cbn [contains bind].
  rewrite Herr.
  destruct (parse_body self (JObj response)) as [result | e] eqn:E.
  - exists result. split; [reflexivity | left; reflexivity].
  - eexists. split; [reflexivity | right]. exists e. split; reflexivity.
Qed.

Lemma parse_never_raises_witness :
  exists result,
    parse_financial_data str_scalar render (__init__ None)
      (JObj [("choices", JArr [])]) = Ret result /\
    (parse_body (__init__ None) (JObj [("choices", JArr [])]) = Ret result \/
     exists e,
       parse_body (__init__ None) (JObj [("choices", JArr [])]) = Raise e /\
       result = (None, Some (JStr ("Parsing Error: " ++ exc_str e)))).
Proof.
  apply (parse_never_raises str_scalar render (__init__ None) [("choices", JArr [])]).
  reflexivity.
Defined.

(** The example of the claim: an empty list of choices. *)
Example parse_empty_choices :
  parse_financial_data str_scalar render (__init__ None) no_choice_response
  = Ret (None, Some (JStr "Parsing Error: list index out of range")).
Proof. vm_compute. reflexivity. Qed.

(** ** The content-fetch tool *)

Lemma prefix_app (x b : string) : String.prefix x (x ++ b) = true.
Proof.
  induction x as [|c x IH]; simpl.
  - destruct b; reflexivity.
  - destruct (ascii_dec c c); [exact IH | congruence].
Qed.

Lemma is_infix_prefix (x s : string) :
  String.prefix x s = true -> is_infix x s = true.
Proof. intros H. destruct s; cbn [is_infix]; rewrite H; reflexivity. Qed.

Lemma is_infix_here (x b : string) : is_infix x (x ++ b) = true.
Proof. apply is_infix_prefix, prefix_app. Qed.

Lemma is_infix_later (x a s : string) :
  is_infix x s = true -> is_infix x (a ++ s) = true.
Proof.
  intros H. induction a as [|c a IH]; [exact H|].
  change (String c a ++ s) with (String c (a ++ s)). cbn [is_infix].
  rewrite IH. destruct (String.prefix x (String c (a ++ s))); reflexivity.
Qed.

Lemma append_empty_r (s : string) : s ++ "" = s.
Proof. induction s as [|c s IH]; simpl; [reflexivity | now rewrite IH]. Qed.

Lemma is_infix_end (x : string) : is_infix x x = true.
Proof.
  pose proof (is_infix_here x "") as H. now rewrite append_empty_r in H.
Qed.

(** C9. For every url, [fetch_url_content] returns a pair and raises
    nothing: the text and no error when the body of its [try] ends, and
    otherwise no text and an error message in which both the url and the
    message of the exception occur. *)
Theorem fetch_url_content_either (str_of : Json -> string)
  (requests_get : Json -> Py string) (soup_text : string -> Py string)
  (url : Json) :
  (exists content,
     fetch_body requests_get soup_text url = Ret content /\
     fetch_url_content str_of requests_get soup_text url
     = Ret (Some content, None)) \/
  (exists e error_msg,
     fetch_body requests_get soup_text url = Raise e /\
     fetch_url_content str_of requests_get soup_text url
     = Ret (None, Some error_msg) /\
     is_infix (str_of url) error_msg = true /\
     is_infix (exc_str e) error_msg = true).
Proof.
  unfold fetch_url_content.
  destruct (fetch_body requests_get soup_text url) as [content | e].
  - left. exists content. split; reflexivity.
  - right. exists e.
    destruct (exc_class e); eexists; (split; [reflexivity|]);
      (split; [reflexivity|]); split;
      try (apply is_infix_later, is_infix_here);
      try (apply is_infix_later, is_infix_later, is_infix_later, is_infix_end).
Qed.

(** ** The driver: the monad, one request *)

Lemma dbind_done {A B : Type} (m : Drv A) (k : A -> Drv B) fr b fr2 :
  dbind m k fr = (Done b, fr2) ->
  exists a fr1, m fr = (Done a, fr1) /\ k a fr1 = (Done b, fr2).
Proof.
  unfold dbind. destruct (m fr) as [[a | e |] fr1]; intros H;
    try discriminate. exists a, fr1. auto.
Qed.

Lemma lift_done {A : Type} (m : Py A) fr a fr' :
  lift m fr = (Done a, fr') -> m = Ret a /\ fr' = fr.
Proof.
  unfold lift. destruct m; intros H; inversion H; auto.
Qed.

Lemma bind_ret {A B : Type} (m : Py A) (k : A -> Py B) b :
  bind m k = Ret b -> exists a, m = Ret a /\ k a = Ret b.
Proof.
  destruct m as [a | e]; simpl; intros H; [|discriminate]. exists a. auto.
Qed.

Lemma dbind_lift {A B : Type} (m : Py A) (k : A -> Drv B) fr :
  dbind (lift m) k fr
  = match m with
    | Ret a => k a fr
    | Raise e => (Raised e, fr)
    end.
Proof. destruct m; reflexivity. Qed.

Section DriverFacts.

Variable json_loads : string -> Py Json.
Variable post : nat -> Json -> Py Response.
Variable payload : Json.
Variable tool_handlers : list (string * Handler).
Variable log_requests : bool.

Lemma send_sent (p : Json) fr :
  sent (snd (send post p fr)) = (sent fr ++ [p])%list.
Proof.
  unfold send. destruct (post _ p) as [r | e]; [|reflexivity].
  destruct (raise_for_status r); [|reflexivity].
  destruct (json r); reflexivity.
Qed.

Lemma send_done (p : Json) fr d fr' :
  send post p fr = (Done d, fr') ->
  exists r,
    post (List.length (sent fr)) p = Ret r /\
    raise_for_status r = Ret tt /\
    json r = Ret d /\
    fr' = {| response := Some r; sent := (sent fr ++ [p])%list |}.
Proof.
  unfold send. destruct (post _ p) as [r | e]; [|discriminate].
  destruct (raise_for_status r) as [[] | e] eqn:Es; [|discriminate].
  destruct (json r) as [d' | e] eqn:Ej; [|discriminate].
  intros H. inversion H; subst. exists r. auto.
Qed.

(** The run, from the turn it has reached on. *)
Lemma run_reaches n st fr :
  reaches json_loads post payload tool_handlers log_requests n st fr ->
  forall fuel,
    run json_loads post payload tool_handlers log_requests (n + fuel)
    = conversation_loop json_loads post payload tool_handlers log_requests
        fuel st fr.
Proof.
  induction 1 as [st fr Hinit | n st fr st' fr' Hreach IH Hguard Hturn];
    intros fuel.
  - simpl. unfold run, dbind. rewrite Hinit. reflexivity.
  - replace (S n + fuel) with (n + S fuel) by lia.
    rewrite IH. simpl. unfold dbind at 1, lift. rewrite Hguard.
    unfold dbind. rewrite Hturn. reflexivity.
Qed.


End DriverFacts.


(** ** The driver: tool calls and the chain of requests *)

Section Chain.

Variable json_loads : string -> Py Json.
Variable post : nat -> Json -> Py Response.
Variable payload : Json.
Variable tool_handlers : list (string * Handler).
Variable log_requests : bool.

Lemma handle_tool_call_length (tool_call : Json) (msgs msgs' : list Json) :
  handle_tool_call json_loads tool_handlers tool_call msgs = Ret msgs' ->
  List.length msgs'
  = List.length msgs + (if registered tool_handlers tool_call then 1 else 0).
Proof.
  unfold handle_tool_call, registered. intros H.
  apply bind_ret in H. destruct H as (fc & Hfc & H). rewrite Hfc.
  apply bind_ret in H. destruct H as (fname & Hname & H).
  cbn [bind]. rewrite Hname.
  apply bind_ret in H. destruct H as (handler & Hh & H).
  cbn [bind]. rewrite Hh.
  destruct handler as [h|].
  - apply bind_ret in H. destruct H as (arguments & _ & H).
    apply bind_ret in H. destruct H as (args & _ & H).
    apply bind_ret in H. destruct H as ([content error] & _ & H).
    apply bind_ret in H. destruct H as (id & _ & H).
    destruct (truthy content); inversion H; subst;
      rewrite length_app; simpl; lia.
  - inversion H; subst. lia.
Qed.

Lemma handle_tool_calls_length (tool_calls : list Json) :
  forall msgs msgs',
    handle_tool_calls json_loads tool_handlers tool_calls msgs = Ret msgs' ->
    List.length msgs'
    = List.length msgs + count_registered tool_handlers tool_calls.
Proof.
  unfold count_registered.
  induction tool_calls as [|c rest IH]; simpl; intros msgs msgs' H.
  - inversion H; subst. lia.
  - apply bind_ret in H. destruct H as (msgs1 & H1 & H).
    apply handle_tool_call_length in H1. apply IH in H.
    destruct (registered tool_handlers c); simpl; lia.
Qed.

Lemma after_tools_length (st : LoopState) (msgs : list Json) :
  after_tools json_loads tool_handlers st = Ret msgs ->
  exists tool_calls,
    tool_calls_of (message st) = Ret tool_calls /\
    List.length msgs
    = List.length (messages_so_far st)
      + count_registered tool_handlers tool_calls.
Proof.
  unfold after_tools. intros H.
  apply bind_ret in H. destruct H as (calls & Hcalls & H).
  exists calls. split; [exact Hcalls|].
  now apply handle_tool_calls_length.
Qed.

Lemma continuation_messages (msgs : list Json) (q : Json) :
  continuation payload msgs = Ret q -> messages_of q = msgs.
Proof.
  unfold continuation. intros H.
  apply bind_ret in H. destruct H as (model & _ & H).
  apply bind_ret in H. destruct H as (mt & _ & H).
  apply bind_ret in H. destruct H as (te & _ & H).
  apply bind_ret in H. destruct H as (tp & _ & H).
  inversion H; subst. reflexivity.
Qed.

Lemma well_chained_snoc (earlier : list Json) (p q : Json) :
  well_chained post tool_handlers (earlier ++ [p]) ->
  continues post tool_handlers (List.length earlier) p q ->
  well_chained post tool_handlers ((earlier ++ [p]) ++ [q]).
Proof.
  intros Hwc Hpq i a b Ha Hb.
  assert (Hlen : List.length (earlier ++ [p]) = S (List.length earlier)).
  { rewrite length_app. simpl. lia. }
  destruct (Nat.lt_ge_cases (S i) (List.length (earlier ++ [p]))) as [Hlt | Hge].
  - rewrite nth_error_app1 in Ha by lia.
    rewrite nth_error_app1 in Hb by lia.
    exact (Hwc i a b Ha Hb).
  - assert (Hi : i = List.length earlier).
    { assert (S i < List.length ((earlier ++ [p]) ++ [q])).
      { apply nth_error_Some. congruence. }
      rewrite length_app in H. simpl in H. lia. }
    subst i.
    rewrite nth_error_app1 in Ha by lia.
    rewrite nth_error_app2 in Ha by lia.
    rewrite Nat.sub_diag in Ha. simpl in Ha. inversion Ha; subst a.
    rewrite nth_error_app2 in Hb by lia.
    rewrite Hlen, Nat.sub_diag in Hb. simpl in Hb. inversion Hb; subst b.
    exact Hpq.
Qed.

(** One turn keeps the chain, and leaves a state that belongs to the
    request it posted. *)
Lemma turn_chain (st : LoopState) (fr : Frame) out fr1 :
  linked post st fr ->
  well_chained post tool_handlers (sent fr) ->
  turn json_loads post payload tool_handlers log_requests st fr = (out, fr1) ->
  well_chained post tool_handlers (sent fr1)
  /\ forall st', out = Done st' -> linked post st' fr1.
Proof.
  intros (earlier & p & r & Hsent & Hpost & Hresp & Hjson & Hmsg & Hmsgs) Hwc H.
  unfold turn in H. rewrite dbind_lift in H.
  destruct (after_tools json_loads tool_handlers st) as [msgs | e] eqn:Ea;
    [|inversion H; subst; split; [exact Hwc | discriminate]].
  rewrite dbind_lift in H.
  destruct (continuation payload msgs) as [q | e] eqn:Ec;
    [|inversion H; subst; split; [exact Hwc | discriminate]].
  rewrite dbind_lift in H.
  destruct (log_last_role log_requests msgs) as [[] | e] eqn:El;
    [|inversion H; subst; split; [exact Hwc | discriminate]].
  apply after_tools_length in Ea. destruct Ea as (calls & Hcalls & Hlen).
  pose proof (continuation_messages _ _ Ec) as Hq.
  assert (Hpq : continues post tool_handlers (List.length earlier) p q).
  { exists r, (response_data st), (message st), calls.
    repeat split; try assumption.
    rewrite Hq, Hlen, Hmsgs, length_app. simpl. lia. }
  assert (Hwc' : well_chained post tool_handlers (sent fr ++ [q])).
  { rewrite Hsent. apply well_chained_snoc; [rewrite <- Hsent|]; assumption. }
  unfold dbind at 1 in H.
  pose proof (send_sent post q fr) as Hs.
  destruct (send post q fr) as [[d | e |] fr2] eqn:Es; simpl in Hs.
  - apply send_done in Es. destruct Es as (r1 & Hp1 & _ & Hj1 & ->).
    rewrite dbind_lift in H.
    destruct (first_message d) as [m | e] eqn:Em.
    + unfold dret in H. inversion H; subst out fr1. simpl.
      split; [exact Hwc'|].
      intros st' Hst. inversion Hst; subst st'.
      exists (sent fr), q, r1. simpl. rewrite Hq. repeat split; auto.
    + inversion H; subst. simpl. split; [exact Hwc' | discriminate].
  - inversion H; subst. rewrite Hs. split; [exact Hwc' | discriminate].
  - inversion H; subst. rewrite Hs. split; [exact Hwc' | discriminate].
Qed.

Lemma loop_chain (fuel : nat) :
  forall st fr,
    linked post st fr ->
    well_chained post tool_handlers (sent fr) ->
    well_chained post tool_handlers
      (sent (snd (conversation_loop json_loads post payload tool_handlers
                    log_requests fuel st fr))).
Proof.
  induction fuel as [|fuel IH]; intros st fr Hl Hwc; simpl;
    rewrite dbind_lift; destruct (guard st) as [[|] | e]; try exact Hwc.
  unfold dbind.
  destruct (turn json_loads post payload tool_handlers log_requests st fr)
    as [out fr1] eqn:Et.
  destruct (turn_chain st fr out fr1 Hl Hwc Et) as [Hwc1 Hl1].
  destruct out as [st' | e |]; try exact Hwc1.
  apply IH; [apply Hl1; reflexivity | exact Hwc1].
Qed.

Lemma messages_of_payload (messages : Json) (m : Json) (msgs : list Json) :
  getitem payload "messages" = Ret messages ->
  concat_list messages [m] = Ret msgs ->
  msgs = (messages_of payload ++ [m])%list.
Proof.
  unfold getitem, messages_of. destruct payload; try discriminate.
  destruct (assoc "messages" m0) as [v|]; [|discriminate].
  intros H. inversion H; subst v.
  destruct messages; simpl; try discriminate.
  intros H1. inversion H1. reflexivity.
Qed.

Lemma initial_chain out fr :
  initial post payload empty_frame = (out, fr) ->
  well_chained post tool_handlers (sent fr)
  /\ forall st, out = Done st -> linked post st fr.
Proof.
  assert (Hone : well_chained post tool_handlers [payload]).
  { intros i p q Hp Hq. destruct i; simpl in Hq; [discriminate|].
    destruct i; discriminate. }
  intros H. unfold initial in H. unfold dbind at 1 in H.
  pose proof (send_sent post payload empty_frame) as Hs.
  destruct (send post payload empty_frame) as [[d | e |] fr1] eqn:Es;
    simpl in Hs.
  - apply send_done in Es. destruct Es as (r & Hp & _ & Hj & ->). simpl in *.
    rewrite dbind_lift in H.
    destruct (first_message d) as [m | e] eqn:Em;
      [|inversion H; subst; split; [exact Hone | discriminate]].
    rewrite dbind_lift in H.
    destruct (getitem payload "messages") as [messages | e] eqn:Eg;
      [|inversion H; subst; split; [exact Hone | discriminate]].
    rewrite dbind_lift in H.
    destruct (concat_list messages [m]) as [msgs | e] eqn:Ecl;
      [|inversion H; subst; split; [exact Hone | discriminate]].
    unfold dret in H. inversion H; subst out fr. simpl.
    split; [exact Hone|].
    intros st Hst. inversion Hst; subst st.
    exists [], payload, r. simpl. repeat split; auto.
    eapply messages_of_payload; eassumption.
  - inversion H; subst. rewrite Hs. split; [exact Hone | discriminate].
  - inversion H; subst. rewrite Hs. split; [exact Hone | discriminate].
Qed.

(** C2, as the code has it.  Of two requests of a run that follow one
    another, the second has the messages of the first, the message of the
    completion of the first, and one message for each tool call of that
    message whose function has a handler: a tool call without a handler
    adds no message. *)
Theorem continuation_length (fuel i : nat) (p q : Json) :
  nth_error
    (requests_sent json_loads post payload tool_handlers log_requests fuel) i
  = Some p ->
  nth_error
    (requests_sent json_loads post payload tool_handlers log_requests fuel) (S i)
  = Some q ->
  exists r response_data message tool_calls,
    post i p = Ret r /\
    json r = Ret response_data /\
    first_message response_data = Ret message /\
    tool_calls_of message = Ret tool_calls /\
    List.length (messages_of q)
    = List.length (messages_of p) + 1 + count_registered tool_handlers tool_calls.
Proof.
  assert (Hwc : well_chained post tool_handlers
                  (requests_sent json_loads post payload tool_handlers
                     log_requests fuel)).
  { unfold requests_sent, run, dbind.
    destruct (initial post payload empty_frame) as [out fr] eqn:Ei.
    destruct (initial_chain out fr Ei) as [Hwc Hl].
    destruct out as [st | e |]; try exact Hwc.
    apply loop_chain; [apply Hl; reflexivity | exact Hwc]. }
  intros Hp Hq. exact (Hwc i p q Hp Hq).
Qed.

End Chain.

(** ** The driver: a turn that raises *)

Section Abort.

Variable json_loads : string -> Py Json.
Variable post : nat -> Json -> Py Response.
Variable payload : Json.
Variable tool_handlers : list (string * Handler).
Variable log_requests : bool.

Lemma reaches_linked n st fr :
  reaches json_loads post payload tool_handlers log_requests n st fr ->
  linked post st fr /\ well_chained post tool_handlers (sent fr).
Proof.
  induction 1 as [st fr Hinit | n st fr st' fr' Hreach [Hl Hwc] Hguard Hturn].
  - destruct (initial_chain post payload tool_handlers _ _ Hinit) as [Hwc Hl].
    split; [apply Hl; reflexivity | exact Hwc].
  - destruct (turn_chain json_loads post payload tool_handlers log_requests
                st fr _ _ Hl Hwc Hturn) as [Hwc' Hl'].
    split; [apply Hl'; reflexivity | exact Hwc'].
Qed.

Lemma handle_tool_calls_app (a b : list Json) :
  forall msgs,
    handle_tool_calls json_loads tool_handlers (a ++ b) msgs
    = bind (handle_tool_calls json_loads tool_handlers a msgs)
        (handle_tool_calls json_loads tool_handlers b).
Proof.
  induction a as [|c a IH]; intros msgs; simpl; [reflexivity|].
  destruct (handle_tool_call json_loads tool_handlers c msgs); simpl; auto.
Qed.

Lemma argument_error_raises (tool_call : Json) (e : PyExc) (msgs : list Json) :
  argument_error json_loads tool_handlers tool_call e ->
  handle_tool_call json_loads tool_handlers tool_call msgs = Raise e.
Proof.
  intros (fc & name & h & arguments & Hfc & Hname & Hh & Harg & Hfail).
  unfold handle_tool_call. rewrite Hfc. cbn [bind]. rewrite Hname.
  cbn [bind find_handler]. rewrite Hh. cbn [bind]. rewrite Harg. cbn [bind].
  destruct Hfail as [Hl | (args & Hl & Hcall)]; rewrite Hl; cbn [bind];
    [reflexivity | rewrite Hcall; reflexivity].
Qed.

Lemma tool_calls_guard (st : LoopState) (tool_calls : list Json) :
  tool_calls_of (message st) = Ret tool_calls ->
  tool_calls <> [] ->
  guard st = Ret true.
Proof.
  unfold tool_calls_of, guard, get, contains, has_key.
  destruct (message st) as [ | | | | | | m]; try discriminate.
  destruct (assoc "tool_calls" m); [reflexivity|].
  simpl. intros H Hne. inversion H. congruence.
Qed.

(** C1, as the code has it.  At any turn the run reaches, when a tool call
    names a function that has a handler and its arguments do not decode (or
    the handler raises on them), and the tool calls before it in the message
    went through, the driver stops: it posts no further request, appends no
    message for the call, and returns the error value, whose "error" is the
    message of the exception and whose "response_body" is the completion
    that held the tool call. *)
Theorem argument_error_aborts (n : nat) (st : LoopState) (fr : Frame)
  (before after : list Json) (tool_call : Json) (msgs : list Json)
  (e : PyExc) (fuel : nat) :
  reaches json_loads post payload tool_handlers log_requests n st fr ->
  tool_calls_of (message st) = Ret (before ++ tool_call :: after)%list ->
  handle_tool_calls json_loads tool_handlers before (messages_so_far st)
  = Ret msgs ->
  argument_error json_loads tool_handlers tool_call e ->
  process_with_tools json_loads post payload tool_handlers log_requests
    (n + S fuel)
  = Some (JObj [("error", JStr (exc_str e));
                ("response_body", response_data st)]) /\
  requests_sent json_loads post payload tool_handlers log_requests (n + S fuel)
  = sent fr.
Proof.
  intros Hreach Hcalls Hbefore Herr.
  destruct (reaches_linked _ _ _ Hreach)
    as [(earlier & p & r & _ & _ & Hresp & Hjson & _ & _) _].
  assert (Hguard : guard st = Ret true).
  { apply (tool_calls_guard st _ Hcalls). destruct before; discriminate. }
  assert (Hafter : after_tools json_loads tool_handlers st = Raise e).
  { unfold after_tools. rewrite Hcalls. cbn [bind].
    rewrite handle_tool_calls_app, Hbefore. cbn [bind handle_tool_calls].
    rewrite (argument_error_raises _ _ _ Herr). reflexivity. }
  assert (Hloop : conversation_loop json_loads post payload tool_handlers
                    log_requests (S fuel) st fr = (Raised e, fr)).
  { simpl. rewrite dbind_lift, Hguard. unfold dbind, turn.
    rewrite dbind_lift, Hafter. reflexivity. }
  unfold process_with_tools, requests_sent.
  rewrite (run_reaches _ _ _ _ _ _ _ _ Hreach (S fuel)), Hloop.
  simpl. unfold on_exception. rewrite Hresp, Hjson. auto.
Qed.

End Abort.

Lemma argument_error_aborts_witness :
  process_with_tools sample_loads (scripted malformed_script) sample_payload
    sample_handlers true (0 + 1)
  = Some (JObj [("error", JStr (exc_str decode_error));
                ("response_body", response_data malformed_state)]) /\
  requests_sent sample_loads (scripted malformed_script) sample_payload
    sample_handlers true (0 + 1)
  = sent malformed_frame.
Proof.
  apply (argument_error_aborts sample_loads (scripted malformed_script)
           sample_payload sample_handlers true 0 malformed_state
           malformed_frame [] [] malformed_call
           (messages_so_far malformed_state) decode_error 0).
  - apply reaches_initial. vm_compute. reflexivity.
  - reflexivity.
  - reflexivity.
  - eexists _, _, _, _. repeat split; try reflexivity.
    left. vm_compute. reflexivity.
Defined.

(** C1, the claim as it is written fails: arguments that do not decode end
    the run with the error value, and the continuation request is not
    sent. *)
Lemma malformed_arguments_abort_run :
  sample_run malformed_script 5
  = Some (JObj [("error",
                 JStr "Expecting property name enclosed in double quotes: line 1 column 2 (char 1)");
                ("response_body", completion (calling [malformed_call]))]) /\
  sample_requests malformed_script 5 = [sample_payload].
Proof. split; vm_compute; reflexivity. Qed.

(** The same for a call that leaves out the argument [url]. *)
Example missing_argument_aborts_run :
  sample_run no_argument_script 5
  = Some (JObj [("error",
                 JStr "fetch_url_content() missing 1 required positional argument: 'url'");
                ("response_body", completion (calling [no_argument_call]))]) /\
  sample_requests no_argument_script 5 = [sample_payload].
Proof. split; vm_compute; reflexivity. Qed.

Lemma continuation_length_witness :
  exists r response_data message tool_calls,
    scripted fetch_script 0 sample_payload = Ret r /\
    json r = Ret response_data /\
    first_message response_data = Ret message /\
    tool_calls_of message = Ret tool_calls /\
    List.length
      (messages_of
         (sample_continuation
            (sample_messages
             ++ [calling [fetch_call];
                 tool_response (JStr "call_1") article_text])))
    = List.length (messages_of sample_payload) + 1
      + count_registered sample_handlers tool_calls.
Proof.
  apply (continuation_length sample_loads (scripted fetch_script) sample_payload
           sample_handlers true 5 0);
    vm_compute; reflexivity.
Defined.

(** C2, the claim as it is written fails: the message has one tool call,
    its function has no handler, and the continuation request has one
    message more than the first request, not two. *)
Lemma unregistered_call_adds_no_message :
  sample_requests unregistered_script 5
  = [sample_payload;
     sample_continuation (sample_messages ++ [calling [unregistered_call]])] /\
  tool_calls_of (calling [unregistered_call]) = Ret [unregistered_call] /\
  List.length
    (messages_of
       (sample_continuation (sample_messages ++ [calling [unregistered_call]])))
  <> List.length (messages_of sample_payload) + 1 + 1.
Proof.
  split; [vm_compute; reflexivity|]. split; [reflexivity|].
  vm_compute. discriminate.
Qed.

(** C4.  A first message whose "tool_calls" is the empty list does not end
    the run: the driver appends no tool message and posts a continuation
    request, and returns the completion of that second request. *)
Theorem empty_tool_calls_continue :
  tool_calls_of (calling []) = Ret [] /\
  sample_requests empty_calls_script 5
  = [sample_payload; sample_continuation (sample_messages ++ [calling []])] /\
  sample_run empty_calls_script 5 = Some answer_response.
Proof. repeat split; vm_compute; reflexivity. Qed.

(** C5.  A handler that returns the empty text and no error (the fetch of a
    page without text) is reported as a failure: the message appended for
    the call has the content "Error: None", not the empty text. *)
Theorem empty_content_reported_as_error :
  fetch_url_content str_scalar sample_get sample_soup (JStr blank_url)
  = Ret (Some "", None) /\
  handle_tool_call sample_loads sample_handlers blank_call sample_messages
  = Ret (sample_messages ++ [tool_response (JStr "call_1") "Error: None"])%list.
Proof. split; vm_compute; reflexivity. Qed.

(** C6.  When the connection fails on a continuation request, the error
    value carries, as "response_body", the completion of the turn before:
    the variable [response] is still bound to it. *)
Theorem stale_body_after_connection_error :
  sample_run dropped_script 5
  = Some (JObj [("error",
                 JStr "('Connection aborted.', RemoteDisconnected('Remote end closed connection without response'))");
                ("response_body", completion (calling [fetch_call]))]).
Proof. vm_compute. reflexivity. Qed.

(** ** Further facts about the paths the claims touch *)

(** The message the driver appends for a tool call whose handler returns:
    its "tool_call_id" is the id of the call, and its content is the content
    the handler returned when that is a text that is not empty, and
    "Error: " followed by the error otherwise. *)
Lemma tool_result_message (json_loads : string -> Py Json)
  (tool_handlers : list (string * Handler))
  (tool_call function_call arguments args id : Json) (name : string)
  (handler : Handler) (content error : option string) (msgs : list Json) :
  get tool_call "function" (JObj []) = Ret function_call ->
  get function_call "name" JNull = Ret (JStr name) ->
  assoc name tool_handlers = Some handler ->
  get function_call "arguments" (JStr "{}") = Ret arguments ->
  loads json_loads arguments = Ret args ->
  handler args = Ret (content, error) ->
  get tool_call "id" JNull = Ret id ->
  handle_tool_call json_loads tool_handlers tool_call msgs
  = Ret (msgs
         ++ [tool_response id
               match content with
               | Some (String c s) => String c s
               | _ => "Error: " ++ str_opt error
               end])%list.
Proof.
  intros Hfc Hname Hh Harg Hloads Hcall Hid.
  unfold handle_tool_call. rewrite Hfc. cbn [bind]. rewrite Hname.
  cbn [bind find_handler]. rewrite Hh. cbn [bind]. rewrite Harg. cbn [bind].
  rewrite Hloads. cbn [bind]. rewrite Hcall. cbn [bind]. rewrite Hid.
  cbn [bind]. destruct content as [[|c s]|]; reflexivity.
Qed.

(** The test of the [while] on a message that is a dict: the presence of
    the key, whatever is under it. *)
Lemma guard_key (m : list (string * Json)) (msgs : list Json) (d : Json) :
  guard {| message := JObj m; messages_so_far := msgs; response_data := d |}
  = Ret (has_key "tool_calls" m).
Proof. reflexivity. Qed.

(** A text that is not empty is passed on as it is. *)
Example fetched_content_appended :
  handle_tool_call sample_loads sample_handlers fetch_call sample_messages
  = Ret (sample_messages ++ [tool_response (JStr "call_1") article_text])%list.
Proof. vm_compute. reflexivity. Qed.

(** A failed fetch is passed on as an error text. *)
Example failed_fetch_message :
  fetch_url_content str_scalar sample_get sample_soup (JStr missing_url)
  = Ret (None,
         Some "Error fetching URL https://example.com/missing: 404 Client Error: Not Found for url: https://example.com/missing").
Proof. vm_compute. reflexivity. Qed.

(** Transport failures whose error value is as the specification has it:
    no body when the first request cannot connect, the text of the body
    when a status is an error and the body is not JSON. *)
Example connection_error_at_first_request :
  sample_run [connection_error] 5
  = Some (JObj [("error",
                 JStr "('Connection aborted.', RemoteDisconnected('Remote end closed connection without response'))")]).
Proof. vm_compute. reflexivity. Qed.

Example server_error_at_first_request :
  sample_run [server_error] 5
  = Some (JObj [("error",
                 JStr "500 Server Error: Internal Server Error for url: https://sourcegraph.example/.api/completions");
                ("response_body", JStr "Internal Server Error")]).
Proof. vm_compute. reflexivity. Qed.

Example server_error_at_continuation :
  sample_run failing_script 5
  = Some (JObj [("error",
                 JStr "500 Server Error: Internal Server Error for url: https://sourcegraph.example/.api/completions");
                ("response_body", JStr "Internal Server Error")]).
Proof. vm_compute. reflexivity. Qed.

(** The label is matched without regard to letter case, the blocklist with
    regard to it. *)
Example label_case_ignored :
  _extract_data_from_content (__init__ None) (JStr "REVENUE: $5B")
  = Ret [("revenue", "$5B")].
Proof. vm_compute. reflexivity. Qed.

Example blocklist_case_kept :
  _extract_data_from_content (__init__ None)
    (JStr (line "Revenue: n/a" ++ line "EPS: N/A"))
  = Ret [("revenue", "n/a")].
Proof. vm_compute. reflexivity. Qed.

(** A run with a tool call that goes through. *)
Example fetch_run :
  sample_run fetch_script 5 = Some answer_response /\
  sample_requests fetch_script 5
  = [sample_payload;
     sample_continuation
       (sample_messages
        ++ [calling [fetch_call]; tool_response (JStr "call_1") article_text])].
Proof. split; vm_compute; reflexivity. Qed.

Section TurnFacts.

Variable json_loads : string -> Py Json.
Variable post : nat -> Json -> Py Response.
Variable payload : Json.
Variable tool_handlers : list (string * Handler).
Variable log_requests : bool.

(** Any message with an empty list under "tool_calls" enters the loop and
    leaves the messages as they are. *)
Lemma empty_tool_calls_turn (m : list (string * Json)) (msgs : list Json)
  (d : Json) :
  assoc "tool_calls" m = Some (JArr []) ->
  guard {| message := JObj m; messages_so_far := msgs; response_data := d |}
  = Ret true /\
  after_tools json_loads tool_handlers
    {| message := JObj m; messages_so_far := msgs; response_data := d |}
  = Ret msgs.
Proof.
  intros H. unfold guard, after_tools, tool_calls_of, contains, has_key, get.
  simpl. rewrite H. split; reflexivity.
Qed.

(** At any turn the run reaches, when the post of the continuation request
    raises, the error value carries the completion of the turn before. *)
Lemma continuation_fault_body (n : nat) (st : LoopState) (fr : Frame)
  (msgs : list Json) (q : Json) (e : PyExc) (fuel : nat) :
  reaches json_loads post payload tool_handlers log_requests n st fr ->
  guard st = Ret true ->
  after_tools json_loads tool_handlers st = Ret msgs ->
  continuation payload msgs = Ret q ->
  log_last_role log_requests msgs = Ret tt ->
  post (List.length (sent fr)) q = Raise e ->
  process_with_tools json_loads post payload tool_handlers log_requests
    (n + S fuel)
  = Some (JObj [("error", JStr (exc_str e));
                ("response_body", response_data st)]).
Proof.
  intros Hreach Hguard Hafter Hcont Hlog Hpost.
  destruct (reaches_linked _ _ _ _ _ _ _ _ Hreach)
    as [(earlier & p & r & _ & _ & Hresp & Hjson & _ & _) _].
  assert (Hloop : conversation_loop json_loads post payload tool_handlers
                    log_requests (S fuel) st fr
                  = (Raised e,
                     {| response := response fr;
                        sent := (sent fr ++ [q])%list |})).
  { simpl. rewrite dbind_lift, Hguard. unfold dbind at 1. unfold turn.
    rewrite dbind_lift, Hafter, dbind_lift, Hcont, dbind_lift, Hlog.
    unfold dbind, send. rewrite Hpost. reflexivity. }
  unfold process_with_tools.
  rewrite (run_reaches _ _ _ _ _ _ _ _ Hreach (S fuel)), Hloop.
  simpl. unfold on_exception. simpl. rewrite Hresp, Hjson. reflexivity.
Qed.

End TurnFacts.

(** * Further properties of the code *)

(** ** The driver: every request after the first comes from a turn *)

Lemma chained_snoc (R : nat -> Json -> Json -> Prop) (earlier : list Json)
  (p q : Json) :
  chained R (earlier ++ [p]) ->
  R (List.length earlier) p q ->
  chained R ((earlier ++ [p]) ++ [q]).
Proof.
  intros Hc Hpq i a b Ha Hb.
  assert (Hlen : List.length (earlier ++ [p]) = S (List.length earlier)).
  { rewrite length_app. simpl. lia. }
  destruct (Nat.lt_ge_cases (S i) (List.length (earlier ++ [p]))) as [Hlt | Hge].
  - rewrite nth_error_app1 in Ha by lia.
    rewrite nth_error_app1 in Hb by lia.
    exact (Hc i a b Ha Hb).
  - assert (Hi : i = List.length earlier).
    { assert (Hb' : S i < List.length ((earlier ++ [p]) ++ [q])).
      { apply nth_error_Some. congruence. }
      rewrite length_app in Hb'. simpl in Hb'. lia. }
    subst i.
    rewrite nth_error_app1 in Ha by lia.
    rewrite nth_error_app2 in Ha by lia.
    rewrite Nat.sub_diag in Ha. simpl in Ha. inversion Ha; subst a.
    rewrite nth_error_app2 in Hb by lia.
    rewrite Hlen, Nat.sub_diag in Hb. simpl in Hb. inversion Hb; subst b.
    exact Hpq.
Qed.

Section Turns.

Variable json_loads : string -> Py Json.
Variable post : nat -> Json -> Py Response.
Variable payload : Json.
Variable tool_handlers : list (string * Handler).
Variable log_requests : bool.

Lemma turn_tied (st : LoopState) (fr : Frame) out fr1 :
  tied post st fr ->
  guard st = Ret true ->
  chained (turn_of json_loads post payload tool_handlers) (sent fr) ->
  turn json_loads post payload tool_handlers log_requests st fr = (out, fr1) ->
  chained (turn_of json_loads post payload tool_handlers) (sent fr1)
  /\ forall st', out = Done st' -> tied post st' fr1.
Proof.
  intros (earlier & p & r & Hsent & Hpost & Hstat & Hresp & Hjson & Hmsg & Hmsgs)
    Hguard Hc H.
  unfold turn in H. rewrite dbind_lift in H.
  destruct (after_tools json_loads tool_handlers st) as [msgs | e] eqn:Ea;
    [|inversion H; subst; split; [exact Hc | discriminate]].
  rewrite dbind_lift in H.
  destruct (continuation payload msgs) as [q | e] eqn:Ec;
    [|inversion H; subst; split; [exact Hc | discriminate]].
  rewrite dbind_lift in H.
  destruct (log_last_role log_requests msgs) as [[] | e] eqn:El;
    [|inversion H; subst; split; [exact Hc | discriminate]].
  assert (Hpq : turn_of json_loads post payload tool_handlers
                  (List.length earlier) p q).
  { exists r, (response_data st), (message st), msgs.
    repeat split; try assumption.
    destruct st as [m ms d]. simpl in *. rewrite <- Hmsgs. exact Ea. }
  assert (Hc' : chained (turn_of json_loads post payload tool_handlers)
                  (sent fr ++ [q])).
  { rewrite Hsent. apply chained_snoc; [rewrite <- Hsent|]; assumption. }
  unfold dbind at 1 in H.
  pose proof (send_sent post q fr) as Hs.
  destruct (send post q fr) as [[d | e |] fr2] eqn:Es; simpl in Hs.
  - apply send_done in Es. destruct Es as (r1 & Hp1 & Hs1 & Hj1 & ->).
    rewrite dbind_lift in H.
    destruct (first_message d) as [m | e] eqn:Em.
    + unfold dret in H. inversion H; subst out fr1. simpl.
      split; [exact Hc'|].
      intros st' Hst. inversion Hst; subst st'.
      exists (sent fr), q, r1. simpl.
      rewrite (continuation_messages payload _ _ Ec). repeat split; auto.
    + inversion H; subst. simpl. split; [exact Hc' | discriminate].
  - inversion H; subst. rewrite Hs. split; [exact Hc' | discriminate].
  - inversion H; subst. rewrite Hs. split; [exact Hc' | discriminate].
Qed.

Lemma loop_tied (fuel : nat) :
  forall st fr out fr1,
    tied post st fr ->
    chained (turn_of json_loads post payload tool_handlers) (sent fr) ->
    conversation_loop json_loads post payload tool_handlers log_requests
      fuel st fr = (out, fr1) ->
    chained (turn_of json_loads post payload tool_handlers) (sent fr1)
    /\ forall d,
         out = Done d ->
         exists st',
           tied post st' fr1 /\ d = response_data st' /\ guard st' = Ret false.
Proof.
  induction fuel as [|fuel IH]; intros st fr out fr1 Ht Hc H; simpl in H;
    rewrite dbind_lift in H; destruct (guard st) as [[|] | e] eqn:Eg;
    try (inversion H; subst; split; [exact Hc | discriminate]);
    try (unfold dret in H; inversion H; subst; split; [exact Hc|];
         intros d Hd; inversion Hd; subst d; exists st; auto).
  unfold dbind in H.
  destruct (turn json_loads post payload tool_handlers log_requests st fr)
    as [o fr2] eqn:Et.
  destruct (turn_tied st fr o fr2 Ht Eg Hc Et) as [Hc2 Ht2].
  destruct o as [st' | e |];
    try (inversion H; subst; split; [exact Hc2 | discriminate]).
  exact (IH st' fr2 out fr1 (Ht2 st' eq_refl) Hc2 H).
Qed.

Lemma initial_tied out fr :
  initial post payload empty_frame = (out, fr) ->
  (exists earlier, sent fr = payload :: earlier) /\
  chained (turn_of json_loads post payload tool_handlers) (sent fr)
  /\ forall st, out = Done st -> tied post st fr.
Proof.
  assert (Hone : chained (turn_of json_loads post payload tool_handlers)
                   [payload]).
  { intros i p q Hp Hq. destruct i; simpl in Hq; [discriminate|].
    destruct i; discriminate. }
  intros H. unfold initial in H. unfold dbind at 1 in H.
  pose proof (send_sent post payload empty_frame) as Hs.
  destruct (send post payload empty_frame) as [[d | e |] fr1] eqn:Es;
    simpl in Hs.
  - apply send_done in Es. destruct Es as (r & Hp & Hst & Hj & ->). simpl in *.
    rewrite dbind_lift in H.
    destruct (first_message d) as [m | e] eqn:Em;
      [|inversion H; subst; split; [exists []; reflexivity|];
        split; [exact Hone | discriminate]].
    rewrite dbind_lift in H.
    destruct (getitem payload "messages") as [messages | e] eqn:Eg;
      [|inversion H; subst; split; [exists []; reflexivity|];
        split; [exact Hone | discriminate]].
    rewrite dbind_lift in H.
    destruct (concat_list messages [m]) as [msgs | e] eqn:Ecl;
      [|inversion H; subst; split; [exists []; reflexivity|];
        split; [exact Hone | discriminate]].
    unfold dret in H. inversion H; subst out fr. simpl.
    split; [exists []; reflexivity|]. split; [exact Hone|].
    intros st Hdone. inversion Hdone; subst st.
    exists [], payload, r. simpl. repeat split; auto.
    eapply messages_of_payload; eassumption.
  - inversion H; subst. rewrite Hs.
    split; [exists []; reflexivity|]. split; [exact Hone | discriminate].
  - inversion H; subst. rewrite Hs.
    split; [exists []; reflexivity|]. split; [exact Hone | discriminate].
Qed.

(** Everything the run does with the transport: each request after the
    first is the continuation request of a turn opened by the completion of
    the request before it, and a response the loop returns is the decoded
    completion of the last request, with a first message that fails the
    test of the [while]. *)
Lemma run_turns (fuel : nat) out fr :
  run json_loads post payload tool_handlers log_requests fuel = (out, fr) ->
  chained (turn_of json_loads post payload tool_handlers) (sent fr)
  /\ forall d,
       out = Done d ->
       exists st,
         tied post st fr /\ d = response_data st /\ guard st = Ret false.
Proof.
  unfold run, dbind. intros H.
  destruct (initial post payload empty_frame) as [o fr0] eqn:Ei.
  destruct (initial_tied o fr0 Ei) as (_ & Hc & Ht).
  destruct o as [st | e |];
    try (inversion H; subst; split; [exact Hc | discriminate]).
  exact (loop_tied fuel st fr0 out fr (Ht st eq_refl) Hc H).
Qed.

Lemma continuation_shape (msgs : list Json) (q : Json) :
  continuation payload msgs = Ret q ->
  exists m model,
    payload = JObj m /\
    assoc "model" m = Some model /\
    q = JObj [("model", model);
              ("messages", JArr msgs);
              ("max_tokens", dict_get m "max_tokens" (JInt 1000));
              ("temperature", dict_get m "temperature" (JFloat (3 # 10)));
              ("top_p", dict_get m "top_p" (JFloat (95 # 100)))].
Proof.
  unfold continuation, getitem, get, dict_get.
  destruct payload as [ | | | | | | m]; try discriminate.
  destruct (assoc "model" m) as [model|] eqn:Em; [|discriminate].
  simpl. intros H. exists m, model. split; [reflexivity|].
  split; [exact Em|].
  destruct (assoc "max_tokens" m), (assoc "temperature" m), (assoc "top_p" m);
    simpl in H; inversion H; reflexivity.
Qed.

Lemma earlier_request (trace : list Json) (i : nat) (q : Json) :
  nth_error trace (S i) = Some q -> exists p, nth_error trace i = Some p.
Proof.
  intros H. destruct (nth_error trace i) as [p|] eqn:E; [eauto|].
  apply nth_error_None in E.
  assert (S i < List.length trace) by (apply nth_error_Some; congruence).
  lia.
Qed.

(** X1. Every request of a run after the first is a dict with five keys:
    the model of the payload, the messages, and [max_tokens],
    [temperature] and [top_p] as the payload has them, 1000, 0.3 and 0.95
    standing in for the ones it leaves out.  The tools and the tool choice
    of the payload are not sent again. *)
Theorem continuation_parameters (fuel i : nat) (q : Json) :
  nth_error
    (requests_sent json_loads post payload tool_handlers log_requests fuel)
    (S i) = Some q ->
  exists m model msgs,
    payload = JObj m /\
    assoc "model" m = Some model /\
    q = JObj [("model", model);
              ("messages", JArr msgs);
              ("max_tokens", dict_get m "max_tokens" (JInt 1000));
              ("temperature", dict_get m "temperature" (JFloat (3 # 10)));
              ("top_p", dict_get m "top_p" (JFloat (95 # 100)))].
Proof.
  unfold requests_sent. intros Hq.
  destruct (run json_loads post payload tool_handlers log_requests fuel)
    as [out fr] eqn:Er.
  destruct (run_turns fuel out fr Er) as [Hc _]. simpl in Hq.
  destruct (earlier_request _ _ _ Hq) as (p & Hp).
  destruct (Hc i p q Hp Hq) as (r & d & m0 & msgs & _ & _ & _ & _ & _ & _ & Hq').
  destruct (continuation_shape msgs q Hq') as (m & model & Hm & Hmodel & Hshape).
  exists m, model, msgs. auto.
Qed.

(** The first request of a run is the payload. *)
Lemma first_request (fuel : nat) :
  exists later,
    requests_sent json_loads post payload tool_handlers log_requests fuel
    = payload :: later.
Proof.
  unfold requests_sent, run, dbind.
  destruct (initial post payload empty_frame) as [o fr0] eqn:Ei.
  destruct (initial_tied o fr0 Ei) as ((l0 & Hl0) & Hc & Ht).
  destruct o as [st | e |]; simpl; eauto.
  assert (Hgrow : forall fuel st fr,
             exists l, sent (snd (conversation_loop json_loads post payload
                                    tool_handlers log_requests fuel st fr))
                       = (sent fr ++ l)%list).
  { clear. induction fuel as [|fuel IH]; intros st fr; simpl;
      rewrite dbind_lift; destruct (guard st) as [[|] | e];
      try (exists []; simpl; now rewrite app_nil_r).
    unfold dbind.
    destruct (turn json_loads post payload tool_handlers log_requests st fr)
      as [o fr2] eqn:Et.
    assert (Hturn : exists l, sent fr2 = (sent fr ++ l)%list).
    { unfold turn in Et. rewrite dbind_lift in Et.
      destruct (after_tools json_loads tool_handlers st);
        [|inversion Et; exists []; simpl; now rewrite app_nil_r].
      rewrite dbind_lift in Et.
      destruct (continuation payload a);
        [|inversion Et; exists []; simpl; now rewrite app_nil_r].
      rewrite dbind_lift in Et.
      destruct (log_last_role log_requests a);
        [|inversion Et; exists []; simpl; now rewrite app_nil_r].
      unfold dbind at 1 in Et.
      pose proof (send_sent post a0 fr) as Hs.
      destruct (send post a0 fr) as [[d | e |] fr3]; simpl in Hs.
      - rewrite dbind_lift in Et. unfold dret in Et.
        destruct (first_message d); inversion Et; subst; eauto.
      - inversion Et; subst; eauto.
      - inversion Et; subst; eauto. }
    destruct Hturn as (l & Hl).
    destruct o as [st' | e |]; simpl; eauto.
    destruct (IH st' fr2) as (l' & Hl'). rewrite Hl', Hl, <- app_assoc. eauto. }
  destruct (Hgrow fuel st fr0) as (l & Hl). rewrite Hl, Hl0. simpl. eauto.
Qed.

Lemma handle_tool_call_appends (tool_call : Json) (msgs msgs' : list Json) :
  handle_tool_call json_loads tool_handlers tool_call msgs = Ret msgs' ->
  if registered tool_handlers tool_call
  then exists x, answers tool_call x /\ msgs' = (msgs ++ [x])%list
  else msgs' = msgs.
Proof.
  unfold handle_tool_call, registered. intros H.
  apply bind_ret in H. destruct H as (fc & Hfc & H). rewrite Hfc.
  apply bind_ret in H. destruct H as (fname & Hname & H).
  cbn [bind]. rewrite Hname.
  apply bind_ret in H. destruct H as (handler & Hh & H).
  cbn [bind]. rewrite Hh.
  destruct handler as [h|].
  - apply bind_ret in H. destruct H as (arguments & _ & H).
    apply bind_ret in H. destruct H as (args & _ & H).
    apply bind_ret in H. destruct H as ([content error] & _ & H).
    apply bind_ret in H. destruct H as (id & Hid & H).
    assert (Hcid : id = call_id tool_call).
    { unfold get in Hid, Hfc. unfold call_id, dict_get.
      destruct tool_call; try discriminate.
      destruct (assoc "id" m); inversion Hid; reflexivity. }
    subst id.
    destruct (truthy content); inversion H; subst; eexists;
      (split; [eexists; reflexivity | reflexivity]).
  - inversion H; subst. reflexivity.
Qed.

Lemma handle_tool_calls_appends (tool_calls : list Json) :
  forall msgs msgs',
    handle_tool_calls json_loads tool_handlers tool_calls msgs = Ret msgs' ->
    exists extra,
      msgs' = (msgs ++ extra)%list /\
      Forall2 answers (filter (registered tool_handlers) tool_calls) extra.
Proof.
  induction tool_calls as [|c rest IH]; simpl; intros msgs msgs' H.
  - inversion H; subst. exists []. rewrite app_nil_r. split; constructor.
  - apply bind_ret in H. destruct H as (msgs1 & H1 & H).
    apply handle_tool_call_appends in H1. apply IH in H.
    destruct H as (extra & -> & Hall).
    destruct (registered tool_handlers c).
    + destruct H1 as (x & Hx & ->). exists (x :: extra).
      rewrite <- app_assoc. split; [reflexivity | constructor; assumption].
    + subst msgs1. exists extra. split; [reflexivity | assumption].
Qed.

(** The messages of the continuation request of a turn. *)
Lemma pair_messages (i : nat) (p q : Json) :
  turn_of json_loads post payload tool_handlers i p q ->
  exists r d m tool_calls extra,
    post i p = Ret r /\
    json r = Ret d /\
    first_message d = Ret m /\
    tool_calls_of m = Ret tool_calls /\
    messages_of q = (messages_of p ++ m :: extra)%list /\
    Forall2 answers (filter (registered tool_handlers) tool_calls) extra.
Proof.
  intros (r & d & m & msgs & Hpost & _ & Hjson & Hm & _ & Hafter & Hcont).
  unfold after_tools in Hafter. simpl in Hafter.
  apply bind_ret in Hafter. destruct Hafter as (calls & Hcalls & Hafter).
  apply handle_tool_calls_appends in Hafter.
  destruct Hafter as (extra & -> & Hall).
  exists r, d, m, calls, extra. repeat split; try assumption.
  rewrite (continuation_messages payload _ _ Hcont), <- app_assoc.
  reflexivity.
Qed.

(** X2. The messages of a run only grow, at the end: of two requests that
    follow one another, the second has the messages of the first, in their
    order, then the first message of the completion of the first, then one
    tool response for each tool call of that message whose function has a
    handler, in the order of the calls and each under the id of its call. *)
Theorem messages_append_only (fuel i : nat) (p q : Json) :
  nth_error
    (requests_sent json_loads post payload tool_handlers log_requests fuel) i
  = Some p ->
  nth_error
    (requests_sent json_loads post payload tool_handlers log_requests fuel) (S i)
  = Some q ->
  exists r d m tool_calls extra,
    post i p = Ret r /\
    json r = Ret d /\
    first_message d = Ret m /\
    tool_calls_of m = Ret tool_calls /\
    messages_of q = (messages_of p ++ m :: extra)%list /\
    Forall2 answers (filter (registered tool_handlers) tool_calls) extra.
Proof.
  unfold requests_sent. intros Hp Hq.
  destruct (run json_loads post payload tool_handlers log_requests fuel)
    as [out fr] eqn:Er.
  destruct (run_turns fuel out fr Er) as [Hc _]. simpl in Hp, Hq.
  apply pair_messages. exact (Hc i p q Hp Hq).
Qed.

(** X3. A response the loop returns is the completion of the last request
    of the run, decoded, after a status that is no error, and its first
    message has no "tool_calls". *)
Theorem returned_response_is_last (fuel : nat) (d : Json) (fr : Frame) :
  run json_loads post payload tool_handlers log_requests fuel = (Done d, fr) ->
  exists earlier p r m,
    sent fr = (earlier ++ [p])%list /\
    post (List.length earlier) p = Ret r /\
    raise_for_status r = Ret tt /\
    json r = Ret d /\
    first_message d = Ret m /\
    contains "tool_calls" m = Ret false.
Proof.
  intros Hrun. destruct (run_turns fuel _ _ Hrun) as [_ Hd].
  destruct (Hd d eq_refl)
    as (st & (earlier & p & r & Hs & Hp & Hst & _ & Hj & Hm & _) & -> & Hg).
  exists earlier, p, r, (message st). repeat split; assumption.
Qed.

(** X4. Whatever exception ends the run, the value the driver returns
    is read by [parse_financial_data] as an error: no field map, and a text
    that starts with "API Error: " and the message of the exception,
    followed by nothing or by the body the error value carries. *)
Theorem driver_error_is_api_error (str_of json_dumps : Json -> string)
  (self : FinancialDataProcessor) (fuel : nat) (e : PyExc) (fr : Frame) :
  run json_loads post payload tool_handlers log_requests fuel = (Raised e, fr) ->
  exists value rest,
    process_with_tools json_loads post payload tool_handlers log_requests fuel
    = Some value /\
    parse_financial_data str_of json_dumps self value
    = Ret (None,
           Some (JStr ("API Error: " ++ str_of (JStr (exc_str e)) ++ rest))) /\
    (rest = "" \/
     exists body,
       rest = two_newlines ++ "Response Body: " ++ json_dumps body).
Proof.
  intros Hrun. unfold process_with_tools. rewrite Hrun. simpl.
  exists (on_exception e fr). unfold on_exception.
  destruct (response fr) as [r|].
  - destruct (json r) as [body | e'].
    + exists (two_newlines ++ "Response Body: " ++ json_dumps body).
      split; [reflexivity|]. split; [|right; exists body; reflexivity].
      unfold parse_financial_data, _format_error_message. simpl.
      reflexivity.
    + exists (two_newlines ++ "Response Body: " ++ json_dumps (JStr (text r))).
      split; [reflexivity|].
      split; [|right; exists (JStr (text r)); reflexivity].
      unfold parse_financial_data, _format_error_message. simpl.
      reflexivity.
  - exists "". split; [reflexivity|]. split; [|left; reflexivity].
    unfold parse_financial_data, _format_error_message. simpl.
    rewrite append_empty_r. reflexivity.
Qed.

Lemma last_snoc (l : list Json) (x d : Json) : last (l ++ [x]) d = x.
Proof.
  induction l as [|a l IH]; [reflexivity|].
  simpl. destruct (l ++ [x])%list eqn:E; [destruct l; discriminate|].
  exact IH.
Qed.

Lemma loop_without_end (model : Json) :
  getitem payload "model" = Ret model ->
  (forall n p,
     exists r d m,
       post n p = Ret r /\ raise_for_status r = Ret tt /\ json r = Ret d /\
       first_message d = Ret (JObj m) /\
       assoc "tool_calls" m = Some (JArr []) /\
       (log_requests = false \/ has_key "role" m = true)) ->
  forall fuel m before d fr,
    assoc "tool_calls" m = Some (JArr []) ->
    (log_requests = false \/ has_key "role" m = true) ->
    exists fr',
      conversation_loop json_loads post payload tool_handlers log_requests fuel
        {| message := JObj m;
           messages_so_far := (before ++ [JObj m])%list;
           response_data := d |} fr
      = (OutOfFuel, fr') /\
      List.length (sent fr') = List.length (sent fr) + fuel.
Proof.
  intros Hmodel Hpost.
  induction fuel as [|fuel IH]; intros m before d fr Hcalls Hrole.
  - exists fr. simpl. rewrite dbind_lift. unfold guard, contains, has_key.
    simpl. rewrite Hcalls. split; [reflexivity | lia].
  - destruct (empty_tool_calls_turn json_loads tool_handlers m
                (before ++ [JObj m]) d Hcalls) as [Hguard Hafter].
    assert (Hcont : exists q, continuation payload (before ++ [JObj m]) = Ret q).
    { unfold continuation. rewrite Hmodel.
      unfold getitem in Hmodel. destruct payload; try discriminate.
      simpl. destruct (assoc "max_tokens" m0), (assoc "temperature" m0),
        (assoc "top_p" m0); simpl; eauto. }
    destruct Hcont as (q & Hcont).
    assert (Hlog : log_last_role log_requests (before ++ [JObj m]) = Ret tt).
    { unfold log_last_role. destruct Hrole as [-> | Hrole]; [reflexivity|].
      destruct log_requests; [|reflexivity].
      rewrite last_snoc. unfold getitem, has_key in *.
      destruct (assoc "role" m); [reflexivity | discriminate]. }
    destruct (Hpost (List.length (sent fr)) q)
      as (r & d' & m' & Hp & Hs & Hj & Hm & Hcalls' & Hrole').
    destruct (IH m' (before ++ [JObj m])%list d'
                {| response := Some r; sent := (sent fr ++ [q])%list |}
                Hcalls' Hrole') as (fr' & Hloop & Hlen).
    exists fr'. split.
    + simpl. rewrite dbind_lift, Hguard. unfold dbind at 1. unfold turn.
      rewrite dbind_lift, Hafter, dbind_lift, Hcont, dbind_lift, Hlog.
      unfold dbind at 1. unfold send. rewrite Hp, Hs, Hj.
      rewrite dbind_lift, Hm. unfold dret. exact Hloop.
    + rewrite Hlen. simpl. rewrite length_app. simpl. lia.
Qed.

(** X5. The loop has no bound of its own.  When every completion comes
    with a first message that has "tool_calls" (here the empty list), the
    driver keeps posting: whatever number of turns it is allowed, it has not
    returned after them, and it has posted one request more than that
    number. *)
Theorem no_turn_limit (model : Json) (messages : list Json) (fuel : nat) :
  getitem payload "model" = Ret model ->
  getitem payload "messages" = Ret (JArr messages) ->
  (forall n p,
     exists r d m,
       post n p = Ret r /\ raise_for_status r = Ret tt /\ json r = Ret d /\
       first_message d = Ret (JObj m) /\
       assoc "tool_calls" m = Some (JArr []) /\
       (log_requests = false \/ has_key "role" m = true)) ->
  process_with_tools json_loads post payload tool_handlers log_requests fuel
  = None /\
  List.length
    (requests_sent json_loads post payload tool_handlers log_requests fuel)
  = S fuel.
Proof.
  intros Hmodel Hmessages Hpost.
  destruct (Hpost 0 payload) as (r & d & m & Hp & Hs & Hj & Hm & Hcalls & Hrole).
  destruct (loop_without_end model Hmodel Hpost fuel m messages d
              {| response := Some r; sent := [payload] |} Hcalls Hrole)
    as (fr' & Hloop & Hlen).
  assert (Hrun : run json_loads post payload tool_handlers log_requests fuel
                 = (OutOfFuel, fr')).
  { unfold run, dbind at 1, initial. unfold dbind at 1. unfold send. simpl.
    rewrite Hp, Hs, Hj. rewrite dbind_lift, Hm, dbind_lift, Hmessages.
    rewrite dbind_lift. simpl. unfold dret. exact Hloop. }
  unfold process_with_tools, requests_sent. rewrite Hrun. simpl.
  split; [reflexivity | rewrite Hlen; simpl; lia].
Qed.

End Turns.

Lemma continuation_parameters_witness :
  exists m model msgs,
    sample_payload = JObj m /\
    assoc "model" m = Some model /\
    sample_continuation
      (sample_messages
       ++ [calling [fetch_call]; tool_response (JStr "call_1") article_text])
    = JObj [("model", model);
            ("messages", JArr msgs);
            ("max_tokens", dict_get m "max_tokens" (JInt 1000));
            ("temperature", dict_get m "temperature" (JFloat (3 # 10)));
            ("top_p", dict_get m "top_p" (JFloat (95 # 100)))].
Proof.
  apply (continuation_parameters sample_loads (scripted fetch_script)
           sample_payload sample_handlers true 5 0).
  vm_compute. reflexivity.
Defined.

Lemma messages_append_only_witness :
  exists r d m tool_calls extra,
    scripted fetch_script 0 sample_payload = Ret r /\
    json r = Ret d /\
    first_message d = Ret m /\
    tool_calls_of m = Ret tool_calls /\
    messages_of
      (sample_continuation
         (sample_messages
          ++ [calling [fetch_call]; tool_response (JStr "call_1") article_text]))
    = (messages_of sample_payload ++ m :: extra)%list /\
    Forall2 answers (filter (registered sample_handlers) tool_calls) extra.
Proof.
  apply (messages_append_only sample_loads (scripted fetch_script)
           sample_payload sample_handlers true 5 0);
    vm_compute; reflexivity.
Defined.

Lemma returned_response_is_last_witness :
  exists earlier p r m,
    [sample_payload;
     sample_continuation
       (sample_messages
        ++ [calling [fetch_call]; tool_response (JStr "call_1") article_text])]
    = (earlier ++ [p])%list /\
    scripted fetch_script (List.length earlier) p = Ret r /\
    raise_for_status r = Ret tt /\
    json r = Ret answer_response /\
    first_message answer_response = Ret m /\
    contains "tool_calls" m = Ret false.
Proof.
  apply (returned_response_is_last sample_loads (scripted fetch_script)
           sample_payload sample_handlers true 5 answer_response
           {| response := Some (http_response sample_loads 200 "OK"
                                  (render answer_response));
              sent := [sample_payload;
                       sample_continuation
                         (sample_messages
                          ++ [calling [fetch_call];
                              tool_response (JStr "call_1") article_text])] |}).
  vm_compute. reflexivity.
Defined.

Lemma driver_error_is_api_error_witness :
  exists value rest,
    process_with_tools sample_loads (scripted malformed_script) sample_payload
      sample_handlers true 5
    = Some value /\
    parse_financial_data str_scalar render (__init__ None) value
    = Ret (None,
           Some (JStr ("API Error: " ++ str_scalar (JStr (exc_str decode_error))
                       ++ rest))) /\
    (rest = "" \/
     exists body, rest = two_newlines ++ "Response Body: " ++ render body).
Proof.
  apply (driver_error_is_api_error sample_loads (scripted malformed_script)
           sample_payload sample_handlers true str_scalar render
           (__init__ None) 5 decode_error raised_frame).
  vm_compute. reflexivity.
Defined.

Lemma no_turn_limit_witness :
  process_with_tools sample_loads
    (constant_transport (ok (completion (calling [])))) sample_payload
    sample_handlers true 3
  = None /\
  List.length
    (requests_sent sample_loads
       (constant_transport (ok (completion (calling [])))) sample_payload
       sample_handlers true 3)
  = 4.
Proof.
  apply (no_turn_limit sample_loads
           (constant_transport (ok (completion (calling [])))) sample_payload
           sample_handlers true (JStr "model-1") sample_messages 3).
  - reflexivity.
  - reflexivity.
  - intros n p. eexists _, _, _. unfold constant_transport, ok.
    repeat split; try (vm_compute; reflexivity). right. reflexivity.
Defined.

(** ** The field extractor: order, trimming, shape of the result *)

Lemma dict_set_fresh {A : Type} (k : string) (v : A) (m : list (string * A)) :
  assoc k m = None -> dict_set k v m = (m ++ [(k, v)])%list.
Proof.
  induction m as [|[k' v'] m IH]; simpl; intros H; [reflexivity|].
  destruct (String.eqb k k'); [discriminate|]. now rewrite IH.
Qed.

Lemma assoc_app_none {A : Type} (k : string) (m1 m2 : list (string * A)) :
  assoc k m1 = None -> assoc k m2 = None -> assoc k (m1 ++ m2) = None.
Proof.
  induction m1 as [|[k' v'] m1 IH]; simpl; intros H1 H2; [exact H2|].
  destruct (String.eqb k k'); [discriminate | auto].
Qed.

Lemma extract_loop_fields (content : string) (patterns : list (string * regex)) :
  forall data,
    NoDup (map fst patterns) ->
    Forall (fun kp => capturing (snd kp)) patterns ->
    (forall k, In k (map fst patterns) -> assoc k data = None) ->
    extract_loop patterns (JStr content) data
    = Ret (data ++ fields content patterns)%list.
Proof.
  induction patterns as [|[key0 p0] rest IH]; intros data Hnd Hcap Hfresh.
  - simpl. now rewrite app_nil_r.
  - inversion Hnd as [|? ? Hnot Hnd']; subst.
    inversion Hcap as [|? ? [Hhas Hsome] Hcap']; subst. simpl in Hhas, Hsome.
    assert (Hfresh' : forall k, In k (map fst rest) -> assoc k data = None).
    { intros k Hk. apply Hfresh. right. exact Hk. }
    assert (Hkey0 : assoc key0 data = None).
    { apply Hfresh. left. reflexivity. }
    cbn -[str_in blocklist re_search]. unfold field.
    cbn -[str_in blocklist re_search].
    destruct (re_search p0 content) as [[captured|]|] eqn:Es.
    + unfold group1. rewrite Hhas. cbn -[str_in blocklist].
      destruct (str_in (strip captured) blocklist) eqn:Eb;
        cbn -[str_in blocklist].
      * apply IH; assumption.
      * rewrite IH; try assumption.
        -- rewrite (dict_set_fresh _ _ _ Hkey0), <- app_assoc. reflexivity.
        -- intros k Hk. rewrite assoc_dict_set_other; [auto|].
           intros ->. contradiction.
    + exfalso. apply (Hsome content). exact Es.
    + apply IH; assumption.
Qed.

Lemma fields_length (content : string) (patterns : list (string * regex)) :
  List.length (fields content patterns) <= List.length patterns.
Proof.
  induction patterns as [|row rest IH]; simpl; [lia|].
  destruct (field content row); simpl; lia.
Qed.

(** X6. With distinct labels, the map the extractor builds is the pattern
    table filtered: one entry for each row whose pattern matches with a
    trimmed group outside the blocklist, in the order of the table; so the
    map never has more entries than the table has rows. *)
Theorem extracted_fields_in_table_order (self : FinancialDataProcessor)
  (content : string) :
  NoDup (map fst (extraction_patterns self)) ->
  Forall (fun kp => capturing (snd kp)) (extraction_patterns self) ->
  _extract_data_from_content self (JStr content)
  = Ret (fields content (extraction_patterns self)) /\
  List.length (fields content (extraction_patterns self))
  <= List.length (extraction_patterns self).
Proof.
  intros Hnd Hcap. split; [|apply fields_length].
  unfold _extract_data_from_content.
  rewrite extract_loop_fields; auto.
Qed.

Lemma extracted_fields_in_table_order_witness :
  _extract_data_from_content (__init__ None) (JStr two_field_text)
  = Ret (fields two_field_text (extraction_patterns (__init__ None))) /\
  List.length (fields two_field_text (extraction_patterns (__init__ None)))
  <= List.length (extraction_patterns (__init__ None)).
Proof.
  apply (extracted_fields_in_table_order (__init__ None) two_field_text).
  - exact default_keys_nodup.
  - exact default_patterns_capturing.
Defined.

Lemma rstrip_idempotent (s : string) : rstrip (rstrip s) = rstrip s.
Proof.
  induction s as [|c s IH]; [reflexivity|].
  simpl. destruct (rstrip s) as [|d t] eqn:E.
  - destruct (isspace c) eqn:Ec; [reflexivity|]. simpl. now rewrite Ec.
  - change (rstrip (String c (String d t)))
      with (match rstrip (String d t) with
            | EmptyString =>
                if isspace c then EmptyString else String c EmptyString
            | String a u => String c (String a u)
            end).
    rewrite IH. reflexivity.
Qed.

Lemma lstrip_head (s : string) :
  lstrip s = EmptyString \/
  exists c t, lstrip s = String c t /\ isspace c = false.
Proof.
  induction s as [|c s IH]; simpl; [left; reflexivity|].
  destruct (isspace c) eqn:Ec; [exact IH|]. right. eauto.
Qed.

Lemma lstrip_fixed (c : ascii) (t : string) :
  isspace c = false -> lstrip (String c t) = String c t.
Proof. intros H. simpl. now rewrite H. Qed.

Lemma rstrip_head (c : ascii) (t : string) :
  isspace c = false -> exists u, rstrip (String c t) = String c u.
Proof.
  intros H. simpl. destruct (rstrip t); [rewrite H|]; eauto.
Qed.

Lemma strip_idempotent (s : string) : strip (strip s) = strip s.
Proof.
  unfold strip. destruct (lstrip_head s) as [E | (c & t & E & Hc)]; rewrite E.
  - reflexivity.
  - destruct (rstrip_head c t Hc) as (u & Eu). rewrite Eu.
    rewrite (lstrip_fixed c u Hc), <- Eu. apply rstrip_idempotent.
Qed.

Lemma extract_loop_values (patterns : list (string * regex)) (content : Json) :
  forall data data',
    extract_loop patterns content data = Ret data' ->
    Forall (fun kv => strip (snd kv) = snd kv
                      /\ str_in (snd kv) blocklist = false) data ->
    NoDup (map fst data) ->
    Forall (fun kv => strip (snd kv) = snd kv
                      /\ str_in (snd kv) blocklist = false) data'
    /\ NoDup (map fst data').
Proof.
  assert (Hset : forall k v (data : list (string * string)),
             strip v = v /\ str_in v blocklist = false ->
             Forall (fun kv => strip (snd kv) = snd kv
                               /\ str_in (snd kv) blocklist = false) data ->
             Forall (fun kv => strip (snd kv) = snd kv
                               /\ str_in (snd kv) blocklist = false)
               (dict_set k v data)).
  { intros k v data Hv. induction data as [|[k' v'] data IH]; simpl; intros H.
    - constructor; [exact Hv | constructor].
    - inversion H; subst. destruct (String.eqb k k'); constructor; auto. }
  induction patterns as [|[key0 p0] rest IH]; intros data data' H Hall Hnd.
  - inversion H; subst. auto.
  - cbn -[str_in blocklist] in H.
    apply bind_ret in H. destruct H as (m & _ & H).
    destruct m as [g|]; [|eauto].
    apply bind_ret in H. destruct H as (x & _ & H).
    apply bind_ret in H. destruct H as (v & Hv & H).
    destruct x as [c|]; [|discriminate]. simpl in Hv. inversion Hv; subst v.
    destruct (str_in (strip c) blocklist) eqn:Eb; cbn -[str_in blocklist] in H.
    + eauto.
    + apply (IH _ _ H).
      * apply Hset; [|exact Hall]. split; [apply strip_idempotent | exact Eb].
      * apply dict_set_nodup. exact Hnd.
Qed.

(** X7. Whatever the pattern table, no value of the map the extractor
    returns has whitespace at either end (trimming it again changes
    nothing), no value is "Not found", "N/A" or "Unknown", and no label
    occurs twice. *)
Theorem extracted_values_trimmed (self : FinancialDataProcessor)
  (content : Json) (data : list (string * string)) (label value : string) :
  _extract_data_from_content self content = Ret data ->
  In (label, value) data ->
  strip value = value /\
  (value <> "Not found" /\ value <> "N/A" /\ value <> "Unknown") /\
  NoDup (map fst data).
Proof.
  unfold _extract_data_from_content. intros H Hin.
  destruct (extract_loop_values _ _ _ _ H (Forall_nil _) (NoDup_nil _))
    as [Hall Hnd].
  rewrite Forall_forall in Hall. destruct (Hall _ Hin) as [Hs Hb].
  simpl in Hs, Hb. apply str_in_blocklist in Hb. auto.
Qed.

Lemma extracted_values_trimmed_witness :
  strip "$120B" = "$120B" /\
  ("$120B" <> "Not found" /\ "$120B" <> "N/A" /\ "$120B" <> "Unknown") /\
  NoDup (map fst [("company name", "Apple Inc."); ("revenue", "$120B")]).
Proof.
  apply (extracted_values_trimmed (__init__ None) (JStr two_field_text)
           [("company name", "Apple Inc."); ("revenue", "$120B")]
           "revenue" "$120B").
  - vm_compute. reflexivity.
  - right. left. reflexivity.
Defined.

Lemma extract_needs_text (self : FinancialDataProcessor) (content : Json)
  (data : list (string * string)) :
  extraction_patterns self <> [] ->
  _extract_data_from_content self content = Ret data ->
  exists s, content = JStr s.
Proof.
  unfold _extract_data_from_content. intros Hne H.
  destruct (extraction_patterns self) as [|[key p] rest]; [congruence|].
  simpl in H. apply bind_ret in H. destruct H as (m & Hm & _).
  unfold search in Hm. destruct content; try discriminate. eauto.
Qed.

(** The three ways [parse_financial_data] goes on a dict. *)
Lemma parse_cases (str_of json_dumps : Json -> string)
  (self : FinancialDataProcessor) (response : list (string * Json)) :
  (has_key "error" response = true /\
   exists text,
     parse_financial_data str_of json_dumps self (JObj response)
     = Ret (None, Some (JStr text)))
  \/ (has_key "error" response = false /\
      exists e,
        parse_body self (JObj response) = Raise e /\
        parse_financial_data str_of json_dumps self (JObj response)
        = Ret (None, Some (JStr ("Parsing Error: " ++ exc_str e))))
  \/ (has_key "error" response = false /\
      exists content data,
        _extract_data_from_content self content = Ret data /\
        NoDup (map fst data) /\
        ((min_data_points self <= List.length data /\
          parse_financial_data str_of json_dumps self (JObj response)
          = Ret (Some data, None))
         \/ (List.length data < min_data_points self /\
             parse_financial_data str_of json_dumps self (JObj response)
             = Ret (None, Some content)))).
Proof.
  unfold parse_financial_data. cbn [contains bind].
  destruct (has_key "error" response) eqn:Herr.
  - left. split; [reflexivity|].
    unfold has_key in Herr. unfold _format_error_message, getitem.
    destruct (assoc "error" response) as [err|]; [|discriminate].
    cbn [bind contains].
    destruct (has_key "response_body" response) eqn:Hb.
    + unfold has_key in Hb.
      destruct (assoc "response_body" response) as [body|]; [|discriminate].
      eexists. reflexivity.
    + eexists. reflexivity.
  - right. destruct (parse_body self (JObj response)) as [result | e] eqn:E.
    + right. split; [reflexivity|].
      unfold parse_body in E.
      apply bind_ret in E. destruct E as (content & _ & E).
      apply bind_ret in E. destruct E as (n & _ & E).
      apply bind_ret in E. destruct E as (sl & _ & E).
      apply bind_ret in E. destruct E as (data & Hdata & E).
      exists content, data. split; [exact Hdata|]. split.
      * unfold _extract_data_from_content in Hdata.
        apply (extract_loop_values _ _ _ _ Hdata); constructor.
      * destruct (min_data_points self <=? List.length data)%nat eqn:El;
          inversion E; subst; simpl.
        -- left. split; [apply Nat.leb_le; exact El | reflexivity].
        -- right. split; [apply Nat.leb_gt; exact El | reflexivity].
    + left. split; [reflexivity|]. exists e. split; reflexivity.
Qed.

(** X8. On every response that is a dict, with or without the key
    "error", [parse_financial_data] returns, and exactly one slot of the pair
    is filled: a map comes without a text, only for a response without
    "error", and has at least [min_data_points] labels, all distinct;
    otherwise there is no map and a text. *)
Theorem parse_result_shape (str_of json_dumps : Json -> string)
  (self : FinancialDataProcessor) (response : list (string * Json)) :
  exists result,
    parse_financial_data str_of json_dumps self (JObj response) = Ret result /\
    ((exists data,
        result = (Some data, None) /\
        has_key "error" response = false /\
        min_data_points self <= List.length data /\
        NoDup (map fst data)) \/
     (exists x, result = (None, Some x))).
Proof.
  destruct (parse_cases str_of json_dumps self response)
    as [(_ & text & H) | [(_ & e & _ & H) | (Herr & content & data & _ & Hnd & H)]].
  - eexists. split; [exact H|]. right. eauto.
  - eexists. split; [exact H|]. right. eauto.
  - destruct H as [[Hlen H] | [_ H]].
    + eexists. split; [exact H|]. left. exists data. auto.
    + eexists. split; [exact H|]. right. eauto.
Qed.

(** ** The content-fetch tool: the text after cleaning *)

Lemma string_app_assoc (a b c : string) : (a ++ b) ++ c = a ++ b ++ c.
Proof. induction a as [|x a IH]; simpl; [reflexivity | now rewrite IH]. Qed.

Lemma no_space_app (a b : string) :
  no_space a = true -> no_space b = true -> no_space (a ++ b) = true.
Proof.
  induction a as [|c a IH]; simpl; intros Ha Hb; [exact Hb|].
  apply andb_true_iff in Ha. destruct Ha as [Hc Ha].
  rewrite Hc. simpl. auto.
Qed.

Lemma app_not_empty (a : string) (c : ascii) : a ++ String c "" <> "".
Proof. destruct a; discriminate. Qed.

Lemma words_are_words (s : string) :
  forall w, no_space w = true -> Forall is_word (words s w).
Proof.
  induction s as [|c s IH]; intros w Hw; simpl.
  - destruct w; [constructor|]. constructor; [|constructor].
    split; [discriminate | exact Hw].
  - destruct (isspace c) eqn:Ec.
    + destruct w as [|d w'].
      * apply IH. reflexivity.
      * constructor; [split; [discriminate | exact Hw]|].
        apply IH. reflexivity.
    + apply IH. apply no_space_app; [exact Hw|]. simpl. now rewrite Ec.
Qed.

Lemma words_word (x : string) :
  forall s w, no_space x = true -> words (x ++ s) w = words s (w ++ x).
Proof.
  induction x as [|c x IH]; intros s w Hx; simpl.
  - now rewrite append_empty_r.
  - simpl in Hx. apply andb_true_iff in Hx. destruct Hx as [Hc Hx].
    apply negb_true_iff in Hc. rewrite Hc, IH by exact Hx.
    rewrite string_app_assoc. reflexivity.
Qed.

Lemma split_concat (ws : list string) :
  Forall is_word ws -> split (String.concat " " ws) = ws.
Proof.
  unfold split. induction ws as [|x rest IH]; intros H; [reflexivity|].
  inversion H as [|? ? [Hne Hx] Hrest]; subst.
  destruct rest as [|y l].
  - simpl. rewrite <- (append_empty_r x) at 1.
    rewrite words_word by exact Hx. simpl. destruct x; congruence.
  - change (String.concat " " (x :: y :: l))
      with (x ++ String " " (String.concat " " (y :: l))).
    rewrite words_word by exact Hx. cbn [append words].
    change (isspace " ") with true. cbv iota.
    destruct x as [|c x']; [congruence|]. rewrite IH by exact Hrest.
    reflexivity.
Qed.

Lemma clean_idempotent (text : string) : clean (clean text) = clean text.
Proof.
  unfold clean. rewrite split_concat; [reflexivity|].
  apply words_are_words. reflexivity.
Qed.

(** X9. The text [fetch_url_content] returns on success comes with no
    error and is in the cleaned form: words separated by one space each,
    with no other whitespace and none at the ends.  Splitting it at
    whitespace and joining the words with one space gives it back. *)
Theorem fetched_text_is_clean (str_of : Json -> string)
  (requests_get : Json -> Py string) (soup_text : string -> Py string)
  (url : Json) (content : string) (error : option string) :
  fetch_url_content str_of requests_get soup_text url
  = Ret (Some content, error) ->
  error = None /\
  String.concat " " (split content) = content /\
  Forall is_word (split content).
Proof.
  unfold fetch_url_content.
  destruct (fetch_body requests_get soup_text url) as [c | e] eqn:E.
  - intros H. inversion H; subst. split; [reflexivity|].
    unfold fetch_body in E.
    apply bind_ret in E. destruct E as (page & _ & E).
    apply bind_ret in E. destruct E as (text & _ & E).
    inversion E; subst. split.
    + apply clean_idempotent.
    + apply words_are_words. reflexivity.
  - destruct (exc_class e); discriminate.
Qed.

Lemma fetched_text_is_clean_witness :
  @None string = None /\
  String.concat " " (split article_text) = article_text /\
  Forall is_word (split article_text).
Proof.
  apply (fetched_text_is_clean str_scalar sample_get sample_soup
           (JStr article_url) article_text None).
  vm_compute. reflexivity.
Defined.

(** X10. [extract_article_content] returns a dict for every url and
    raises nothing.  When the body of its [try] ends, the dict has the keys
    "success" (true), "content", "title" and "meta_description", no key
    "error", and the content is in the cleaned form; when the body raises,
    the dict has "success" (false) and an "error" text in which the url and
    the message of the exception occur, and nothing else. *)
Theorem article_result_shape (str_of : Json -> string)
  (requests_get : Json -> Py string) (parse_page : string -> Py Soup)
  (url : Json) :
  (exists content title meta_description,
     extract_article_content str_of requests_get parse_page url
     = Ret (JObj [("success", JBool true);
                  ("content", JStr content);
                  ("title", title);
                  ("meta_description", JStr meta_description)]) /\
     String.concat " " (split content) = content) \/
  (exists e error_msg,
     article_body requests_get parse_page url = Raise e /\
     extract_article_content str_of requests_get parse_page url
     = Ret (JObj [("success", JBool false); ("error", JStr error_msg)]) /\
     is_infix (str_of url) error_msg = true /\
     is_infix (exc_str e) error_msg = true).
Proof.
  unfold extract_article_content.
  destruct (article_body requests_get parse_page url) as [result | e] eqn:E.
  - left. unfold article_body in E.
    apply bind_ret in E. destruct E as (page & _ & E).
    apply bind_ret in E. destruct E as (soup & _ & E).
    inversion E; subst. eexists _, _, _. split; [reflexivity|].
    apply clean_idempotent.
  - right. exists e. eexists. split; [reflexivity|]. split; [reflexivity|].
    split.
    + apply is_infix_later, is_infix_here.
    + apply is_infix_later, is_infix_later, is_infix_later, is_infix_end.
Qed.

(** An element found with an empty text is not passed over for a later
    selector: the body is used. *)
Example empty_container_uses_body :
  main_content {| soup_title := None;
                  soup_meta := None;
                  soup_select_one :=
                    fun selector =>
                      if String.eqb selector "article" then Some ""
                      else if String.eqb selector "main" then Some "main text"
                      else None;
                  soup_body := Some "body text" |}
  = "body text".
Proof. reflexivity. Qed.

Example article_of_sample_page :
  extract_article_content str_scalar sample_get sample_page (JStr article_url)
  = Ret (JObj [("success", JBool true);
               ("content", JStr article_text);
               ("title", JStr "Apple Q1 results");
               ("meta_description", JStr "No description found")]).
Proof. vm_compute. reflexivity. Qed.

(** ** The driver: opening messages, missing keys, the log line *)

Section Edges.

Variable json_loads : string -> Py Json.
Variable post : nat -> Json -> Py Response.
Variable payload : Json.
Variable tool_handlers : list (string * Handler).
Variable log_requests : bool.

(** X11. Every request of a run carries the messages of the payload,
    unchanged and first, and the request number [i] has at least [i]
    messages after them. *)
Theorem opening_messages_kept (fuel i : nat) (q : Json) :
  nth_error
    (requests_sent json_loads post payload tool_handlers log_requests fuel) i
  = Some q ->
  exists later,
    messages_of q = (messages_of payload ++ later)%list /\
    i <= List.length later.
Proof.
  revert q. induction i as [|i IH]; intros q Hq.
  - destruct (first_request json_loads post payload tool_handlers
                log_requests fuel) as (l & Hl).
    rewrite Hl in Hq. simpl in Hq. inversion Hq; subst q.
    exists []. rewrite app_nil_r. split; [reflexivity | simpl; lia].
  - destruct (earlier_request _ _ _ Hq) as (p & Hp).
    destruct (IH p Hp) as (later & Hlater & Hlen).
    assert (Hpair : turn_of json_loads post payload tool_handlers i p q).
    { unfold requests_sent in Hp, Hq.
      destruct (run json_loads post payload tool_handlers log_requests fuel)
        as [out fr] eqn:Er.
      destruct (run_turns json_loads post payload tool_handlers log_requests
                  fuel out fr Er) as [Hc _].
      exact (Hc i p q Hp Hq). }
    destruct (pair_messages json_loads post payload tool_handlers i p q Hpair)
      as (r & d & m & calls & extra & _ & _ & _ & _ & Hmsgs & _).
    exists (later ++ m :: extra)%list. split.
    + rewrite Hmsgs, Hlater, <- app_assoc. reflexivity.
    + rewrite length_app. simpl. lia.
Qed.

(** X12. A payload without the key "messages" is posted all the same;
    the fault shows only after the completion has come back, and the driver
    returns the error value with the text of the KeyError and that
    completion as body. *)
Theorem payload_without_messages_costs_a_request
  (fields : list (string * Json)) (r : Response) (d m : Json) (fuel : nat) :
  payload = JObj fields ->
  assoc "messages" fields = None ->
  post 0 payload = Ret r ->
  raise_for_status r = Ret tt ->
  json r = Ret d ->
  first_message d = Ret m ->
  process_with_tools json_loads post payload tool_handlers log_requests fuel
  = Some (JObj [("error", JStr "'messages'"); ("response_body", d)]) /\
  requests_sent json_loads post payload tool_handlers log_requests fuel
  = [payload].
Proof.
  intros Hpay Hnone Hpost Hstat Hjson Hm.
  assert (Hrun : run json_loads post payload tool_handlers log_requests fuel
                 = (Raised (mkExc KeyError "'messages'"),
                    {| response := Some r; sent := [payload] |})).
  { unfold run, dbind at 1, initial. unfold dbind at 1. unfold send. simpl.
    rewrite Hpost, Hstat, Hjson. rewrite dbind_lift, Hm, dbind_lift.
    rewrite Hpay at 1. unfold getitem. rewrite Hnone. reflexivity. }
  unfold process_with_tools, requests_sent. rewrite Hrun. simpl.
  unfold on_exception. simpl. rewrite Hjson. auto.
Qed.

(** X13. A completion that arrives with a good status and decodes, but has
    no first message (no "choices", an empty list of choices, a choice
    without "message"), ends the run at once: the driver returns the error
    value with the message of the exception and the decoded completion as
    body. *)
Theorem completion_without_message (r : Response) (d : Json) (e : PyExc)
  (fuel : nat) :
  post 0 payload = Ret r ->
  raise_for_status r = Ret tt ->
  json r = Ret d ->
  first_message d = Raise e ->
  process_with_tools json_loads post payload tool_handlers log_requests fuel
  = Some (JObj [("error", JStr (exc_str e)); ("response_body", d)]) /\
  requests_sent json_loads post payload tool_handlers log_requests fuel
  = [payload].
Proof.
  intros Hpost Hstat Hjson Hm.
  assert (Hrun : run json_loads post payload tool_handlers log_requests fuel
                 = (Raised e, {| response := Some r; sent := [payload] |})).
  { unfold run, dbind at 1, initial. unfold dbind at 1. unfold send. simpl.
    rewrite Hpost, Hstat, Hjson. rewrite dbind_lift, Hm. reflexivity. }
  unfold process_with_tools, requests_sent. rewrite Hrun. simpl.
  unfold on_exception. simpl. rewrite Hjson. auto.
Qed.

End Edges.

Section LogLine.

Variable json_loads : string -> Py Json.
Variable post : nat -> Json -> Py Response.
Variable payload : Json.
Variable tool_handlers : list (string * Handler).

(** X14. The log line changes what the driver does.  At any turn, when
    the last message of the continuation request is a dict without "role"
    (the message of the completion, when no tool response follows it), the
    driver that logs stops before posting and returns the error value with
    the text of the KeyError; the driver that does not log posts the
    request. *)
Theorem log_line_needs_role (n : nat) (st : LoopState) (fr : Frame)
  (msgs : list Json) (q : Json) (last_fields : list (string * Json))
  (fuel : nat) :
  reaches json_loads post payload tool_handlers true n st fr ->
  guard st = Ret true ->
  after_tools json_loads tool_handlers st = Ret msgs ->
  continuation payload msgs = Ret q ->
  last msgs JNull = JObj last_fields ->
  assoc "role" last_fields = None ->
  (process_with_tools json_loads post payload tool_handlers true (n + S fuel)
   = Some (JObj [("error", JStr "'role'");
                 ("response_body", response_data st)]) /\
   requests_sent json_loads post payload tool_handlers true (n + S fuel)
   = sent fr) /\
  sent (snd (turn json_loads post payload tool_handlers false st fr))
  = (sent fr ++ [q])%list.
Proof.
  intros Hreach Hguard Hafter Hcont Hlast Hrole.
  destruct (reaches_linked _ _ _ _ _ _ _ _ Hreach)
    as [(earlier & p & r & _ & _ & Hresp & Hjson & _ & _) _].
  split.
  - assert (Hloop : conversation_loop json_loads post payload tool_handlers
                      true (S fuel) st fr
                    = (Raised (mkExc KeyError "'role'"), fr)).
    { simpl. rewrite dbind_lift, Hguard. unfold dbind at 1. unfold turn.
      rewrite dbind_lift, Hafter, dbind_lift, Hcont, dbind_lift.
      unfold log_last_role. rewrite Hlast. unfold getitem. rewrite Hrole.
      reflexivity. }
    unfold process_with_tools, requests_sent.
    rewrite (run_reaches _ _ _ _ _ _ _ _ Hreach (S fuel)), Hloop.
    simpl. unfold on_exception. rewrite Hresp, Hjson. auto.
  - unfold turn.
    rewrite dbind_lift, Hafter, dbind_lift, Hcont, dbind_lift. simpl.
    unfold dbind at 1.
    pose proof (send_sent post q fr) as Hs.
    destruct (send post q fr) as [[d | e |] fr2]; simpl in Hs.
    + rewrite dbind_lift. destruct (first_message d); exact Hs.
    + exact Hs.
    + exact Hs.
Qed.

End LogLine.

Lemma opening_messages_kept_witness :
  exists later,
    messages_of
      (sample_continuation
         (sample_messages
          ++ [calling [fetch_call]; tool_response (JStr "call_1") article_text]))
    = (messages_of sample_payload ++ later)%list /\
    1 <= List.length later.
Proof.
  apply (opening_messages_kept sample_loads (scripted fetch_script)
           sample_payload sample_handlers true 5 1).
  vm_compute. reflexivity.
Defined.

Lemma payload_without_messages_costs_a_request_witness :
  process_with_tools sample_loads (scripted answered_script)
    payload_without_messages sample_handlers true 5
  = Some (JObj [("error", JStr "'messages'");
                ("response_body", answer_response)]) /\
  requests_sent sample_loads (scripted answered_script)
    payload_without_messages sample_handlers true 5
  = [payload_without_messages].
Proof.
  apply (payload_without_messages_costs_a_request sample_loads
           (scripted answered_script) payload_without_messages sample_handlers
           true [("model", JStr "model-1"); ("max_tokens", JInt 800)]
           (http_response sample_loads 200 "OK" (render answer_response))
           answer_response answer_message 5);
    reflexivity.
Defined.

Lemma completion_without_message_witness :
  process_with_tools edge_loads (scripted [edge_ok no_choices_body])
    sample_payload sample_handlers true 5
  = Some (JObj [("error", JStr (exc_str (mkExc KeyError "'choices'")));
                ("response_body", no_choices_body)]) /\
  requests_sent edge_loads (scripted [edge_ok no_choices_body])
    sample_payload sample_handlers true 5
  = [sample_payload].
Proof.
  apply (completion_without_message edge_loads
           (scripted [edge_ok no_choices_body]) sample_payload sample_handlers
           true (http_response edge_loads 200 "OK" (render no_choices_body))
           no_choices_body (mkExc KeyError "'choices'") 5);
    reflexivity.
Defined.

Lemma log_line_needs_role_witness :
  (process_with_tools edge_loads (scripted anonymous_script) sample_payload
     sample_handlers true (0 + 1)
   = Some (JObj [("error", JStr "'role'");
                 ("response_body", response_data anonymous_state)]) /\
   requests_sent edge_loads (scripted anonymous_script) sample_payload
     sample_handlers true (0 + 1)
   = sent anonymous_frame) /\
  sent (snd (turn edge_loads (scripted anonymous_script) sample_payload
               sample_handlers false anonymous_state anonymous_frame))
  = (sent anonymous_frame
     ++ [sample_continuation (sample_messages ++ [anonymous_calling])])%list.
Proof.
  apply (log_line_needs_role edge_loads (scripted anonymous_script)
           sample_payload sample_handlers 0 anonymous_state anonymous_frame
           (sample_messages ++ [anonymous_calling])
           (sample_continuation (sample_messages ++ [anonymous_calling]))
           [("content", JNull); ("tool_calls", JArr [unregistered_call])] 0).
  - apply reaches_initial. vm_compute. reflexivity.
  - reflexivity.
  - reflexivity.
  - reflexivity.
  - reflexivity.
  - reflexivity.
Defined.

(** Without the log line the same run goes on to the answer. *)
Example run_without_log_line :
  process_with_tools edge_loads (scripted anonymous_script) sample_payload
    sample_handlers false 5
  = Some answer_response.
Proof. vm_compute. reflexivity. Qed.

(** ** The parser: the text slot *)

Lemma init_patterns_not_empty (patterns : option (list (string * regex))) :
  extraction_patterns (__init__ patterns) <> [].
Proof. destruct patterns as [[|p ps]|]; simpl; discriminate. Qed.

(** X15. With a pattern table that is not empty (as it is after
    [__init__], which puts the default table in place of an empty one), the
    second slot of the pair [parse_financial_data] returns, when filled, is
    a text: the error text, the parsing error text, or the content, which
    is a [str] whenever the extraction went through. *)
Theorem summary_is_text (str_of json_dumps : Json -> string)
  (self : FinancialDataProcessor) (response : list (string * Json))
  (data : option (list (string * string))) (x : Json) :
  extraction_patterns self <> [] ->
  parse_financial_data str_of json_dumps self (JObj response)
  = Ret (data, Some x) ->
  data = None /\ exists s, x = JStr s.
Proof.
  intros Hne Hparse.
  destruct (parse_cases str_of json_dumps self response)
    as [(_ & text & H) | [(_ & e & _ & H) | (_ & content & fields & Hex & _ & H)]].
  - rewrite H in Hparse. inversion Hparse; subst. eauto.
  - rewrite H in Hparse. inversion Hparse; subst. eauto.
  - destruct H as [[_ H] | [_ H]]; rewrite H in Hparse;
      inversion Hparse; subst.
    split; [reflexivity|]. exact (extract_needs_text self x fields Hne Hex).
Qed.

Lemma summary_is_text_witness :
  @None (list (string * string)) = None /\
  exists s, JStr two_field_text = JStr s.
Proof.
  apply (summary_is_text str_scalar render (__init__ None)
           [("choices",
             JArr [JObj [("message",
                          JObj [("role", JStr "assistant");
                                ("content", JStr two_field_text)])]])]
           None (JStr two_field_text)).
  - apply init_patterns_not_empty.
  - vm_compute. reflexivity.
Defined.

(** ** The display step *)

Lemma split_once_infix (sep s : string) :
  split_once sep s = None <-> is_infix sep s = false.
Proof.
  induction s as [|c s IH]; cbn [split_once is_infix].
  - destruct (String.prefix sep ""); split; intros H;
      try discriminate; reflexivity.
  - destruct (String.prefix sep (String c s)).
    + split; discriminate.
    + destruct (split_once sep s) as [[before rest]|].
      * split; [discriminate|]. intros H. apply IH in H. discriminate.
      * split; [intros _; apply IH; reflexivity | reflexivity].
Qed.

(** The display step of main.py cannot fail on the result of
    [parse_financial_data], whatever dict the response is, as long as the
    pattern table is not empty and [min_data_points] is not zero: a map
    that comes back is not empty, and what comes back without a map is a
    text. *)
Lemma display_step_returns (st_json : string -> Py unit)
  (str_of json_dumps : Json -> string) (self : FinancialDataProcessor)
  (response : list (string * Json)) :
  extraction_patterns self <> [] ->
  0 < min_data_points self ->
  exists result widgets,
    parse_financial_data str_of json_dumps self (JObj response) = Ret result /\
    show_result st_json result = Ret widgets.
Proof.
  intros Hne Hmin.
  destruct (parse_cases str_of json_dumps self response)
    as [(_ & text & H) | [(_ & e & _ & H) | (_ & content & data & Hex & _ & H)]].
  - eexists. eexists. split; [exact H | reflexivity].
  - eexists. eexists. split; [exact H | reflexivity].
  - destruct H as [[Hlen H] | [_ H]].
    + destruct data as [|entry entries]; [simpl in Hlen; lia|].
      eexists. eexists. split; [exact H | reflexivity].
    + destruct (extract_needs_text self content data Hne Hex) as (s & ->).
      eexists. eexists. split; [exact H | reflexivity].
Qed.

(** X17. A fault inside the parser is not shown as an error.  For a
    response without "error" on which the body of the [try] raises, the page
    gets the warning box with the heading "Content Summary" and, as the
    summary, the text "Parsing Error: " followed by the message of the
    exception. *)
Theorem parsing_fault_shown_as_summary (st_json : string -> Py unit)
  (str_of json_dumps : Json -> string) (self : FinancialDataProcessor)
  (response : list (string * Json)) (e : PyExc) :
  has_key "error" response = false ->
  parse_body self (JObj response) = Raise e ->
  exists result,
    parse_financial_data str_of json_dumps self (JObj response) = Ret result /\
    show_result st_json result
    = Ret [ Markdown (div_open "warning-box");
            Markdown "### Content Summary";
            Markdown "Unable to extract structured financial data. Here's a summary instead:";
            Markdown ("Parsing Error: " ++ exc_str e);
            Markdown "</div>" ].
Proof.
  intros Herr Hbody. unfold parse_financial_data. cbn [contains bind].
  rewrite Herr, Hbody. simpl. eexists. split; reflexivity.
Qed.

Lemma parsing_fault_shown_as_summary_witness :
  exists result,
    parse_financial_data str_scalar render (__init__ None)
      (JObj [("choices", JArr [])]) = Ret result /\
    show_result (fun _ => Ret tt) result
    = Ret [ Markdown (div_open "warning-box");
            Markdown "### Content Summary";
            Markdown "Unable to extract structured financial data. Here's a summary instead:";
            Markdown ("Parsing Error: "
                      ++ exc_str (mkExc IndexError "list index out of range"));
            Markdown "</div>" ].
Proof.
  apply (parsing_fault_shown_as_summary (fun _ => Ret tt) str_scalar render
           (__init__ None) [("choices", JArr [])]
           (mkExc IndexError "list index out of range"));
    reflexivity.
Defined.

(** X18. A response with the key "error" (the error value of the driver,
    or an error the service sends) is shown as an error, whatever else it
    holds: the page gets the warning box and the heading "Error Processing
    Request", then the error text, and never the field map. *)
Theorem error_response_shown_as_error (st_json : string -> Py unit)
  (str_of json_dumps : Json -> string) (self : FinancialDataProcessor)
  (response : list (string * Json)) :
  has_key "error" response = true ->
  exists text widgets,
    parse_financial_data str_of json_dumps self (JObj response)
    = Ret (None, Some (JStr text)) /\
    show_result st_json (None, Some (JStr text))
    = Ret (Markdown (div_open "warning-box")
           :: Markdown "### Error Processing Request" :: widgets).
Proof.
  intros Herr. unfold parse_financial_data. cbn [contains bind].
  rewrite Herr. unfold has_key in Herr.
  unfold _format_error_message, getitem.
  destruct (assoc "error" response) as [err|]; [|discriminate].
  cbn [bind contains].
  destruct (has_key "response_body" response) eqn:Hb.
  - unfold has_key in Hb.
    destruct (assoc "response_body" response) as [body|]; [|discriminate].
    eexists. eexists. split; [reflexivity|]. simpl. reflexivity.
  - eexists. eexists. split; [reflexivity|]. simpl. reflexivity.
Qed.

Lemma error_response_shown_as_error_witness :
  exists text widgets,
    parse_financial_data str_scalar render (__init__ None)
      (JObj [("error", JStr "timeout"); ("choices", JArr [])])
    = Ret (None, Some (JStr text)) /\
    show_result (fun _ => Ret tt) (None, Some (JStr text))
    = Ret (Markdown (div_open "warning-box")
           :: Markdown "### Error Processing Request" :: widgets).
Proof.
  apply (error_response_shown_as_error (fun _ => Ret tt) str_scalar render
           (__init__ None) [("error", JStr "timeout"); ("choices", JArr [])]).
  reflexivity.
Defined.

Lemma assoc_in {A : Type} (k : string) (v : A) (m : list (string * A)) :
  assoc k m = Some v -> In (k, v) m.
Proof.
  induction m as [|[k' v'] m IH]; simpl; [discriminate|].
  destruct (String.eqb_spec k k') as [-> | Hne].
  - intros H. inversion H. left. reflexivity.
  - intros H. right. auto.
Qed.

(** X19. On the page of the results a metric reads "N/A" exactly when
    its label is missing from the map: the extractor never puts "N/A" in
    the map as a value. *)
Theorem metric_na_iff_missing (self : FinancialDataProcessor) (content : Json)
  (data : list (string * string)) (key : string) :
  _extract_data_from_content self content = Ret data ->
  (value_or_na data key = "N/A" <-> assoc key data = None).
Proof.
  intros H. unfold value_or_na.
  destruct (assoc key data) as [v|] eqn:E; [|tauto].
  split; [|discriminate]. intros ->.
  apply assoc_in in E. unfold _extract_data_from_content in H.
  destruct (extract_loop_values _ _ _ _ H (Forall_nil _) (NoDup_nil _))
    as [Hall _].
  rewrite Forall_forall in Hall. destruct (Hall _ E) as [_ Hb].
  simpl in Hb. discriminate Hb.
Qed.

Lemma metric_na_iff_missing_witness :
  value_or_na [("company name", "Apple Inc."); ("revenue", "$120B")]
    "stock symbol" = "N/A"
  <-> assoc "stock symbol" [("company name", "Apple Inc."); ("revenue", "$120B")]
      = None.
Proof.
  apply (metric_na_iff_missing (__init__ None) (JStr two_field_text)).
  vm_compute. reflexivity.
Defined.

(** ** From the request to the page *)

Lemma first_message_dict (d m : Json) :
  first_message d = Ret m -> exists fields, d = JObj fields.
Proof.
  unfold first_message, getitem. destruct d; try discriminate. eauto.
Qed.

(** What the driver returns is a dict. *)
Lemma driver_returns_dict (json_loads : string -> Py Json)
  (post : nat -> Json -> Py Response) (payload : Json)
  (tool_handlers : list (string * Handler)) (log_requests : bool)
  (fuel : nat) (value : Json) :
  process_with_tools json_loads post payload tool_handlers log_requests fuel
  = Some value ->
  exists fields, value = JObj fields.
Proof.
  unfold process_with_tools.
  destruct (run json_loads post payload tool_handlers log_requests fuel)
    as [[d | e |] fr] eqn:Er; simpl; intros H; inversion H; subst.
  - destruct (run_turns _ _ _ _ _ fuel _ _ Er) as [_ Hd].
    destruct (Hd value eq_refl)
      as (st & (earlier & p & r & _ & _ & _ & _ & _ & Hm & _) & -> & _).
    exact (first_message_dict _ _ Hm).
  - unfold on_exception. destruct (response fr) as [r|]; [|eauto].
    destruct (json r); eauto.
Qed.

(** X16. From the request to the page nothing is raised: whatever the
    transport, the decoder, the page fetch and the payload do, once
    [process_with_tools] has returned, [parse_financial_data] and the
    display step of main.py return too, and the page gets its widgets. *)
Theorem pipeline_returns (json_loads : string -> Py Json)
  (post : nat -> Json -> Py Response) (str_of json_dumps : Json -> string)
  (requests_get : Json -> Py string) (soup_text : string -> Py string)
  (st_json : string -> Py unit) (payload : Json) (fuel : nat)
  (outcome : Py (list Widget)) :
  respond json_loads post str_of json_dumps requests_get soup_text st_json
    payload fuel = Some outcome ->
  exists widgets, outcome = Ret widgets.
Proof.
  unfold respond.
  destruct (process_with_tools json_loads post payload
              (main_tool_handlers str_of requests_get soup_text) true fuel)
    as [value|] eqn:Ep; [|discriminate].
  intros H. inversion H; subst outcome. clear H.
  destruct (driver_returns_dict _ _ _ _ _ _ _ Ep) as (fields & ->).
  destruct (display_step_returns st_json str_of json_dumps (__init__ None)
              fields) as (result & widgets & Hparse & Hshow).
  - apply init_patterns_not_empty.
  - simpl. lia.
  - exists widgets. rewrite Hparse. simpl. exact Hshow.
Qed.

Lemma pipeline_returns_witness :
  exists widgets,
    Ret (display_financial_data
           [("company name", "Apple Inc."); ("stock symbol", "AAPL");
            ("revenue", "$120B")]) = Ret widgets.
Proof.
  apply (pipeline_returns sample_loads (scripted fetch_script) str_scalar
           render sample_get sample_soup (fun _ => Ret tt) sample_payload 5).
  vm_compute. reflexivity.
Defined.

(** The page for an answer with three fields, and for a connection lost
    on the first request. *)
Example page_of_answer :
  respond sample_loads (scripted fetch_script) str_scalar render sample_get
    sample_soup (fun _ => Ret tt) sample_payload 5
  = Some (Ret (display_financial_data
                 [("company name", "Apple Inc."); ("stock symbol", "AAPL");
                  ("revenue", "$120B")])).
Proof. vm_compute. reflexivity. Qed.

Example page_of_connection_error :
  respond sample_loads (scripted [connection_error]) str_scalar render
    sample_get sample_soup (fun _ => Ret tt) sample_payload 5
  = Some (Ret [ Markdown (div_open "warning-box");
                Markdown "### Error Processing Request";
                ErrorBox "API Error: ('Connection aborted.', RemoteDisconnected('Remote end closed connection without response'))";
                Markdown "</div>" ]).
Proof. vm_compute. reflexivity. Qed.

(** ** The model selector *)

Lemma format_all_names (ids : list Json) :
  forall names,
    format_all ids = Ret names ->
    Forall2 (fun id name => format_model_name id = Ret name) ids names.
Proof.
  induction ids as [|id ids IH]; simpl; intros names H.
  - inversion H. constructor.
  - apply bind_ret in H. destruct H as (name & Hname & H).
    apply bind_ret in H. destruct H as (rest & Hrest & H).
    inversion H; subst. constructor; auto.
Qed.

Lemma forall2_in_left {A B : Type} (R : A -> B -> Prop) (l1 : list A)
  (l2 : list B) (x : A) :
  Forall2 R l1 l2 -> In x l1 -> exists y, In y l2 /\ R x y.
Proof.
  induction 1 as [|a b l1 l2 Hab Hall IH]; simpl; [tauto|].
  intros [-> | Hin]; [exists b; auto|].
  destruct (IH Hin) as (y & Hy & Hxy). exists y. auto.
Qed.

(** What the dict built from the names and the ids has under a name: the
    last id of that name, or what the dict had before when no id has the
    name. *)
Lemma build_dict_last (names : list Display) :
  forall ids d d' text v,
    Forall2 (fun id name => format_model_name id = Ret name) ids names ->
    build_dict names ids d = Ret d' ->
    assoc text d' = Some v ->
    (assoc text d = Some v /\ ~ In (Name text) names) \/
    (exists before after,
       ids = (before ++ v :: after)%list /\
       format_model_name v = Ret (Name text) /\
       forall later, In later after ->
                     format_model_name later <> Ret (Name text)).
Proof.
  induction names as [|name names IH]; intros ids d d' text v Hall Hbuild Hv.
  - simpl in Hbuild. inversion Hbuild; subst. left. split; [exact Hv | tauto].
  - inversion Hall as [|id name' ids' names' Hfmt Hrest]; subst.
    destruct name as [text0 | other]; simpl in Hbuild; [|discriminate].
    destruct (IH ids' _ d' text v Hrest Hbuild Hv)
      as [[Hd Hnot] | (before & after & -> & Hf & Hlater)].
    + destruct (String.eqb_spec text text0) as [-> | Hne].
      * rewrite assoc_dict_set_same in Hd. inversion Hd; subst v.
        right. exists [], ids'. split; [reflexivity|]. split; [exact Hfmt|].
        intros later Hin Hc.
        destruct (forall2_in_left _ _ _ later Hrest Hin) as (n & Hn & Hn').
        rewrite Hc in Hn'. inversion Hn'; subst n. contradiction.
      * rewrite assoc_dict_set_other in Hd by exact Hne.
        left. split; [exact Hd|]. intros [Heq | Hin]; [|contradiction].
        inversion Heq. congruence.
    + right. exists (id :: before), after. auto.
Qed.

Lemma and_then_shown {A B : Type} (m : Py A) (k : A -> Page B) (b : B) :
  and_then m k = Shown b -> exists a, m = Ret a /\ k a = Shown b.
Proof.
  destruct m as [a | e]; simpl; intros H; [eauto | discriminate].
Qed.

(** X20. The model id the selector returns is one of the ids listed,
    its display name is the option the select box gave back, and no id
    listed after it has that display name: of two ids with one display name
    (same first and last part, another version in between), the selector
    can only return the later one. *)
Theorem selected_is_last_of_its_name
  (selectbox : list string -> nat -> option string) (models_data : Json)
  (default_model : option string) (selected : Json) :
  create_model_selector selectbox models_data default_model = Shown selected ->
  exists available models ids names index chosen before after,
    get models_data "data" (JArr []) = Ret available /\
    iterate available = Ret models /\
    collect_ids models = Ret ids /\
    format_all ids = Ret names /\
    selectbox (texts names) index = Some chosen /\
    ids = (before ++ selected :: after)%list /\
    format_model_name selected = Ret (Name chosen) /\
    forall later, In later after ->
                  format_model_name later <> Ret (Name chosen).
Proof.
  unfold create_model_selector. intros H.
  assert (H' : and_then (get models_data "data" (JArr []))
                 (fun available_models =>
                    if negb (truthy_json available_models) then Stopped
                    else
                      and_then (iterate available_models) (fun models =>
                      and_then (collect_ids models) (fun model_ids =>
                      and_then (format_all model_ids) (fun model_display_names =>
                      and_then (build_dict model_display_names model_ids [])
                        (fun model_name_to_id =>
                      and_then
                        match
                          match default_model with
                          | Some (String c s) =>
                              find_default model_name_to_id (String c s)
                          | _ => None
                          end
                        with
                        | Some (String c s) =>
                            match index_of (String c s)
                                    (texts model_display_names) with
                            | Some n => Ret n
                            | None =>
                                Raise (mkExc OtherException
                                         (quoted (String c s)
                                          ++ " is not in list"))
                            end
                        | _ => Ret 0
                        end (fun index =>
                      match selectbox (texts model_display_names) index with
                      | None => Crashed (mkExc KeyError "None")
                      | Some selected_model_display =>
                          match assoc selected_model_display
                                  model_name_to_id with
                          | None =>
                              Crashed (mkExc KeyError
                                         (quoted selected_model_display))
                          | Some selected_model =>
                              and_then (list_models models)
                                (fun _ => Shown selected_model)
                          end
                      end))))))
               = Shown selected).
  { destruct models_data; try exact H. discriminate. }
  clear H.
  apply and_then_shown in H'. destruct H' as (available & Hdata & H).
  destruct (negb (truthy_json available)); [discriminate|].
  apply and_then_shown in H. destruct H as (models & Hmodels & H).
  apply and_then_shown in H. destruct H as (ids & Hids & H).
  apply and_then_shown in H. destruct H as (names & Hnames & H).
  apply and_then_shown in H. destruct H as (dict & Hdict & H).
  apply and_then_shown in H. destruct H as (index & _ & H).
  destruct (selectbox (texts names) index) as [chosen|] eqn:Hbox;
    [|discriminate].
  destruct (assoc chosen dict) as [v|] eqn:Hv; [|discriminate].
  apply and_then_shown in H. destruct H as (u & _ & H).
  inversion H; subst v.
  destruct (build_dict_last names ids [] dict chosen selected
              (format_all_names ids names Hnames) Hdict Hv)
    as [[Hnil _] | (before & after & Hsplit & Hfmt & Hlater)];
    [discriminate|].
  exists available, models, ids, names, index, chosen, before, after.
  repeat split; assumption.
Qed.

Lemma selected_is_last_of_its_name_witness :
  exists available models ids names index chosen before after,
    get sample_models "data" (JArr []) = Ret available /\
    iterate available = Ret models /\
    collect_ids models = Ret ids /\
    format_all ids = Ret names /\
    keep_default (texts names) index = Some chosen /\
    ids = (before ++ JStr "anthropic::2024-10-22::claude-sonnet" :: after)%list /\
    format_model_name (JStr "anthropic::2024-10-22::claude-sonnet")
    = Ret (Name chosen) /\
    forall later, In later after ->
                  format_model_name later <> Ret (Name chosen).
Proof.
  apply (selected_is_last_of_its_name keep_default sample_models
           (Some "anthropic::2024-10-22::claude-sonnet")).
  vm_compute. reflexivity.
Defined.

(** The earlier of the two ids with one display name cannot be kept as
    the selection: with it as the default, the selector falls back to the
    first option. *)
Example shadowed_default_is_lost :
  format_model_name (JStr "anthropic::2023-06-01::claude-sonnet")
  = format_model_name (JStr "anthropic::2024-10-22::claude-sonnet") /\
  create_model_selector keep_default sample_models
    (Some "anthropic::2023-06-01::claude-sonnet")
  = Shown (JStr "openai::2024-02-01::gpt-4o").
Proof. split; vm_compute; reflexivity. Qed.

(** A model whose id is null is passed over by the list of ids, and
    then stops the page in the list of the available models. *)
Example null_id_crashes_selector :
  create_model_selector keep_default
    (JObj [("data", JArr [JObj [("id", JNull)]; JObj [("id", JStr "m")]])])
    None
  = Crashed (mkExc TypeError "argument of type 'NoneType' is not iterable").
Proof. vm_compute. reflexivity. Qed.

(** ** The patterns of the default table capture within one line *)

Lemma rmatch_keeps_group (r : regex) :
  has_group r = false ->
  forall s g k x,
    rmatch r s g k = Some x -> exists s', k s' g = Some x.
Proof.
  induction r as [ | c | | | | r1 IH1 r2 IH2 | r1 IH1 r2 IH2 | r1 IH1
                 | r1 IH1 | r1 IH1 | r1 IH1 ]; simpl; intros Hg s g k x H.
  - eauto.
  - destruct s as [|d s']; [discriminate|].
    destruct (eq_nocase c d); [eauto | discriminate].
  - destruct s as [|d s']; [discriminate|].
    destruct (isspace d); [eauto | discriminate].
  - destruct s as [|d s']; [discriminate|].
    destruct (Ascii.eqb d newline); [discriminate | eauto].
  - destruct (at_eos s); [eauto | discriminate].
  - apply orb_false_iff in Hg. destruct Hg as [Hg1 Hg2].
    apply (IH1 Hg1) in H. destruct H as (s1 & H).
    apply (IH2 Hg2) in H. exact H.
  - apply orb_false_iff in Hg. destruct Hg as [Hg1 Hg2].
    apply or_else_some in H. destruct H as [H | H];
      [apply (IH1 Hg1) in H | apply (IH2 Hg2) in H]; exact H.
  - apply or_else_some in H. destruct H as [H | H];
      [apply (IH1 Hg) in H; exact H | eauto].
  - remember (String.length s) as n eqn:En. clear En.
    revert s H. induction n as [|n IHn]; intros s H; [eauto|].
    apply or_else_some in H. destruct H as [H | H]; [|eauto].
    apply (IH1 Hg) in H. destruct H as (s1 & H).
    destruct (String.length s1 <? String.length s)%nat; [|discriminate].
    apply IHn in H. exact H.
  - remember (String.length s) as n eqn:En. clear En.
    revert s H. induction n as [|n IHn]; intros s H;
      apply (IH1 Hg) in H; destruct H as (s1 & H);
      apply or_else_some in H; destruct H as [H | H]; eauto;
      try discriminate.
    destruct (String.length s1 <? String.length s)%nat; [|discriminate].
    apply IHn in H. exact H.
  - discriminate.
Qed.

Lemma lazy_dots (k : string -> option string -> option (option string))
  (x : option string) :
  forall s g,
    rmatch (PlusLazy Dot) s g k = Some x ->
    exists pre s',
      s = pre ++ s' /\ pre <> "" /\ no_newline pre = true /\
      k s' g = Some x.
Proof.
  intros s g. simpl.
  remember (String.length s) as n eqn:En. clear En.
  revert s. induction n as [|n IHn]; intros s H.
  - destruct s as [|d s1]; [discriminate|].
    destruct (Ascii.eqb d newline) eqn:Ed; [discriminate|].
    apply or_else_some in H. destruct H as [H | H]; [|discriminate].
    exists (String d ""), s1. simpl. rewrite Ed.
    repeat split; [discriminate | exact H].
  - destruct s as [|d s1]; [discriminate|].
    destruct (Ascii.eqb d newline) eqn:Ed; [discriminate|].
    apply or_else_some in H. destruct H as [H | H].
    + exists (String d ""), s1. simpl. rewrite Ed.
      repeat split; [discriminate | exact H].
    + destruct (String.length s1 <? String.length (String d s1))%nat;
        [|discriminate].
      apply IHn in H. destruct H as (pre & s' & -> & _ & Hpre & H).
      exists (String d pre), s'. simpl. rewrite Ed, Hpre.
      repeat split; [discriminate | exact H].
Qed.

Lemma string_length_app (a b : string) :
  String.length (a ++ b) = String.length a + String.length b.
Proof. induction a as [|c a IH]; simpl; [reflexivity | now rewrite IH]. Qed.

Lemma substring_prefix (a b : string) :
  String.substring 0 (String.length a) (a ++ b) = a.
Proof.
  induction a as [|c a IH]; simpl.
  - destruct b; reflexivity.
  - now rewrite IH.
Qed.

Lemma consumed_app (pre s' : string) : consumed (pre ++ s') s' = pre.
Proof.
  unfold consumed. rewrite string_length_app.
  replace (String.length pre + String.length s' - String.length s')
    with (String.length pre) by lia.
  apply substring_prefix.
Qed.

Lemma label_line_capture (label s : string) (x : option string) :
  rmatch (label_line label) s None (fun _ g => Some g) = Some x ->
  exists c, x = Some c /\ c <> "" /\ no_newline c = true.
Proof.
  unfold label_line. intros H. cbn [rmatch] in H.
  apply rmatch_group in H. destruct H as (s1 & g1 & H & _).
  apply or_else_some in H.
  assert (Hstar : exists s2 g2,
             rmatch (Star Space) s2 g2
               (fun s' g' =>
                  rmatch (Group (PlusLazy Dot)) s' g'
                    (fun s'' g'' =>
                       rmatch (Alt (Lit newline) Eos) s'' g''
                         (fun _ g => Some g))) = Some x).
  { destruct H as [H | H].
    - destruct s1 as [|d s1']; [discriminate|].
      destruct (eq_nocase ":" d); [eauto | discriminate].
    - eauto. }
  clear H. destruct Hstar as (s2 & g2 & H).
  apply rmatch_group in H. destruct H as (s3 & g3 & H & _).
  change (rmatch (PlusLazy Dot) s3 g3
            (fun s' _ =>
               rmatch (Alt (Lit newline) Eos) s' (Some (consumed s3 s'))
                 (fun _ g => Some g)) = Some x) in H.
  apply lazy_dots in H. destruct H as (pre & s' & -> & Hne & Hpre & H).
  rewrite consumed_app in H.
  apply rmatch_keeps_group in H; [|reflexivity].
  destruct H as (s4 & H). inversion H; subst x. eauto.
Qed.

Lemma label_line_search (label s : string) (c : string) :
  re_search (label_line label) s = Some (Some c) ->
  c <> "" /\ no_newline c = true.
Proof.
  induction s as [|d s IH]; cbn [re_search].
  - destruct (rmatch (label_line label) "" None (fun _ g => Some g))
      as [x|] eqn:E; [|discriminate].
    intros H. inversion H; subst x.
    destruct (label_line_capture _ _ _ E) as (c' & Hc & Hne & Hnl).
    inversion Hc; subst. auto.
  - destruct (rmatch (label_line label) (String d s) None (fun _ g => Some g))
      as [x|] eqn:E; [|exact IH].
    intros H. inversion H; subst x.
    destruct (label_line_capture _ _ _ E) as (c' & Hc & Hne & Hnl).
    inversion Hc; subst. auto.
Qed.

Lemma no_newline_lstrip (s : string) :
  no_newline s = true -> no_newline (lstrip s) = true.
Proof.
  induction s as [|c s IH]; simpl; [auto|]. intros H.
  destruct (isspace c); [|exact H].
  apply andb_true_iff in H. tauto.
Qed.

Lemma no_newline_rstrip (s : string) :
  no_newline s = true -> no_newline (rstrip s) = true.
Proof.
  induction s as [|c s IH]; simpl; [auto|]. intros H.
  apply andb_true_iff in H. destruct H as [Hc Hs].
  destruct (rstrip s) as [|d t] eqn:E.
  - destruct (isspace c); [reflexivity|]. simpl. now rewrite Hc.
  - simpl. rewrite Hc. simpl. exact (IH Hs).
Qed.

Lemma extract_loop_lines (patterns : list (string * regex)) (content : Json) :
  Forall (fun kp => is_label_line (snd kp)) patterns ->
  forall data data',
    extract_loop patterns content data = Ret data' ->
    Forall (fun kv => no_newline (snd kv) = true) data ->
    Forall (fun kv => no_newline (snd kv) = true) data'.
Proof.
  assert (Hset : forall k v (data : list (string * string)),
             no_newline v = true ->
             Forall (fun kv => no_newline (snd kv) = true) data ->
             Forall (fun kv => no_newline (snd kv) = true) (dict_set k v data)).
  { intros k v data Hv. induction data as [|[k' v'] data IH]; simpl; intros H.
    - constructor; [exact Hv | constructor].
    - inversion H; subst. destruct (String.eqb k k'); constructor; auto. }
  induction patterns as [|[key0 p0] rest IH]; intros Hlines data data' H Hall.
  - inversion H; subst. exact Hall.
  - inversion Hlines as [|? ? (label & Hp0) Hrest]; subst. simpl in Hp0.
    cbn -[str_in blocklist re_search] in H.
    apply bind_ret in H. destruct H as (m & Hm & H).
    destruct m as [g|]; [|eauto].
    apply bind_ret in H. destruct H as (x & Hx & H).
    apply bind_ret in H. destruct H as (v & Hv & H).
    destruct x as [c|]; [|discriminate]. simpl in Hv. inversion Hv; subst v.
    destruct (str_in (strip c) blocklist); cbn -[str_in blocklist] in H;
      [eauto|].
    apply (IH Hrest _ _ H). apply Hset; [|exact Hall].
    unfold search in Hm. destruct content; try discriminate.
    inversion Hm as [Hs]. unfold group1 in Hx.
    destruct (has_group p0); [|discriminate]. inversion Hx; subst g.
    rewrite Hp0 in Hs.
    destruct (label_line_search _ _ _ Hs) as [_ Hnl].
    unfold strip. apply no_newline_rstrip, no_newline_lstrip. exact Hnl.
Qed.

(** X21. With patterns of the shape of the default table,
    label:?\s*(.+?)(?:\n|$), every value of the map is on one line: no value
    holds a newline. *)
Theorem extracted_values_on_one_line (self : FinancialDataProcessor)
  (content : Json) (data : list (string * string)) (label value : string) :
  Forall (fun kp => is_label_line (snd kp)) (extraction_patterns self) ->
  _extract_data_from_content self content = Ret data ->
  In (label, value) data ->
  no_newline value = true.
Proof.
  unfold _extract_data_from_content. intros Hlines H Hin.
  pose proof (extract_loop_lines _ content Hlines [] data H (Forall_nil _))
    as Hall.
  rewrite Forall_forall in Hall. exact (Hall _ Hin).
Qed.

Lemma default_patterns_label_lines :
  Forall (fun kp => is_label_line (snd kp)) default_patterns.
Proof. repeat constructor; simpl; eexists; reflexivity. Qed.

Lemma extracted_values_on_one_line_witness : no_newline "$120B" = true.
Proof.
  apply (extracted_values_on_one_line (__init__ None) (JStr two_field_text)
           [("company name", "Apple Inc."); ("revenue", "$120B")]
           "revenue" "$120B").
  - exact default_patterns_label_lines.
  - vm_compute. reflexivity.
  - right. left. reflexivity.
Defined.

(** ** A line of the form  label: value *)

Lemma lits_match (label : string) :
  forall s g k,
    rmatch (lits label) s g k
    = match strip_prefix label s with
      | Some t => k t g
      | None => None
      end.
Proof.
  induction label as [|c label IH]; intros s g k; simpl; [reflexivity|].
  destruct s as [|d s]; [reflexivity|].
  destruct (eq_nocase c d); [apply IH | reflexivity].
Qed.

Lemma star_space_all (k : string -> option string -> option (option string))
  (g x : option string) (tail : string) :
  begins_with_text tail = true ->
  k tail g = Some x ->
  forall gap,
    all_space gap = true ->
    rmatch (Star Space) (gap ++ tail) g k = Some x.
Proof.
  intros Htail Hk gap Hgap. simpl.
  assert (Hn : (String.length gap <= String.length (gap ++ tail))%nat)
    by (rewrite string_length_app; lia).
  revert Hn. generalize (String.length (gap ++ tail)) as n.
  induction gap as [|w gap IH]; intros n Hn.
  - simpl. destruct n as [|n]; [exact Hk|].
    destruct tail as [|d tail]; [discriminate|]. simpl in Htail.
    destruct (isspace d); [discriminate|]. simpl. exact Hk.
  - simpl in Hgap. apply andb_true_iff in Hgap. destruct Hgap as [Hw Hgap].
    destruct n as [|n]; [simpl in Hn; lia|].
    simpl in Hn. apply le_S_n in Hn.
    cbn [rmatch String.append]. rewrite Hw.
    replace (String.length (gap ++ tail)
             <? String.length (String w (gap ++ tail)))%nat with true
      by (symmetry; apply Nat.ltb_lt; simpl; lia).
    rewrite (IH Hgap n Hn). reflexivity.
Qed.

Lemma lazy_dots_to_end (k : string -> option string -> option (option string))
  (g x : option string) (rest : string) :
  k rest g = Some x ->
  forall value d,
    no_newline (String d value) = true ->
    (forall p q, value = p ++ q -> q <> "" -> k (q ++ rest) g = None) ->
    rmatch (PlusLazy Dot) (String d value ++ rest) g k = Some x.
Proof.
  intros Hk value d Hnl Hfail. cbn [rmatch].
  match goal with
  | |- ?f ?n ?s ?g0 = _ => set (loop := f)
  end.
  assert (Hn : (String.length value
                <= String.length (String d value ++ rest))%nat)
    by (simpl; rewrite string_length_app; lia).
  revert Hn. generalize (String.length (String d value ++ rest)) as n.
  revert d Hnl Hfail. induction value as [|e value IH]; intros d Hnl Hfail n Hn.
  - simpl in Hnl. rewrite andb_true_r in Hnl.
    apply negb_true_iff in Hnl.
    destruct n; simpl; rewrite Hnl, Hk; reflexivity.
  - destruct n as [|n]; [simpl in Hn; lia|].
    simpl in Hn. apply le_S_n in Hn.
    cbn [no_newline] in Hnl. apply andb_true_iff in Hnl.
    destruct Hnl as [Hd Hnl]. apply negb_true_iff in Hd.
    specialize (IH e Hnl).
    assert (Hfail' : forall p q, value = p ++ q -> q <> "" ->
                                 k (q ++ rest) g = None).
    { intros p q Hv Hq. apply (Hfail (String e p) q); [|exact Hq].
      simpl. now rewrite Hv. }
    specialize (IH Hfail' n Hn).
    pose proof (Hfail "" (String e value) eq_refl) as Hhere.
    assert (Hnone : k (String e value ++ rest) g = None)
      by (apply Hhere; discriminate).
    clear Hhere.
    change (loop (S n) (String d (String e value) ++ rest) g)
      with (if Ascii.eqb d newline then None
            else or_else (k (String e value ++ rest) g)
                   (if (String.length (String e value ++ rest)
                        <? String.length
                             (String d (String e value ++ rest)))%nat
                    then loop n (String e value ++ rest) g else None)).
    rewrite Hd, Hnone. cbn [or_else].
    replace (String.length (String e value ++ rest)
             <? String.length (String d (String e value ++ rest)))%nat
      with true by (symmetry; apply Nat.ltb_lt; simpl; lia).
    exact IH.
Qed.

Lemma no_newline_suffix (p q : string) :
  no_newline (p ++ q) = true -> no_newline q = true.
Proof.
  induction p as [|c p IH]; simpl; [auto|]. intros H.
  apply andb_true_iff in H. tauto.
Qed.

Lemma line_tail_matches (gap value rest : string) :
  all_space gap = true ->
  begins_with_text value = true ->
  no_newline value = true ->
  line_end rest = true ->
  rmatch (Seq (Opt (Lit ":"))
            (Seq (Star Space)
               (Seq (Group (PlusLazy Dot)) (Alt (Lit newline) Eos))))
    (":" ++ gap ++ value ++ rest) None (fun _ g => Some g)
  = Some (Some value).
Proof.
  intros Hgap Hval Hnl Hend.
  assert (Hgroup :
    rmatch (Seq (Group (PlusLazy Dot)) (Alt (Lit newline) Eos))
      (value ++ rest) None (fun _ g => Some g) = Some (Some value)).
  { destruct value as [|d value]; [discriminate|].
    cbn [rmatch].
    apply (lazy_dots_to_end
             (fun s' _ =>
                or_else
                  (rmatch (Lit newline) s'
                     (Some (consumed (String d value ++ rest) s'))
                     (fun _ g => Some g))
                  (rmatch Eos s'
                     (Some (consumed (String d value ++ rest) s'))
                     (fun _ g => Some g)))).
    - rewrite consumed_app.
      destruct rest as [|c rest]; [reflexivity|]. simpl in Hend.
      cbn [rmatch]. unfold eq_nocase.
      apply Ascii.eqb_eq in Hend. subst c.
      rewrite Ascii.eqb_refl. reflexivity.
    - exact Hnl.
    - intros p q Hv Hq. destruct q as [|c q]; [contradiction|].
      assert (Hc : Ascii.eqb c newline = false).
      { cbn [no_newline] in Hnl. apply andb_true_iff in Hnl.
        destruct Hnl as [_ Hnl]. rewrite Hv in Hnl.
        apply no_newline_suffix in Hnl. simpl in Hnl.
        apply andb_true_iff in Hnl. destruct Hnl as [Hnl _].
        now apply negb_true_iff in Hnl. }
      cbn [rmatch String.append].
      assert (Hlow : eq_nocase newline c = false).
      { unfold eq_nocase. apply Ascii.eqb_neq. intros Heq.
        apply Ascii.eqb_neq in Hc. apply Hc.
        revert Heq. clear. intros Heq.
        destruct c as [[] [] [] [] [] [] [] []]; vm_compute in Heq;
          try discriminate; reflexivity. }
      rewrite Hlow. cbn [or_else].
      destruct (q ++ rest); simpl; rewrite ?Hc; reflexivity. }
  cbn [rmatch]. change (":" ++ gap ++ value ++ rest)
    with (String ":" (gap ++ value ++ rest)).
  cbv beta iota.
  replace (eq_nocase ":" ":") with true by reflexivity.
  assert (Hstar :
    rmatch (Star Space) (gap ++ value ++ rest) None
      (fun s' g' =>
         rmatch (Group (PlusLazy Dot)) s' g'
           (fun s'' g'' =>
              or_else (rmatch (Lit newline) s'' g'' (fun _ g => Some g))
                (rmatch Eos s'' g'' (fun _ g => Some g))))
    = Some (Some value)).
  { apply star_space_all; [|exact Hgroup|exact Hgap].
    destruct value; [discriminate | exact Hval]. }
  cbn [rmatch] in Hstar. rewrite Hstar. reflexivity.
Qed.

Lemma search_labelled_line (label content gap value rest : string) :
  after_label label content = Some (":" ++ gap ++ value ++ rest) ->
  all_space gap = true ->
  begins_with_text value = true ->
  no_newline value = true ->
  line_end rest = true ->
  re_search (label_line label) content = Some (Some value).
Proof.
  intros Hafter Hgap Hval Hnl Hend.
  assert (Hat : forall s,
             rmatch (label_line label) s None (fun _ g => Some g)
             = match strip_prefix label s with
               | Some t =>
                   rmatch (Seq (Opt (Lit ":"))
                             (Seq (Star Space)
                                (Seq (Group (PlusLazy Dot))
                                   (Alt (Lit newline) Eos))))
                     t None (fun _ g => Some g)
               | None => None
               end).
  { intros s. unfold label_line.
    change (rmatch (Seq (lits label) ?r) s None ?k)
      with (rmatch (lits label) s None (fun s' g' => rmatch r s' g' k)).
    apply lits_match. }
  induction content as [|c content IH].
  - cbn [re_search]. rewrite Hat. cbn [after_label] in Hafter.
    destruct (strip_prefix label "") as [t|]; [|discriminate].
    replace t with (":" ++ gap ++ value ++ rest) by congruence.
    rewrite (line_tail_matches _ _ _ Hgap Hval Hnl Hend). reflexivity.
  - cbn [re_search]. rewrite Hat. cbn [after_label] in Hafter.
    destruct (strip_prefix label (String c content)) as [t|].
    + replace t with (":" ++ gap ++ value ++ rest) by congruence.
      rewrite (line_tail_matches _ _ _ Hgap Hval Hnl Hend). reflexivity.
    + exact (IH Hafter).
Qed.

(** X22. A line of the form  label: value  is read back: when the
    leftmost place where a label of the table is written (letter case
    ignored) is followed by a colon, then whitespace, then a value that does
    not begin with whitespace, holds no newline and runs to the end of its
    line or of the text, the map has the trimmed value under the label's key,
    unless the trimmed value is one of "Not found", "N/A", "Unknown". *)
Theorem labelled_line_is_extracted (self : FinancialDataProcessor)
  (content key label gap value rest : string) :
  NoDup (map fst (extraction_patterns self)) ->
  Forall (fun kp => is_label_line (snd kp)) (extraction_patterns self) ->
  In (key, label_line label) (extraction_patterns self) ->
  after_label label content = Some (":" ++ gap ++ value ++ rest) ->
  all_space gap = true ->
  begins_with_text value = true ->
  no_newline value = true ->
  line_end rest = true ->
  str_in (strip value) blocklist = false ->
  exists data,
    _extract_data_from_content self (JStr content) = Ret data /\
    assoc key data = Some (strip value).
Proof.
  intros Hnd Hlines Hin Hafter Hgap Hval Hnl Hend Hblock.
  assert (Hcap : Forall (fun kp => capturing (snd kp)) (extraction_patterns self)).
  { rewrite Forall_forall in *. intros kp Hkp.
    destruct (Hlines kp Hkp) as (l & ->). apply label_line_capturing. }
  unfold _extract_data_from_content.
  destruct (extract_loop_spec content (extraction_patterns self) [] Hnd Hcap)
    as (data & Hrun & Hspec); [reflexivity|].
  exists data. split; [exact Hrun|].
  apply Hspec. right. exists (label_line label). split; [exact Hin|].
  exists value. split; [|split; [|reflexivity]].
  - exact (search_labelled_line _ _ _ _ _ Hafter Hgap Hval Hnl Hend).
  - apply str_in_blocklist. exact Hblock.
Qed.

Lemma labelled_line_is_extracted_witness :
  exists data,
    _extract_data_from_content (__init__ None) (JStr two_field_text) = Ret data
    /\ assoc "revenue" data = Some (strip "$120B").
Proof.
  apply (labelled_line_is_extracted (__init__ None) two_field_text
           "revenue" "Revenue" " " "$120B"
           (String newline (line "Net income: Not found"))).
  - exact default_keys_nodup.
  - exact default_patterns_label_lines.
  - vm_compute. tauto.
  - vm_compute. reflexivity.
  - reflexivity.
  - reflexivity.
  - reflexivity.
  - reflexivity.
  - vm_compute. reflexivity.
Defined.

(** The place that counts is the leftmost one, inside a word or a value as
    well: the letters "eps" of "PepsiCo" are read as the label EPS. *)
Example label_inside_a_value :
  _extract_data_from_content (__init__ None) (JStr label_in_value)
  = Ret [("company name", "PepsiCo"); ("EPS", "iCo")].
Proof. vm_compute. reflexivity. Qed.
